(** * memo_ai: response recovery and schema coercion ([api/ai.py])

    A shallow embedding of [validate_and_fix_json], [analyze_text_with_ai]
    and [chat_analyze_text_with_ai], together with the pieces of the Python
    run time they rely on ([str] methods, [json.loads], [json.dumps],
    [str()], [bool()], [float()]), and the properties the specification
    states about them.

    Conventions.
    - A Python [str] is a Rocq [string] holding its UTF-8 encoding.  Every
      index the program computes comes from [find]/[rfind] of an ASCII
      character or from a constant offset behind an ASCII prefix, so slices
      cut the bytes where Python cuts the characters.
    - A Python [float] is an IEEE binary64 value of [SpecFloat.spec_float].
    - A [dict] is an association list in insertion order with unique keys.
    - A call that may raise returns a [result]; [print] is not modelled.
    - Module [Ai] has the program with [json.loads] and [json.dumps] as the
      JSON grammar defines them.  Module [Limits] has it with an
      interpreter that may give up on a call of either ([RecursionError] on
      deep nesting, [ValueError] on a long integer literal); with one that
      never does, the two agree ([validate_within_limits],
      [analyze_within_limits], [chat_within_limits]). *)

From Stdlib Require Import String Ascii List ZArith Lia Bool.
From Stdlib Require Import SpecFloat Permutation.
Import ListNotations.

Set Warnings "-register-all".

Open Scope string_scope.
Open Scope Z_scope.

(** ** Python [str] operations *)

Module PyStr.

Definition len (s : string) : Z := Z.of_nat (String.length s).

Definition startswith (s p : string) : bool := prefix p s.

Definition endswith (s p : string) : bool :=
  let n := String.length s in
  let m := String.length p in
  (m <=? n)%nat && String.eqb (substring (n - m) m s) p.

(** Slice bounds as [PySlice_AdjustIndices] computes them for step 1. *)
Definition adjust_index (n i : Z) : Z :=
  let j := if i <? 0 then i + n else i in
  if j <? 0 then 0 else if n <? j then n else j.

(** [s[start:stop]]; [None] is an omitted bound. *)
Definition slice (s : string) (start stop : option Z) : string :=
  let n := len s in
  let lo := match start with Some i => adjust_index n i | None => 0 end in
  let hi := match stop with Some i => adjust_index n i | None => n end in
  substring (Z.to_nat lo) (Z.to_nat (hi - lo)) s.

Fixpoint find_from (s sub : string) (i : Z) : Z :=
  if prefix sub s then i
  else match s with
       | EmptyString => -1
       | String _ s' => find_from s' sub (i + 1)
       end.

(** [s.find(sub)]: lowest index of [sub], or -1.  Indices count bytes;
    on ASCII text they are Python's. *)
Definition find (s sub : string) : Z := find_from s sub 0.

Fixpoint rfind_from (s sub : string) (i last : Z) : Z :=
  let last' := if prefix sub s then i else last in
  match s with
  | EmptyString => last'
  | String _ s' => rfind_from s' sub (i + 1) last'
  end.

(** [s.rfind(sub)]: highest index of [sub], or -1. *)
Definition rfind (s sub : string) : Z := rfind_from s sub 0 (-1).

(** [sub in s] for two strings. *)
Definition contains (s sub : string) : bool := negb (find s sub =? -1).

(** The character [c] stands somewhere in [s]. *)
Fixpoint occurs (c : ascii) (s : string) : bool :=
  match s with
  | EmptyString => false
  | String a s' => Ascii.eqb a c || occurs c s'
  end.

Definition byte (c : ascii) : N := N_of_ascii c.

(** The double quote character, and the one-character string of it. *)
Definition dquote : ascii := ascii_of_N 34.
Definition dq : string := String dquote "".

(** Characters [str.strip()] removes, by UTF-8 length.  One byte:
    U+0009..U+000D, U+001C..U+001F, U+0020. *)
Definition space1 (a : ascii) : bool :=
  let n := byte a in
  ((9 <=? n) && (n <=? 13) || (28 <=? n) && (n <=? 32))%N.

(** Two bytes: U+0085 (C2 85) and U+00A0 (C2 A0). *)
Definition space2 (a b : ascii) : bool :=
  ((byte a =? 194) && ((byte b =? 133) || (byte b =? 160)))%N.

(** Three bytes: U+1680, U+2000..U+200A, U+2028, U+2029, U+202F, U+205F,
    U+3000. *)
Definition space3 (a b c : ascii) : bool :=
  let x := byte a in
  let y := byte b in
  let z := byte c in
  ((x =? 225) && (y =? 154) && (z =? 128)
   || (x =? 226) && (y =? 128)
      && ((128 <=? z) && (z <=? 138) || (z =? 168) || (z =? 169) || (z =? 175))
   || (x =? 226) && (y =? 129) && (z =? 159)
   || (x =? 227) && (y =? 128) && (z =? 128))%N.

(** Leading characters removed: the one-byte ones [sp] accepts, and the
    longer ones above. *)
Fixpoint lstrip_with (sp : ascii -> bool) (s : string) : string :=
  match s with
  | EmptyString => s
  | String a s1 =>
      if sp a then lstrip_with sp s1
      else match s1 with
           | EmptyString => s
           | String b s2 =>
               if space2 a b then lstrip_with sp s2
               else match s2 with
                    | EmptyString => s
                    | String c s3 =>
                        if space3 a b c then lstrip_with sp s3 else s
                    end
           end
  end.

(** The same on the reversed string: the bytes of a character come last
    byte first. *)
Fixpoint lstrip_rev_with (sp : ascii -> bool) (s : string) : string :=
  match s with
  | EmptyString => s
  | String a s1 =>
      if sp a then lstrip_rev_with sp s1
      else match s1 with
           | EmptyString => s
           | String b s2 =>
               if space2 b a then lstrip_rev_with sp s2
               else match s2 with
                    | EmptyString => s
                    | String c s3 =>
                        if space3 c b a then lstrip_rev_with sp s3 else s
                    end
           end
  end.

Fixpoint rev_append (s acc : string) : string :=
  match s with
  | EmptyString => acc
  | String a s' => rev_append s' (String a acc)
  end.

Definition rev (s : string) : string := rev_append s EmptyString.

Definition strip_with (sp : ascii -> bool) (s : string) : string :=
  rev (lstrip_rev_with sp (rev (lstrip_with sp s))).

(** [s.strip()] *)
Definition strip (s : string) : string := strip_with space1 s.

(** [sep.join(parts)] for parts already known to be strings. *)
Fixpoint join (sep : string) (parts : list string) : string :=
  match parts with
  | [] => ""
  | [p] => p
  | p :: ps => p ++ sep ++ join sep ps
  end.

Fixpoint repeat (c : ascii) (n : nat) : string :=
  match n with
  | O => ""
  | S n' => String c (repeat c n')
  end.

End PyStr.

(** ** Decimal text of integers *)

Module Dec.

Definition digit (d : Z) : ascii := ascii_of_N (Z.to_N (48 + d)).

Fixpoint of_nonneg (fuel : nat) (n : Z) (acc : string) : string :=
  match fuel with
  | O => acc
  | S fuel' =>
      let acc' := String (digit (n mod 10)) acc in
      if n <? 10 then acc' else of_nonneg fuel' (n / 10) acc'
  end.

(** Enough digits for any [n]: one per bit. *)
Definition digits_fuel (n : Z) : nat := S (Z.to_nat (Z.log2 n)).

(** [str(n)] for an [int]. *)
Definition of_Z (n : Z) : string :=
  if n <? 0 then String "-" (of_nonneg (digits_fuel (- n)) (- n) "")
  else of_nonneg (digits_fuel n) n "".

Definition is_digit (a : ascii) : bool :=
  let n := N_of_ascii a in ((48 <=? n) && (n <=? 57))%N.

Definition digit_val (a : ascii) : Z := Z.of_N (N_of_ascii a) - 48.

(** Value of a run of ASCII digits, most significant first. *)
Fixpoint to_Z (s : string) (acc : Z) : Z :=
  match s with
  | EmptyString => acc
  | String a s' => to_Z s' (10 * acc + digit_val a)
  end.

(** Longest prefix of ASCII digits, and what follows it. *)
Fixpoint span_digits (s : string) : string * string :=
  match s with
  | String a s' =>
      if is_digit a
      then let '(ds, rest) := span_digits s' in (String a ds, rest)
      else ("", s)
  | EmptyString => ("", s)
  end.

End Dec.

(** ** Python [float]: IEEE binary64 *)

Module PyFloat.

Definition prec : Z := 53.
Definition emax : Z := 1024.

Definition nan : spec_float := S754_nan.
Definition inf (neg : bool) : spec_float := S754_infinity neg.

(** The float nearest to an integer (ties to even); an infinity stands for
    a magnitude beyond the largest float. *)
Definition of_Z (z : Z) : spec_float := binary_normalize prec emax z 0 false.

(** The float nearest to [(-1)^neg * m * 10^e], as the correctly rounded
    string-to-double conversion gives it.  The first two tests only spare
    the arithmetic: beyond [10^310] every value rounds to an infinity, and
    below [2^(-1080)] to a zero. *)
Definition of_decimal (neg : bool) (m e : Z) : spec_float :=
  match m with
  | Zpos p =>
      if 310 <? e then S754_infinity neg
      else if Z.log2 (Zpos p) + 3 * e <? -1080 then S754_zero neg
      else if 0 <=? e
      then binary_round prec emax neg (p * Z.to_pos (10 ^ e))%positive 0
      else SFdiv prec emax (S754_finite neg p 0)
                           (S754_finite false (Z.to_pos (10 ^ (- e))) 0)
  | _ => S754_zero neg
  end.

(** [x != 0.0], the truth value of a float. *)
Definition nonzero (x : spec_float) : bool :=
  match x with
  | S754_zero _ => false
  | _ => true
  end.

Definition same (x y : spec_float) : bool :=
  match x, y with
  | S754_finite s m e, S754_finite s' m' e' =>
      Bool.eqb s s' && Pos.eqb m m' && Z.eqb e e'
  | S754_zero s, S754_zero s' => Bool.eqb s s'
  | S754_infinity s, S754_infinity s' => Bool.eqb s s'
  | S754_nan, S754_nan => true
  | _, _ => false
  end.

(** *** Shortest decimal text that reads back as the same float *)

(** A positive finite value as a fraction [num / den]. *)
Definition fraction (m : positive) (e : Z) : Z * Z :=
  if 0 <=? e then (Zpos m * 2 ^ e, 1) else (Zpos m, 2 ^ (- e)).

Fixpoint decpt_search (fuel : nat) (num den k : Z) : Z :=
  match fuel with
  | O => k
  | S fuel' =>
      if (if 0 <=? k then num <? den * 10 ^ k else num * 10 ^ (- k) <? den)
      then k
      else decpt_search fuel' num den (k + 1)
  end.

(** The least [k] with [num / den < 10^k]. *)
Definition decpt_of (num den : Z) : Z :=
  let guess := (Z.log2 num - Z.log2 den) * 30103 / 100000 in
  decpt_search 8 num den (guess - 2).

(** [num / den] scaled by [10^(-q)], as a fraction. *)
Definition scaled (num den q : Z) : Z * Z :=
  if 0 <=? q then (num, den * 10 ^ q) else (num * 10 ^ (- q), den).

(** The [p]-digit decimal, if any, that reads back as [x]; of two, the one
    nearer to [x]. *)
Definition candidate (x : spec_float) (num den k p : Z) : option (Z * Z) :=
  let q := k - p in
  let '(a, b) := scaled num den q in
  let lo := a / b in
  let r := a mod b in
  let hi := lo + 1 in
  let ok_lo := same (of_decimal false lo q) x in
  let ok_hi := same (of_decimal false hi q) x in
  match ok_lo, ok_hi with
  | true, true =>
      match 2 * r ?= b with
      | Lt => Some (lo, q)
      | Gt => Some (hi, q)
      | Eq => Some (if Z.even lo then lo else hi, q)
      end
  | true, false => Some (lo, q)
  | false, true => Some (hi, q)
  | false, false => None
  end.

Fixpoint shortest_search (fuel : nat) (x : spec_float) (num den k p : Z)
  : Z * Z :=
  match fuel with
  | O => (0, 0)
  | S fuel' =>
      match candidate x num den k p with
      | Some c => c
      | None => shortest_search fuel' x num den k (p + 1)
      end
  end.

Fixpoint drop_zeros (fuel : nat) (c q : Z) : Z * Z :=
  match fuel with
  | O => (c, q)
  | S fuel' =>
      if (c mod 10 =? 0) && negb (c =? 0)
      then drop_zeros fuel' (c / 10) (q + 1)
      else (c, q)
  end.

(** Digits [ds] and decimal point position [dp] of a positive finite
    float: its shortest decimal text is [0.ds * 10^dp]. *)
Definition shortest (m : positive) (e : Z) : string * Z :=
  let '(num, den) := fraction m e in
  let k := decpt_of num den in
  let '(c0, q0) := shortest_search 17 (S754_finite false m e) num den k 1 in
  let '(c, q) := drop_zeros 20 c0 q0 in
  let ds := Dec.of_Z c in
  (ds, PyStr.len ds + q).

Definition zeros (n : Z) : string := PyStr.repeat "0" (Z.to_nat n).

(** [float_repr_style = 'short'], format code ['r']: fixed notation while
    [-4 < dp <= 16], else an exponent of at least two digits. *)
Definition format_short (ds : string) (dp : Z) : string :=
  let n := PyStr.len ds in
  if (-4 <? dp) && (dp <=? 16) then
    if dp <=? 0 then "0." ++ zeros (- dp) ++ ds
    else if n <=? dp then ds ++ zeros (dp - n) ++ ".0"
    else PyStr.slice ds None (Some dp) ++ "." ++ PyStr.slice ds (Some dp) None
  else
    let x := dp - 1 in
    let mant :=
      if n <=? 1 then ds
      else PyStr.slice ds None (Some 1) ++ "." ++ PyStr.slice ds (Some 1) None in
    let xs := Dec.of_Z (Z.abs x) in
    mant ++ "e" ++ (if x <? 0 then "-" else "+")
         ++ (if PyStr.len xs <? 2 then "0" ++ xs else xs).

(** [repr(x)], which is also [str(x)], for a float. *)
Definition repr (x : spec_float) : string :=
  match x with
  | S754_nan => "nan"
  | S754_infinity s => if s then "-inf" else "inf"
  | S754_zero s => if s then "-0.0" else "0.0"
  | S754_finite s m e =>
      let '(ds, dp) := shortest m e in
      (if s then "-" else "") ++ format_short ds dp
  end.

End PyFloat.

(** ** Python values, exceptions and builtins *)

Module Py.

(** The values [json.loads] produces. *)
Inductive pyvalue : Type :=
| PNone
| PBool (b : bool)
| PInt (z : Z)
| PFloat (x : spec_float)
| PStr (s : string)
| PList (l : list pyvalue)
| PDict (d : list (string * pyvalue)).

Definition dict : Type := list (string * pyvalue).

(** Exception classes the program meets.  [JSONDecodeError] derives from
    [ValueError]; every class here derives from [Exception]. *)
Inductive exn_class : Type :=
| JSONDecodeError
| ValueError
| TypeError
| AttributeError
| OverflowError
| KeyError
| OtherException (name : string).

(** An exception instance: its class and [str(e)]. *)
Record exn : Type := mk_exn { exn_cls : exn_class; exn_str : string }.

Inductive result (A : Type) : Type :=
| Ok (a : A)
| Raise (e : exn).

Arguments Ok {A} a.
Arguments Raise {A} e.

Definition bind {A B : Type} (c : result A) (k : A -> result B) : result B :=
  match c with
  | Ok a => k a
  | Raise e => Raise e
  end.

(** [isinstance(e, (ValueError, TypeError))] *)
Definition is_value_or_type_error (e : exn) : bool :=
  match exn_cls e with
  | JSONDecodeError | ValueError | TypeError => true
  | _ => false
  end.

(** *** dict operations *)

Fixpoint dict_get {A : Type} (d : list (string * A)) (k : string) : option A :=
  match d with
  | [] => None
  | (k', v) :: d' => if String.eqb k' k then Some v else dict_get d' k
  end.

(** [k in d] *)
Definition dict_has {A : Type} (d : list (string * A)) (k : string) : bool :=
  match dict_get d k with
  | Some _ => true
  | None => false
  end.

(** [d[k] = v]: a present key keeps its place, a new key goes last. *)
Fixpoint dict_set {A : Type} (d : list (string * A)) (k : string) (v : A)
  : list (string * A) :=
  match d with
  | [] => [(k, v)]
  | (k', v') :: d' =>
      if String.eqb k' k then (k', v) :: d' else (k', v') :: dict_set d' k v
  end.

(** [del d[k]] for a key that is present. *)
Fixpoint dict_del {A : Type} (d : list (string * A)) (k : string)
  : list (string * A) :=
  match d with
  | [] => []
  | (k', v') :: d' =>
      if String.eqb k' k then d' else (k', v') :: dict_del d' k
  end.

Definition dict_keys {A : Type} (d : list (string * A)) : list string :=
  map fst d.

(** [dict(pairs)] *)
Definition dict_of_pairs (pairs : list (string * pyvalue)) : dict :=
  fold_left (fun d kv => dict_set d (fst kv) (snd kv)) pairs [].

(** *** Truth value, type name *)

(** [bool(v)] *)
Definition truthy (v : pyvalue) : bool :=
  match v with
  | PNone => false
  | PBool b => b
  | PInt z => negb (z =? 0)
  | PFloat x => PyFloat.nonzero x
  | PStr s => negb (String.eqb s "")
  | PList l => match l with [] => false | _ => true end
  | PDict d => match d with [] => false | _ => true end
  end.

(** [type(v).__name__] *)
Definition type_name (v : pyvalue) : string :=
  match v with
  | PNone => "NoneType"
  | PBool _ => "bool"
  | PInt _ => "int"
  | PFloat _ => "float"
  | PStr _ => "str"
  | PList _ => "list"
  | PDict _ => "dict"
  end.

Definition is_dict (v : pyvalue) : bool :=
  match v with PDict _ => true | _ => false end.

Definition is_list (v : pyvalue) : bool :=
  match v with PList _ => true | _ => false end.

Definition is_str (v : pyvalue) : bool :=
  match v with PStr _ => true | _ => false end.

(** *** [repr] and [str] *)

Definition hex_digit (n : N) : ascii :=
  ascii_of_N (if (n <? 10)%N then 48 + n else 87 + n).

Definition has_char (c : ascii) (s : string) : bool :=
  PyStr.contains s (String c "").

(** One character of [repr] of a string quoted with [q].  Bytes of
    non-ASCII characters are kept: those characters are taken to be
    printable. *)
Definition repr_char (q a : ascii) : string :=
  let n := N_of_ascii a in
  if Ascii.eqb a q || Ascii.eqb a "\" then String "\" (String a "")
  else if (n =? 9)%N then "\t"
  else if (n =? 10)%N then "\n"
  else if (n =? 13)%N then "\r"
  else if ((n <? 32) || (n =? 127))%N
       then String "\" (String "x" (String (hex_digit (n / 16))
                                      (String (hex_digit (n mod 16)) "")))
  else String a "".

Fixpoint repr_chars (q : ascii) (s : string) : string :=
  match s with
  | EmptyString => ""
  | String a s' => repr_char q a ++ repr_chars q s'
  end.

(** [repr(s)] for a string: single quotes unless the text has a single
    quote and no double quote. *)
Definition repr_str (s : string) : string :=
  let q := if has_char "'" s && negb (has_char PyStr.dquote s) then PyStr.dquote
           else "'"%char in
  String q (repr_chars q s ++ String q "").

Fixpoint repr (v : pyvalue) : string :=
  match v with
  | PNone => "None"
  | PBool b => if b then "True" else "False"
  | PInt z => Dec.of_Z z
  | PFloat x => PyFloat.repr x
  | PStr s => repr_str s
  | PList l => "[" ++ PyStr.join ", " (map repr l) ++ "]"
  | PDict d =>
      "{" ++ PyStr.join ", "
               (map (fun kv => match kv with
                               | (k, x) => repr_str k ++ ": " ++ repr x
                               end) d)
          ++ "}"
  end.

(** [str(v)] *)
Definition str (v : pyvalue) : string :=
  match v with
  | PStr s => s
  | _ => repr v
  end.

End Py.

(** ** [json.loads] and [json.dumps] *)

Module Json.

Import Py.

Definition is_ws (a : ascii) : bool :=
  let n := N_of_ascii a in
  ((n =? 32) || (n =? 9) || (n =? 10) || (n =? 13))%N.

Fixpoint skip_ws (s : string) : string :=
  match s with
  | String a s' => if is_ws a then skip_ws s' else s
  | EmptyString => s
  end.

Definition hex_val (a : ascii) : option Z :=
  let n := Z.of_N (N_of_ascii a) in
  if (48 <=? n) && (n <=? 57) then Some (n - 48)
  else if (65 <=? n) && (n <=? 70) then Some (n - 55)
  else if (97 <=? n) && (n <=? 102) then Some (n - 87)
  else None.

Definition hex4 (a b c d : ascii) : option Z :=
  match hex_val a, hex_val b, hex_val c, hex_val d with
  | Some x, Some y, Some z, Some w => Some (((x * 16 + y) * 16 + z) * 16 + w)
  | _, _, _, _ => None
  end.

Definition chr_byte (n : Z) : ascii := ascii_of_N (Z.to_N n).

(** UTF-8 bytes of a code point (a lone surrogate gets its three bytes). *)
Definition utf8_encode (cp : Z) : string :=
  if cp <? 128 then String (chr_byte cp) ""
  else if cp <? 2048 then
    String (chr_byte (192 + cp / 64)) (String (chr_byte (128 + cp mod 64)) "")
  else if cp <? 65536 then
    String (chr_byte (224 + cp / 4096))
      (String (chr_byte (128 + (cp / 64) mod 64))
         (String (chr_byte (128 + cp mod 64)) ""))
  else
    String (chr_byte (240 + cp / 262144))
      (String (chr_byte (128 + (cp / 4096) mod 64))
         (String (chr_byte (128 + (cp / 64) mod 64))
            (String (chr_byte (128 + cp mod 64)) ""))).

(** The [BACKSLASH] table of the decoder. *)
Definition simple_escape (a : ascii) : option ascii :=
  let n := N_of_ascii a in
  if (n =? 34)%N then Some a
  else if (n =? 92)%N then Some a
  else if (n =? 47)%N then Some a
  else if (n =? 98)%N then Some (ascii_of_N 8)
  else if (n =? 102)%N then Some (ascii_of_N 12)
  else if (n =? 110)%N then Some (ascii_of_N 10)
  else if (n =? 114)%N then Some (ascii_of_N 13)
  else if (n =? 116)%N then Some (ascii_of_N 9)
  else None.

Definition is_high_surrogate (u : Z) : bool := (55296 <=? u) && (u <=? 56319).
Definition is_low_surrogate (u : Z) : bool := (56320 <=? u) && (u <=? 57343).

(** The code point a surrogate pair stands for. *)
Definition join_surrogates (hi lo : Z) : Z :=
  65536 + ((hi - 55296) * 1024 + (lo - 56320)).

(** The low surrogate of a [\uXXXX] escape at the head of [s]. *)
Definition low_surrogate_escape (s : string) : option Z :=
  match s with
  | String b (String u (String g1 (String g2 (String g3 (String g4 _))))) =>
      if Ascii.eqb b "\" && Ascii.eqb u "u" then
        match hex4 g1 g2 g3 g4 with
        | Some u2 => if is_low_surrogate u2 then Some u2 else None
        | None => None
        end
      else None
  | _ => None
  end.

(** [scanstring] in strict mode, from the character behind the opening
    quote: the decoded text and what follows the closing quote. *)
Fixpoint scanstring (s : string) : option (string * string) :=
  match s with
  | EmptyString => None
  | String a s1 =>
      if Ascii.eqb a PyStr.dquote then Some ("", s1)
      else if Ascii.eqb a "\" then
        match s1 with
        | EmptyString => None
        | String e s2 =>
            if Ascii.eqb e "u" then
              match s2 with
              | String h1 (String h2 (String h3 (String h4 s6))) =>
                  match hex4 h1 h2 h3 h4 with
                  | None => None
                  | Some uni =>
                      match
                        (if is_high_surrogate uni
                         then low_surrogate_escape s6 else None),
                        s6
                      with
                      | Some uni2,
                        String _ (String _ (String _ (String _
                          (String _ (String _ s12))))) =>
                          match scanstring s12 with
                          | Some (t, r) =>
                              Some (utf8_encode (join_surrogates uni uni2)
                                    ++ t, r)
                          | None => None
                          end
                      | _, _ =>
                          match scanstring s6 with
                          | Some (t, r) => Some (utf8_encode uni ++ t, r)
                          | None => None
                          end
                      end
                  end
              | _ => None
              end
            else
              match simple_escape e with
              | None => None
              | Some c =>
                  match scanstring s2 with
                  | Some (t, r) => Some (String c t, r)
                  | None => None
                  end
              end
        end
      else if (N_of_ascii a <? 32)%N then None
      else
        match scanstring s1 with
        | Some (t, r) => Some (String a t, r)
        | None => None
        end
  end.

(** Integer part of a number: [0], or a non-zero digit and more digits. *)
Definition match_int (s : string) : option (string * string) :=
  match s with
  | String a s' =>
      if Ascii.eqb a "0" then Some ("0", s')
      else if Dec.is_digit a then Some (Dec.span_digits s)
      else None
  | EmptyString => None
  end.

(** [.] and at least one digit. *)
Definition match_frac (s : string) : option (string * string) :=
  match s with
  | String a s' =>
      if Ascii.eqb a "." then
        match Dec.span_digits s' with
        | (EmptyString, _) => None
        | (ds, r) => Some (ds, r)
        end
      else None
  | EmptyString => None
  end.

(** [e] or [E], an optional sign, at least one digit: the exponent. *)
Definition match_exp (s : string) : option (Z * string) :=
  match s with
  | String a s' =>
      if Ascii.eqb a "e" || Ascii.eqb a "E" then
        let '(neg, s'') :=
          match s' with
          | String b t =>
              if Ascii.eqb b "-" then (true, t)
              else if Ascii.eqb b "+" then (false, t)
              else (false, s')
          | EmptyString => (false, s')
          end in
        match Dec.span_digits s'' with
        | (EmptyString, _) => None
        | (ds, r) => Some (if neg then - Dec.to_Z ds 0 else Dec.to_Z ds 0, r)
        end
      else None
  | EmptyString => None
  end.

(** The number behind the sign: [int] without fraction and exponent,
    [float] otherwise. *)
Definition match_unsigned (neg : bool) (s0 : string)
  : option (pyvalue * string) :=
  match match_int s0 with
  | None => None
  | Some (ip, s1) =>
      let '(fp, s2, has_frac) :=
        match match_frac s1 with
        | Some (fp, s2) => (fp, s2, true)
        | None => ("", s1, false)
        end in
      let '(ex, s3, has_exp) :=
        match match_exp s2 with
        | Some (ex, s3) => (ex, s3, true)
        | None => (0, s2, false)
        end in
      if has_frac || has_exp then
        Some (PFloat (PyFloat.of_decimal neg (Dec.to_Z (ip ++ fp) 0)
                        (ex - PyStr.len fp)), s3)
      else
        Some (PInt (if neg then - Dec.to_Z ip 0 else Dec.to_Z ip 0), s3)
  end.

(** A number, with its optional sign. *)
Definition match_number (s : string) : option (pyvalue * string) :=
  match s with
  | String a s' =>
      if Ascii.eqb a "-" then match_unsigned true s'
      else match_unsigned false s
  | EmptyString => None
  end.

Definition drop (n : nat) (s : string) : string :=
  substring n (String.length s - n) s.

(** A named constant at the head of [s]. *)
Definition match_constant (s : string) : option (pyvalue * string) :=
  if prefix "null" s then Some (PNone, drop 4 s)
  else if prefix "true" s then Some (PBool true, drop 4 s)
  else if prefix "false" s then Some (PBool false, drop 5 s)
  else if prefix "NaN" s then Some (PFloat PyFloat.nan, drop 3 s)
  else if prefix "Infinity" s then Some (PFloat (PyFloat.inf false), drop 8 s)
  else if prefix "-Infinity" s then Some (PFloat (PyFloat.inf true), drop 9 s)
  else None.

(** [scan_once]: one JSON term at the head of [s] and what follows it.
    [parse_members] is the loop of the object parser, entered at a key;
    [parse_elems] the loop of the array parser, entered at a term.  Each
    call spends one unit of [fuel]; a call reads at least one character
    before the next one starts. *)
Fixpoint scan_once (fuel : nat) (s : string) : option (pyvalue * string) :=
  match fuel with
  | O => None
  | S fuel' =>
      match s with
      | EmptyString => None
      | String a s1 =>
          if Ascii.eqb a PyStr.dquote then
            match scanstring s1 with
            | Some (t, r) => Some (PStr t, r)
            | None => None
            end
          else if Ascii.eqb a "{" then
            match skip_ws s1 with
            | String b r =>
                if Ascii.eqb b "}" then Some (PDict [], r)
                else match parse_members fuel' (skip_ws s1) [] with
                     | Some (d, r') => Some (PDict d, r')
                     | None => None
                     end
            | EmptyString => None
            end
          else if Ascii.eqb a "[" then
            match skip_ws s1 with
            | String b r =>
                if Ascii.eqb b "]" then Some (PList [], r)
                else match parse_elems fuel' (skip_ws s1) with
                     | Some (l, r') => Some (PList l, r')
                     | None => None
                     end
            | EmptyString => None
            end
          else
            match match_constant s with
            | Some c => Some c
            | None => match_number s
            end
      end
  end

with parse_members (fuel : nat) (s : string) (acc : dict)
  : option (dict * string) :=
  match fuel with
  | O => None
  | S fuel' =>
      match s with
      | String q s1 =>
          if Ascii.eqb q PyStr.dquote then
            match scanstring s1 with
            | None => None
            | Some (key, s2) =>
                match skip_ws s2 with
                | String c s3 =>
                    if Ascii.eqb c ":" then
                      match scan_once fuel' (skip_ws s3) with
                      | None => None
                      | Some (v, s4) =>
                          let acc' := dict_set acc key v in
                          match skip_ws s4 with
                          | String d s5 =>
                              if Ascii.eqb d "}" then Some (acc', s5)
                              else if Ascii.eqb d "," then
                                parse_members fuel' (skip_ws s5) acc'
                              else None
                          | EmptyString => None
                          end
                      end
                    else None
                | EmptyString => None
                end
            end
          else None
      | EmptyString => None
      end
  end

with parse_elems (fuel : nat) (s : string) : option (list pyvalue * string) :=
  match fuel with
  | O => None
  | S fuel' =>
      match scan_once fuel' s with
      | None => None
      | Some (v, s1) =>
          match skip_ws s1 with
          | String d s2 =>
              if Ascii.eqb d "]" then Some ([v], s2)
              else if Ascii.eqb d "," then
                match parse_elems fuel' (skip_ws s2) with
                | Some (l, r) => Some (v :: l, r)
                | None => None
                end
              else None
          | EmptyString => None
          end
      end
  end.

(** [json.loads(s)] for a [str], as the JSON grammar of the decoder has
    it: the value of a JSON text, [None] for a text that is none
    ([JSONDecodeError]).  The interpreter's recursion limit and its limit
    on the digits of an integer literal, at which the call raises another
    exception, are those of [Limits.loads]. *)
Definition loads (s : string) : option pyvalue :=
  match scan_once (2 + String.length s) (skip_ws s) with
  | Some (v, r) =>
      match skip_ws r with
      | EmptyString => Some v
      | _ => None
      end
  | None => None
  end.

(** *** [json.dumps] with its default arguments *)

Definition cont (b : ascii) : Z := Z.of_N (N_of_ascii b) mod 64.

(** Code points of UTF-8 text; a byte that starts no well-formed sequence
    stands for itself. *)
Fixpoint utf8_decode (s : string) : list Z :=
  match s with
  | EmptyString => []
  | String a s1 =>
      let n := Z.of_N (N_of_ascii a) in
      if n <? 192 then n :: utf8_decode s1
      else
        match s1 with
        | EmptyString => [n]
        | String b s2 =>
            if n <? 224 then ((n - 192) * 64 + cont b) :: utf8_decode s2
            else
              match s2 with
              | EmptyString => n :: utf8_decode s1
              | String c s3 =>
                  if n <? 240
                  then (((n - 224) * 64 + cont b) * 64 + cont c)
                         :: utf8_decode s3
                  else
                    match s3 with
                    | EmptyString => n :: utf8_decode s1
                    | String d s4 =>
                        ((((n - 240) * 64 + cont b) * 64 + cont c) * 64
                         + cont d) :: utf8_decode s4
                    end
              end
        end
  end.

Definition hex4_of (u : Z) : string :=
  let h := fun k => String (hex_digit (Z.to_N ((u / k) mod 16))) "" in
  h 4096 ++ h 256 ++ h 16 ++ h 1.

Definition u_escape (u : Z) : string := "\u" ++ hex4_of u.

(** One character of [encode_basestring_ascii]. *)
Definition escape_ascii (cp : Z) : string :=
  if cp =? 34 then String "\" PyStr.dq
  else if cp =? 92 then "\\"
  else if cp =? 10 then "\n"
  else if cp =? 13 then "\r"
  else if cp =? 9 then "\t"
  else if cp =? 8 then "\b"
  else if cp =? 12 then "\f"
  else if (32 <=? cp) && (cp <=? 126) then String (chr_byte cp) ""
  else if 65536 <=? cp then
    let v := cp - 65536 in
    u_escape (55296 + v / 1024) ++ u_escape (56320 + v mod 1024)
  else u_escape cp.

Definition encode_str (s : string) : string :=
  PyStr.dq ++ String.concat "" (map escape_ascii (utf8_decode s)) ++ PyStr.dq.

Definition float_text (x : spec_float) : string :=
  match x with
  | S754_nan => "NaN"
  | S754_infinity s => if s then "-Infinity" else "Infinity"
  | _ => PyFloat.repr x
  end.

(** [json.dumps(v)] for a value whose dict keys are strings. *)
Fixpoint dumps (v : pyvalue) : string :=
  match v with
  | PNone => "null"
  | PBool b => if b then "true" else "false"
  | PInt z => Dec.of_Z z
  | PFloat x => float_text x
  | PStr s => encode_str s
  | PList l => "[" ++ PyStr.join ", " (map dumps l) ++ "]"
  | PDict d =>
      "{" ++ PyStr.join ", "
               (map (fun kv => match kv with
                               | (k, x) => encode_str k ++ ": " ++ dumps x
                               end) d)
          ++ "}"
  end.

End Json.

(** ** Builtins that may raise: [float()], [in], [.get], [str.join] *)

Module Builtin.

Import Py.

Definition lower (a : ascii) : ascii :=
  let n := N_of_ascii a in
  if ((65 <=? n) && (n <=? 90))%N then ascii_of_N (n + 32) else a.

(** Case-insensitive match of the lower-case word [t] at the head of [s]:
    what follows the match. *)
Fixpoint imatch (s t : string) : option string :=
  match t with
  | EmptyString => Some s
  | String c t' =>
      match s with
      | String a s' => if Ascii.eqb (lower a) c then imatch s' t' else None
      | EmptyString => None
      end
  end.

(** Underscores of a numeric literal: each one stands between two digits.
    [prev] is the character before [s]. *)
Fixpoint drop_underscores (prev : ascii) (s : string) : option string :=
  match s with
  | EmptyString => if Ascii.eqb prev "_" then None else Some ""
  | String c s' =>
      if Ascii.eqb c "_" then
        if Dec.is_digit prev then drop_underscores c s' else None
      else if Ascii.eqb prev "_" && negb (Dec.is_digit c) then None
      else match drop_underscores c s' with
           | Some t => Some (String c t)
           | None => None
           end
  end.

Definition split_sign (s : string) : bool * string :=
  match s with
  | String a s' =>
      if Ascii.eqb a "-" then (true, s')
      else if Ascii.eqb a "+" then (false, s')
      else (false, s)
  | EmptyString => (false, s)
  end.

(** The decimal grammar of the string-to-double conversion: sign, digits,
    an optional point and digits, at least one digit in all, and an
    optional exponent. *)
Definition strtod (s : string) : option (spec_float * string) :=
  let '(neg, s0) := split_sign s in
  let '(ip, s1) := Dec.span_digits s0 in
  let '(fp, s2) :=
    match s1 with
    | String a t => if Ascii.eqb a "." then Dec.span_digits t else ("", s1)
    | EmptyString => ("", s1)
    end in
  if String.eqb ip "" && String.eqb fp "" then None
  else
    let '(ex, s3) :=
      match Json.match_exp s2 with
      | Some r => r
      | None => (0, s2)
      end in
    Some (PyFloat.of_decimal neg (Dec.to_Z (ip ++ fp) 0) (ex - PyStr.len fp),
          s3).

(** [inf], [infinity] and [nan] in any case, with an optional sign. *)
Definition parse_inf_or_nan (s : string) : option (spec_float * string) :=
  let '(neg, s0) := split_sign s in
  match imatch s0 "inf" with
  | Some r =>
      match imatch r "inity" with
      | Some r' => Some (PyFloat.inf neg, r')
      | None => Some (PyFloat.inf neg, r)
      end
  | None =>
      match imatch s0 "nan" with
      | Some r => Some (PyFloat.nan, r)
      | None => None
      end
  end.

(** One-byte white space of [float]: U+0009..U+000D and U+0020. *)
Definition c_space (a : ascii) : bool :=
  let n := N_of_ascii a in
  ((9 <=? n) && (n <=? 13) || (n =? 32))%N.

(** [float(s)] for a string; [None] is [ValueError].  White space around
    the number is dropped: the characters [str.strip] drops, less
    U+001C..U+001F.  Decimal digits outside ASCII, which [float] also
    reads, are not modelled. *)
Definition float_of_string (s : string) : option spec_float :=
  match drop_underscores (ascii_of_N 0) (PyStr.strip_with c_space s) with
  | None => None
  | Some t =>
      match (match strtod t with
             | Some r => Some r
             | None => parse_inf_or_nan t
             end) with
      | Some (x, EmptyString) => Some x
      | _ => None
      end
  end.

(** [float(v)] *)
Definition float (v : pyvalue) : result spec_float :=
  match v with
  | PBool b => Ok (PyFloat.of_Z (if b then 1 else 0))
  | PInt z =>
      match PyFloat.of_Z z with
      | S754_infinity _ =>
          Raise (mk_exn OverflowError "int too large to convert to float")
      | x => Ok x
      end
  | PFloat x => Ok x
  | PStr s =>
      match float_of_string s with
      | Some x => Ok x
      | None =>
          Raise (mk_exn ValueError
                   ("could not convert string to float: " ++ repr_str s))
      end
  | _ =>
      Raise (mk_exn TypeError
               ("float() argument must be a string or a real number, not '"
                ++ type_name v ++ "'"))
  end.

(** [x == s] for a string [s] *)
Definition eq_str (x : pyvalue) (s : string) : bool :=
  match x with
  | PStr t => String.eqb t s
  | _ => false
  end.

(** [key in t] for a string [key] *)
Definition contains (key : string) (t : pyvalue) : result bool :=
  match t with
  | PDict d => Ok (dict_has d key)
  | PStr s => Ok (PyStr.contains s key)
  | PList l => Ok (existsb (fun x => eq_str x key) l)
  | _ =>
      Raise (mk_exn TypeError
               ("argument of type '" ++ type_name t ++ "' is not iterable"))
  end.

Definition no_attribute (v : pyvalue) (attr : string) : exn :=
  mk_exn AttributeError
    ("'" ++ type_name v ++ "' object has no attribute '" ++ attr ++ "'").

(** [t.get(key, default)] *)
Definition get (t : pyvalue) (key : string) (default : pyvalue)
  : result pyvalue :=
  match t with
  | PDict d =>
      Ok (match dict_get d key with Some x => x | None => default end)
  | _ => Raise (no_attribute t "get")
  end.

(** [v.keys()] *)
Definition keys (v : pyvalue) : result (list string) :=
  match v with
  | PDict d => Ok (dict_keys d)
  | _ => Raise (no_attribute v "keys")
  end.

Definition not_subscriptable (v : pyvalue) : exn :=
  mk_exn TypeError
    (match v with
     | PList _ => "list indices must be integers or slices, not str"
     | PStr _ => "string indices must be integers, not 'str'"
     | _ => "'" ++ type_name v ++ "' object is not subscriptable"
     end).

(** [v[key]] for a string [key] *)
Definition getitem (v : pyvalue) (key : string) : result pyvalue :=
  match v with
  | PDict d =>
      match dict_get d key with
      | Some x => Ok x
      | None => Raise (mk_exn KeyError (repr_str key))
      end
  | _ => Raise (not_subscriptable v)
  end.

(** [v[key] = x] for a string [key]: the updated [v] *)
Definition setitem (v : pyvalue) (key : string) (x : pyvalue)
  : result pyvalue :=
  match v with
  | PDict d => Ok (PDict (dict_set d key x))
  | PList _ => Raise (not_subscriptable v)
  | _ =>
      Raise (mk_exn TypeError
               ("'" ++ type_name v
                ++ "' object does not support item assignment"))
  end.

(** [del v[key]] for a string [key]: the updated [v] *)
Definition delitem (v : pyvalue) (key : string) : result pyvalue :=
  match v with
  | PDict d =>
      if dict_has d key then Ok (PDict (dict_del d key))
      else Raise (mk_exn KeyError (repr_str key))
  | PList _ => Raise (not_subscriptable v)
  | _ =>
      Raise (mk_exn TypeError
               ("'" ++ type_name v
                ++ "' object does not support item deletion"))
  end.

(** [v.items()] *)
Definition items (v : pyvalue) : result (list (string * pyvalue)) :=
  match v with
  | PDict d => Ok d
  | _ => Raise (no_attribute v "items")
  end.

Fixpoint join_from (i : Z) (parts : list pyvalue) : result string :=
  match parts with
  | [] => Ok ""
  | PStr s :: rest =>
      match join_from (i + 1) rest with
      | Ok t => Ok (s ++ t)
      | Raise e => Raise e
      end
  | x :: _ =>
      Raise (mk_exn TypeError
               ("sequence item " ++ Dec.of_Z i
                ++ ": expected str instance, " ++ type_name x ++ " found"))
  end.

(** [empty.join(parts)], for the empty separator *)
Definition join (parts : list pyvalue) : result string := join_from 0 parts.

End Builtin.

(** ** [api/ai.py] *)

Module Ai.

Import Py.

Notation "x <- c ;; k" := (bind c (fun x => k))
  (at level 61, c at next level, right associativity).

(** A field descriptor of the schema: [v["type"]] and, for the kinds that
    have them, the names of [v[kind]["options"]].  The coercion reads the
    type only. *)
Record field : Type := mk_field { ftype : string; options : list string }.

(** The schema, in the order of [schema.items()]. *)
Definition schema_t : Type := list (string * field).

(** What [generate_json] returns. *)
Record generated : Type := mk_generated {
  content : string;
  usage : pyvalue;
  cost : pyvalue;
  model : pyvalue
}.

(** *** [validate_and_fix_json] *)

(** Lines 170-177: the Markdown fence is cut off. *)
Definition strip_fences (json_str : string) : string :=
  let s := PyStr.strip json_str in
  let s := if PyStr.startswith s "```json" then PyStr.slice s (Some 7) None
           else s in
  let s := if PyStr.startswith s "```" then PyStr.slice s (Some 3) None
           else s in
  let s := if PyStr.endswith s "```" then PyStr.slice s None (Some (-3))
           else s in
  PyStr.strip s.

(** Lines 179-193 on the cleaned text: the parsed value, or [None] where
    the function returns the empty dict at once.  A call of [json.loads]
    either gives a value or raises [JSONDecodeError] here; for the other
    exceptions see [Limits.parse_or_recover]. *)
Definition parse_or_recover (json_str : string) : option pyvalue :=
  match Json.loads json_str with
  | Some data => Some data
  | None =>
      let start := PyStr.find json_str "{" in
      let end_ := PyStr.rfind json_str "}" + 1 in
      if negb (start =? -1) && negb (end_ =? -1)
      then Json.loads (PyStr.slice json_str (Some start) (Some end_))
      else None
  end.

(** [if isinstance(v, dict): v = v.get(key)] *)
Definition unwrap (key : string) (v : pyvalue) : pyvalue :=
  match v with
  | PDict d => match dict_get d key with Some x => x | None => PNone end
  | _ => v
  end.

(** The [select], [status] and [date] branches: [{tag: {key: str(v)}}]
    for a truthy [v], nothing otherwise. *)
Definition coerce_named (tag key : string) (v : pyvalue) : option pyvalue :=
  let v := unwrap key v in
  if truthy v then Some (PDict [(tag, PDict [(key, PStr (str v))])])
  else None.

(** The loop of the [multi_select] branch, [opts] being the list built
    so far. *)
Fixpoint collect_opts (items opts : list pyvalue) : list pyvalue :=
  match items with
  | [] => opts
  | item :: rest =>
      let item := unwrap "name" item in
      collect_opts rest
        (if truthy item then opts ++ [PDict [("name", PStr (str item))]]
         else opts)
  end.

Definition coerce_multi_select (v : pyvalue) : pyvalue :=
  let items := match v with PList l => l | _ => [v] end in
  PDict [("multi_select", PList (collect_opts items []))].

(** The [number] branch; [ValueError] and [TypeError] are caught. *)
Definition coerce_number (v : pyvalue) : result (option pyvalue) :=
  match v with
  | PNone => Ok None
  | _ =>
      match Builtin.float v with
      | Ok x => Ok (Some (PDict [("number", PFloat x)]))
      | Raise e => if is_value_or_type_error e then Ok None else Raise e
      end
  end.

(** [[t.get("plain_text", "") for t in v if "plain_text" in t]] *)
Fixpoint plain_texts (l : list pyvalue) : result (list pyvalue) :=
  match l with
  | [] => Ok []
  | t :: rest =>
      b <- Builtin.contains "plain_text" t ;;
      if b then
        x <- Builtin.get t "plain_text" (PStr "") ;;
        xs <- plain_texts rest ;;
        Ok (x :: xs)
      else plain_texts rest
  end.

(** The [title] and [rich_text] branches. *)
Definition coerce_text (tag : string) (v : pyvalue) : result (option pyvalue) :=
  v <- match v with
       | PList l =>
           xs <- plain_texts l ;;
           s <- Builtin.join xs ;;
           Ok (PStr s)
       | _ => Ok v
       end ;;
  Ok (Some (PDict [(tag, PList [PDict [("text",
                                       PDict [("content", PStr (str v))])]])])).

(** Lines 205-262: what the branch of [target_type] assigns to
    [validated[k]], if anything. *)
Definition coerce_value (target_type : string) (v : pyvalue)
  : result (option pyvalue) :=
  if String.eqb target_type "select" then Ok (coerce_named "select" "name" v)
  else if String.eqb target_type "multi_select"
       then Ok (Some (coerce_multi_select v))
  else if String.eqb target_type "status"
       then Ok (coerce_named "status" "name" v)
  else if String.eqb target_type "date" then Ok (coerce_named "date" "start" v)
  else if String.eqb target_type "checkbox"
       then Ok (Some (PDict [("checkbox", PBool (truthy v))]))
  else if String.eqb target_type "number" then coerce_number v
  else if String.eqb target_type "title" then coerce_text "title" v
  else if String.eqb target_type "rich_text" then coerce_text "rich_text" v
  else if String.eqb target_type "people" then Ok None
  else if String.eqb target_type "files" then Ok None
  else Ok None.

(** Lines 198-262: the loop over [data.items()]. *)
Fixpoint coerce_items (schema : schema_t) (items : list (string * pyvalue))
  (validated : dict) : result dict :=
  match items with
  | [] => Ok validated
  | (k, v) :: rest =>
      match dict_get schema k with
      | None => coerce_items schema rest validated
      | Some f =>
          r <- coerce_value (ftype f) v ;;
          coerce_items schema rest
            (match r with
             | Some x => dict_set validated k x
             | None => validated
             end)
      end
  end.

(** Lines 197-264: the coercion of parsed [data]. *)
Definition coerce_properties (data : pyvalue) (schema : schema_t)
  : result dict :=
  items <- Builtin.items data ;;
  coerce_items schema items [].

Definition validate_and_fix_json (json_str : string) (schema : schema_t)
  : result dict :=
  match parse_or_recover (strip_fences json_str) with
  | None => Ok []
  | Some data => coerce_properties data schema
  end.

(** *** [analyze_text_with_ai] *)

Definition title_of (text : string) : pyvalue :=
  PDict [("title", PList [PDict [("text", PDict [("content", PStr text)])]])].

(** Lines 326-330: the first field of kind [title], holding the input. *)
Fixpoint fallback_properties (text : string) (schema : schema_t) : dict :=
  match schema with
  | [] => []
  | (k, v) :: rest =>
      if String.eqb (ftype v) "title" then [(k, title_of text)]
      else fallback_properties text rest
  end.

(** [selected_model] is what [select_model_for_input] returned and
    [outcome] what awaiting [generate_json] on the prompt gave: a result or
    an exception.  The prompt only reaches that call. *)
Definition analyze_text_with_ai (text : string) (schema : schema_t)
  (selected_model : string) (outcome : result generated) : result dict :=
  match (result_ <- outcome ;;
         properties <- validate_and_fix_json (content result_) schema ;;
         Ok [("properties", PDict properties);
             ("usage", usage result_);
             ("cost", cost result_);
             ("model", model result_)]) with
  | Ok d => Ok d
  | Raise e =>
      Ok [("properties", PDict (fallback_properties text schema));
          ("usage", PDict []);
          ("cost", PFloat (S754_zero false));
          ("model", PStr selected_model);
          ("error", PStr (exn_str e))]
  end.

(** *** [chat_analyze_text_with_ai] *)

Definition no_valid_response : string :=
  "AIから有効な応答が得られませんでした。".

Definition unparsable_response : string :=
  "AIの応答を解析できませんでした。".

(** Lines 446-459: the shape of the parsed response. *)
Definition normalize_shape (data : pyvalue) : pyvalue :=
  let data :=
    match data with
    | PStr _ => PDict [("message", data)]
    | PList l =>
        match l with
        | PDict d :: _ => PDict d
        | _ => PDict []
        end
    | _ => data
    end in
  if negb (truthy data) then PDict [("message", PStr no_valid_response)]
  else data.

(** Lines 438-477: [data] behind the [try] statement.  A call of
    [json.loads] either gives a value or raises [JSONDecodeError] here;
    for the other exceptions see [Limits.parse_response]. *)
Definition parse_response (json_resp : string) : pyvalue :=
  match Json.loads json_resp with
  | Some data => normalize_shape data
  | None =>
      let start := PyStr.find json_resp "{" in
      let end_ := PyStr.rfind json_resp "}" + 1 in
      match Json.loads (PyStr.slice json_resp (Some start) (Some end_)) with
      | Some data => data
      | None =>
          PDict [("message", PStr unparsable_response);
                 ("raw_response", PStr json_resp)]
      end
  end.

(** [key in data and data[key]], as a truth value *)
Definition has_truthy (data : pyvalue) (key : string) : result bool :=
  b <- Builtin.contains key data ;;
  if b then (x <- Builtin.getitem data key ;; Ok (truthy x)) else Ok false.

(** [any(key in data for key in keys)] *)
Fixpoint any_in (data : pyvalue) (keys : list string) : result bool :=
  match keys with
  | [] => Ok false
  | key :: rest =>
      b <- Builtin.contains key data ;;
      if b then Ok true else any_in data rest
  end.

Definition extracted : string := "プロパティを抽出しました。".

(** Lines 484-497: the message made up for a response without one. *)
Definition fallback_message (data : pyvalue) : result string :=
  has_properties <- any_in data ["Title"; "Content"; "properties"] ;;
  refined <- has_truthy data "refined_text" ;;
  if refined then
    r <- Builtin.getitem data "refined_text" ;;
    Ok ("タスク名を「" ++ str r ++ "」に提案します。")
  else if has_properties then
    t <- Builtin.contains "Title" data ;;
    c <- (if t then Ok true else Builtin.contains "Content" data) ;;
    if c then
      title_val <- Builtin.get data "Title" (PStr "") ;;
      Ok (if truthy title_val then "内容を整理しました: " ++ str title_val
          else extracted)
    else
      _ <- has_truthy data "properties" ;;
      Ok extracted
  else Ok "（応答完了）".

(** Lines 480-498 *)
Definition ensure_message (data : pyvalue) : result pyvalue :=
  present <- Builtin.contains "message" data ;;
  filled <- (if present
             then (m <- Builtin.getitem data "message" ;; Ok (truthy m))
             else Ok false) ;;
  if filled then Ok data
  else
    msg <- fallback_message data ;;
    Builtin.setitem data "message" (PStr msg).

(** [{key: data[key] for key in keys}] *)
Fixpoint pick (data : pyvalue) (keys : list string) (acc : dict)
  : result dict :=
  match keys with
  | [] => Ok acc
  | key :: rest =>
      x <- Builtin.getitem data key ;;
      pick data rest (dict_set acc key x)
  end.

(** [for key in keys: del data[key]] *)
Fixpoint delete_all (data : pyvalue) (keys : list string) : result pyvalue :=
  match keys with
  | [] => Ok data
  | key :: rest =>
      data <- Builtin.delitem data key ;;
      delete_all data rest
  end.

(** Lines 502-515.  The keys shared with the schema form a set; they are
    taken here in the order of [data]. *)
Definition lift_properties (data : pyvalue) (schema : schema_t)
  : result pyvalue :=
  present <- Builtin.contains "properties" data ;;
  if present then Ok data
  else
    data_keys <- Builtin.keys data ;;
    let property_keys :=
      filter (fun key => dict_has schema key) (nodup string_dec data_keys) in
    match property_keys with
    | [] => Ok data
    | _ =>
        properties <- pick data property_keys [] ;;
        data <- delete_all data property_keys ;;
        Builtin.setitem data "properties" (PDict properties)
    end.

(** Lines 518-522 *)
Definition validate_properties (data : pyvalue) (schema : schema_t)
  : result pyvalue :=
  filled <- has_truthy data "properties" ;;
  if filled then
    p <- Builtin.getitem data "properties" ;;
    validated <- validate_and_fix_json (Json.dumps p) schema ;;
    Builtin.setitem data "properties" (PDict validated)
  else Ok data.

(** [outcome] is what awaiting [generate_json] on the messages gave.  The
    text, the history and the image only reach that call. *)
Definition chat_analyze_text_with_ai (schema : schema_t)
  (outcome : result generated) : result pyvalue :=
  result_ <- outcome ;;
  let json_resp := content result_ in
  let data := parse_response json_resp in
  data <- ensure_message data ;;
  data <- lift_properties data schema ;;
  data <- validate_properties data schema ;;
  data <- Builtin.setitem data "usage" (usage result_) ;;
  data <- Builtin.setitem data "cost" (cost result_) ;;
  data <- Builtin.setitem data "model" (model result_) ;;
  Ok data.

End Ai.

(** ** [api/ai.py] under the limits of the interpreter *)

Module Limits.

Import Py Ai.

(** [json.loads] and [json.dumps] follow the JSON grammar ([Json.loads],
    [Json.dumps]) as long as the interpreter carries the call through.  It
    may give up instead: on arrays and objects nested deeper than the
    recursion limit leaves room for ([RecursionError]), on an integer
    literal of more digits than it converts, 4300 unless set otherwise
    ([ValueError]).  Where it does depends on the interpreter, its settings
    and the depth of the call stack, so that it is taken from outside: the
    exception a call raises in place of its result, if it raises one.

    The interpreter also fixes the order in which a [set] of strings is
    iterated, which follows their hashes: some order of its elements,
    given here for the elements listed in the order of the [dict] they
    come from. *)
Record interpreter : Type := mk_interpreter {
  loads_raises : string -> option exn;
  dumps_raises : pyvalue -> option exn;
  set_order : list string -> list string;
  set_order_permutes : forall keys, Permutation (set_order keys) keys
}.

(** An interpreter that carries every call through, and iterates a set in
    the order of the dict. *)
Definition within_limits : interpreter :=
  mk_interpreter (fun _ => None) (fun _ => None) (fun keys => keys)
    (fun keys => Permutation_refl keys).

(** An interpreter that gives up on the text [s], where [json.loads]
    raises [e], and on nothing else. *)
Definition gives_up_on (s : string) (e : exn) : interpreter :=
  mk_interpreter (fun t => if String.eqb t s then Some e else None)
    (fun _ => None) (fun keys => keys) (fun keys => Permutation_refl keys).

(** The [RecursionError] of the decoder in an array. *)
Definition too_deep : exn :=
  mk_exn (OtherException "RecursionError")
    "maximum recursion depth exceeded while decoding a JSON array from a unicode string".

(** [isinstance(e, json.JSONDecodeError)] *)
Definition is_decode_error (e : exn) : bool :=
  match exn_cls e with
  | JSONDecodeError => true
  | _ => false
  end.

(** How a call of [json.loads] ends: with the value, with the
    [JSONDecodeError] of a text that is no JSON (its message is not
    modelled), or with another exception. *)
Inductive decoded : Type :=
| Decoded (v : pyvalue)
| Malformed
| GivenUp (e : exn).

(** [json.loads(s)] *)
Definition loads (py : interpreter) (s : string) : decoded :=
  match loads_raises py s with
  | Some e => if is_decode_error e then Malformed else GivenUp e
  | None =>
      match Json.loads s with
      | Some v => Decoded v
      | None => Malformed
      end
  end.

(** [json.dumps(v)] *)
Definition dumps (py : interpreter) (v : pyvalue) : result string :=
  match dumps_raises py v with
  | Some e => Raise e
  | None => Ok (Json.dumps v)
  end.

(** *** [validate_and_fix_json] *)

(** Lines 179-193 on the cleaned text: the parsed value, or [None] where
    the function returns the empty dict at once.  [except
    json.JSONDecodeError] of line 181 lets every other exception of the
    first call through; [except Exception] of line 189 catches whatever the
    second call raises. *)
Definition parse_or_recover (py : interpreter) (json_str : string)
  : result (option pyvalue) :=
  match loads py json_str with
  | Decoded data => Ok (Some data)
  | GivenUp e => Raise e
  | Malformed =>
      let start := PyStr.find json_str "{" in
      let end_ := PyStr.rfind json_str "}" + 1 in
      if negb (start =? -1) && negb (end_ =? -1)
      then
        match loads py (PyStr.slice json_str (Some start) (Some end_)) with
        | Decoded data => Ok (Some data)
        | Malformed => Ok None
        | GivenUp _ => Ok None
        end
      else Ok None
  end.

Definition validate_and_fix_json (py : interpreter) (json_str : string)
  (schema : schema_t) : result dict :=
  parsed <- parse_or_recover py (strip_fences json_str) ;;
  match parsed with
  | None => Ok []
  | Some data => coerce_properties data schema
  end.

(** *** [analyze_text_with_ai] *)

(** [selected_model] is what [select_model_for_input] returned and
    [outcome] what awaiting [generate_json] on the prompt gave. *)
Definition analyze_text_with_ai (py : interpreter) (text : string)
  (schema : schema_t) (selected_model : string) (outcome : result generated)
  : result dict :=
  match (result_ <- outcome ;;
         properties <- validate_and_fix_json py (content result_) schema ;;
         Ok [("properties", PDict properties);
             ("usage", usage result_);
             ("cost", cost result_);
             ("model", model result_)]) with
  | Ok d => Ok d
  | Raise e =>
      Ok [("properties", PDict (fallback_properties text schema));
          ("usage", PDict []);
          ("cost", PFloat (S754_zero false));
          ("model", PStr selected_model);
          ("error", PStr (exn_str e))]
  end.

(** *** [chat_analyze_text_with_ai] *)

(** Lines 438-477: [data] behind the [try] statement.  [except
    json.JSONDecodeError] of line 464 lets every other exception of the
    first call through; [except Exception] of line 472 catches whatever the
    second call raises. *)
Definition parse_response (py : interpreter) (json_resp : string)
  : result pyvalue :=
  match loads py json_resp with
  | Decoded data => Ok (normalize_shape data)
  | GivenUp e => Raise e
  | Malformed =>
      let start := PyStr.find json_resp "{" in
      let end_ := PyStr.rfind json_resp "}" + 1 in
      match loads py (PyStr.slice json_resp (Some start) (Some end_)) with
      | Decoded data => Ok data
      | Malformed | GivenUp _ =>
          Ok (PDict [("message", PStr unparsable_response);
                     ("raw_response", PStr json_resp)])
      end
  end.

(** Lines 502-515.  The keys shared with the schema form a set, iterated
    once for [properties] and once for the deletions. *)
Definition lift_properties (py : interpreter) (data : pyvalue)
  (schema : schema_t) : result pyvalue :=
  present <- Builtin.contains "properties" data ;;
  if present then Ok data
  else
    data_keys <- Builtin.keys data ;;
    let property_keys :=
      set_order py
        (filter (fun key => dict_has schema key)
           (nodup string_dec data_keys)) in
    match property_keys with
    | [] => Ok data
    | _ =>
        properties <- pick data property_keys [] ;;
        data <- delete_all data property_keys ;;
        Builtin.setitem data "properties" (PDict properties)
    end.

(** Lines 518-522.  [py] stands for the interpreter at the calls of the
    flow itself, [inner] for the interpreter at the calls of
    [validate_and_fix_json], one frame further down. *)
Definition validate_properties (py inner : interpreter) (data : pyvalue)
  (schema : schema_t) : result pyvalue :=
  filled <- has_truthy data "properties" ;;
  if filled then
    p <- Builtin.getitem data "properties" ;;
    json_str <- dumps py p ;;
    validated <- validate_and_fix_json inner json_str schema ;;
    Builtin.setitem data "properties" (PDict validated)
  else Ok data.

(** [outcome] is what awaiting [generate_json] on the messages gave. *)
Definition chat_analyze_text_with_ai (py inner : interpreter)
  (schema : schema_t) (outcome : result generated) : result pyvalue :=
  result_ <- outcome ;;
  let json_resp := content result_ in
  data <- parse_response py json_resp ;;
  data <- ensure_message data ;;
  data <- lift_properties py data schema ;;
  data <- validate_properties py inner data schema ;;
  data <- Builtin.setitem data "usage" (usage result_) ;;
  data <- Builtin.setitem data "cost" (cost result_) ;;
  data <- Builtin.setitem data "model" (model result_) ;;
  Ok data.

End Limits.

(** ** Vocabulary of the specification *)

Module Spec.

Import Py Ai.

(** The schema has a field of kind [title]. *)
Definition has_title (schema : schema_t) : Prop :=
  exists k f, In (k, f) schema /\ ftype f = "title".

(** [k] names the first field of kind [title]. *)
Definition first_title (schema : schema_t) (k : string) : Prop :=
  exists pre f post,
    schema = (pre ++ (k, f) :: post)%list
    /\ ftype f = "title"
    /\ forall k' f', In (k', f') pre -> ftype f' <> "title".

(** The fallback result: [properties] holds the first title field alone,
    filled with the input text, and [error] is a non-empty string. *)
Definition title_fallback (text : string) (schema : schema_t)
  (r : result dict) : Prop :=
  exists d k e,
    r = Ok d
    /\ first_title schema k
    /\ dict_get d "properties"
       = Some (PDict [(k, PDict [("title",
                                  PList [PDict [("text",
                                                 PDict [("content",
                                                         PStr text)])]])])])
    /\ dict_get d "error" = Some (PStr e)
    /\ e <> "".

(** Neither brace stands in the text. *)
Definition no_braces (s : string) : Prop :=
  PyStr.occurs "{" s = false /\ PyStr.occurs "}" s = false.

(** The candidate as a sequence: itself, or the one-element sequence
    of it. *)
Definition as_sequence (v : pyvalue) : list pyvalue :=
  match v with
  | PList l => l
  | _ => [v]
  end.

(** What an item of the sequence names: for a mapping the value under
    [name], [None] if it has none; for anything else the item itself. *)
Definition item_name (item : pyvalue) : pyvalue :=
  match item with
  | PDict d =>
      match dict_get d "name" with
      | Some x => x
      | None => PNone
      end
  | _ => item
  end.

(** The names of the options: what each item names, the falsy ones left
    out. *)
Definition option_names (v : pyvalue) : list pyvalue :=
  filter truthy (map item_name (as_sequence v)).

Definition multi_select_of (v : pyvalue) : pyvalue :=
  PDict [("multi_select",
          PList (map (fun x => PDict [("name", PStr (str x))])
                   (option_names v)))].

(** The value under the kind tag of a coerced field. *)
Definition inner_value (x : pyvalue) : pyvalue :=
  match x with
  | PDict [(_, inner)] => inner
  | _ => x
  end.

(** A coerced mapping read as candidates, each field by its inner value. *)
Definition as_candidates (out : dict) : dict :=
  map (fun kv => (fst kv, inner_value (snd kv))) out.

(** One turn of the loop of [coerce_items]: the state after the item
    [(k, v)]. *)
Definition step (schema : schema_t) (validated : dict) (k : string)
  (v : pyvalue) : result dict :=
  match dict_get schema k with
  | None => Ok validated
  | Some f =>
      match coerce_value (ftype f) v with
      | Ok (Some x) => Ok (dict_set validated k x)
      | Ok None => Ok validated
      | Raise e => Raise e
      end
  end.

(** [x] is what the rule of the schema field [k] gave for some
    candidate. *)
Definition produced (schema : schema_t) (k : string) (x : pyvalue) : Prop :=
  exists f v,
    dict_get schema k = Some f /\ coerce_value (ftype f) v = Ok (Some x).

(** What a successful call read, and the fuel that is enough for it. *)
Definition reads {A : Type} (parse : nat -> string -> option (A * string))
  (s : string) (x : A) (r : string) : Prop :=
  (String.length r < String.length s)%nat
  /\ forall fuel, (String.length s - String.length r < fuel)%nat ->
                  parse fuel s = Some (x, r).

(** The response text of the examples. *)
Definition sure_done : string :=
  "Sure! {" ++ PyStr.dq ++ "Status" ++ PyStr.dq ++ ":" ++ PyStr.dq ++ "Done"
  ++ PyStr.dq ++ "} Hope that helps.".

Definition status_done : string :=
  "{" ++ PyStr.dq ++ "Status" ++ PyStr.dq ++ ":" ++ PyStr.dq ++ "Done"
  ++ PyStr.dq ++ "}".

End Spec.

(** ** Prompt construction *)

Module Prompt.

Import Py.

Notation "x <- c ;; k" := (bind c (fun x => k))
  (at level 61, c at next level, right associativity).

(** The characters of UTF-8 text, each as a string. *)
Fixpoint utf8_chars (s : string) : list string :=
  match s with
  | EmptyString => []
  | String a s1 =>
      let n := N_of_ascii a in
      if (n <? 192)%N then String a "" :: utf8_chars s1
      else
        match s1 with
        | EmptyString => [String a ""]
        | String b s2 =>
            if (n <? 224)%N then String a (String b "") :: utf8_chars s2
            else
              match s2 with
              | EmptyString => String a "" :: utf8_chars s1
              | String c s3 =>
                  if (n <? 240)%N
                  then String a (String b (String c "")) :: utf8_chars s3
                  else
                    match s3 with
                    | EmptyString => String a "" :: utf8_chars s1
                    | String d s4 =>
                        String a (String b (String c (String d "")))
                          :: utf8_chars s4
                    end
              end
        end
  end.

(** [for x in v]: the elements a loop over [v] meets. *)
Definition iter (v : pyvalue) : result (list pyvalue) :=
  match v with
  | PList l => Ok l
  | PDict d => Ok (map PStr (dict_keys d))
  | PStr s => Ok (map PStr (utf8_chars s))
  | _ =>
      Raise (mk_exn TypeError
               ("'" ++ type_name v ++ "' object is not iterable"))
  end.

(** [[f(x) for x in l]] *)
Fixpoint map_result {A B : Type} (f : A -> result B) (l : list A)
  : result (list B) :=
  match l with
  | [] => Ok []
  | x :: rest =>
      y <- f x ;;
      ys <- map_result f rest ;;
      Ok (y :: ys)
  end.

(** [[o['name'] for o in v[kind]['options']]] *)
Definition option_names (v : pyvalue) (kind : string)
  : result (list pyvalue) :=
  inner <- Builtin.getitem v kind ;;
  options <- Builtin.getitem inner "options" ;;
  items <- iter options ;;
  map_result (fun o => Builtin.getitem o "name") items.

(** [f" options: {names}"] *)
Definition options_suffix (names : list pyvalue) : string :=
  " options: " ++ repr (PList names).

(** [schema_info[k] += suffix], the entry being [t] *)
Definition add_suffix (t : pyvalue) (suffix : string) : result pyvalue :=
  match t with
  | PStr s => Ok (PStr (s ++ suffix))
  | _ =>
      Raise (mk_exn TypeError
               ("unsupported operand type(s) for +=: '" ++ type_name t
                ++ "' and 'str'"))
  end.

(** Lines 38-43: the entry of one field in [construct_prompt]. *)
Definition schema_entry (v : pyvalue) : result pyvalue :=
  t <- Builtin.getitem v "type" ;;
  if Builtin.eq_str t "select" then
    names <- option_names v "select" ;;
    add_suffix t (options_suffix names)
  else if Builtin.eq_str t "multi_select" then
    names <- option_names v "multi_select" ;;
    add_suffix t (options_suffix names)
  else Ok t.

(** Lines 36-43 *)
Fixpoint schema_info (items : list (string * pyvalue)) (info : dict)
  : result dict :=
  match items with
  | [] => Ok info
  | (k, v) :: rest =>
      e <- schema_entry v ;;
      schema_info rest (dict_set info k e)
  end.

(** Lines 110-115 and 380-385: the entry of one field in the
    conversational prompts, if it has one. *)
Definition chat_schema_entry (v : pyvalue) : result (option pyvalue) :=
  match v with
  | PDict d =>
      if dict_has d "type" then
        t <- Builtin.getitem v "type" ;;
        if Builtin.eq_str t "select" && dict_has d "select" then
          names <- option_names v "select" ;;
          e <- add_suffix t (options_suffix names) ;;
          Ok (Some e)
        else if Builtin.eq_str t "multi_select" && dict_has d "multi_select"
        then
          names <- option_names v "multi_select" ;;
          e <- add_suffix t (options_suffix names) ;;
          Ok (Some e)
        else Ok (Some t)
      else Ok None
  | _ => Ok None
  end.

(** Lines 102-115 and 378-385 *)
Fixpoint chat_schema_info (items : list (string * pyvalue)) (info : dict)
  : result dict :=
  match items with
  | [] => Ok info
  | (k, v) :: rest =>
      e <- chat_schema_entry v ;;
      chat_schema_info rest
        (match e with
         | Some x => dict_set info k x
         | None => info
         end)
  end.

(** *** Examples, lines 47-69 *)

(** [v.get(kind, {}).get(key) if v.get(kind) else None] *)
Definition named_or_none (v : pyvalue) (kind key : string) : result pyvalue :=
  x <- Builtin.get v kind PNone ;;
  if truthy x then
    y <- Builtin.get v kind (PDict []) ;;
    Builtin.get y key PNone
  else Ok PNone.

(** [empty.join([t.get("plain_text", "") for t in v.get(kind, [])])] *)
Definition joined_text (v : pyvalue) (kind : string) : result pyvalue :=
  x <- Builtin.get v kind (PList []) ;;
  items <- iter x ;;
  parts <- map_result (fun t => Builtin.get t "plain_text" (PStr "")) items ;;
  s <- Builtin.join parts ;;
  Ok (PStr s).

(** Lines 54-67: the short form of one property of an example. *)
Definition simple_value (v : pyvalue) : result pyvalue :=
  p_type <- Builtin.get v "type" PNone ;;
  if Builtin.eq_str p_type "title" then joined_text v "title"
  else if Builtin.eq_str p_type "rich_text" then joined_text v "rich_text"
  else if Builtin.eq_str p_type "select" then named_or_none v "select" "name"
  else if Builtin.eq_str p_type "multi_select" then
    x <- Builtin.get v "multi_select" (PList []) ;;
    items <- iter x ;;
    names <- map_result (fun o => Builtin.get o "name" PNone) items ;;
    Ok (PList names)
  else if Builtin.eq_str p_type "date" then named_or_none v "date" "start"
  else if Builtin.eq_str p_type "checkbox" then Builtin.get v "checkbox" PNone
  else Ok (PStr "N/A").

(** Lines 51-68 *)
Fixpoint simple_props (items : list (string * pyvalue)) (acc : dict)
  : result dict :=
  match items with
  | [] => Ok acc
  | (k, v) :: rest =>
      val <- simple_value v ;;
      simple_props rest (dict_set acc k val)
  end.

(** *** [json.dumps] with [ensure_ascii=False] *)

Definition newline : string := String (ascii_of_N 10) "".

(** One character of [encode_basestring]: the quote, the backslash and
    the control characters are escaped, every other byte is kept. *)
Definition escape_raw (a : ascii) : string :=
  let n := Z.of_N (N_of_ascii a) in
  if n =? 34 then String "\" PyStr.dq
  else if n =? 92 then "\\"
  else if n =? 10 then "\n"
  else if n =? 13 then "\r"
  else if n =? 9 then "\t"
  else if n =? 8 then "\b"
  else if n =? 12 then "\f"
  else if n <? 32 then Json.u_escape n
  else String a "".

Fixpoint escape_chars (s : string) : string :=
  match s with
  | EmptyString => ""
  | String a s' => escape_raw a ++ escape_chars s'
  end.

Definition encode_raw (s : string) : string :=
  PyStr.dq ++ escape_chars s ++ PyStr.dq.

(** [json.dumps(v, ensure_ascii=False)] *)
Fixpoint dumps_raw (v : pyvalue) : string :=
  match v with
  | PNone => "null"
  | PBool b => if b then "true" else "false"
  | PInt z => Dec.of_Z z
  | PFloat x => Json.float_text x
  | PStr s => encode_raw s
  | PList l => "[" ++ PyStr.join ", " (map dumps_raw l) ++ "]"
  | PDict d =>
      "{" ++ PyStr.join ", "
               (map (fun kv => match kv with
                               | (k, x) => encode_raw k ++ ": " ++ dumps_raw x
                               end) d)
          ++ "}"
  end.

(** A line break and the indentation of nesting depth [level]. *)
Definition newline_indent (level : nat) : string :=
  newline ++ PyStr.repeat " " (2 * level).

(** [json.dumps(v, indent=2, ensure_ascii=False)] at nesting depth
    [level]. *)
Fixpoint dumps_pretty (level : nat) (v : pyvalue) : string :=
  match v with
  | PNone => "null"
  | PBool b => if b then "true" else "false"
  | PInt z => Dec.of_Z z
  | PFloat x => Json.float_text x
  | PStr s => encode_raw s
  | PList l =>
      match l with
      | [] => "[]"
      | _ =>
          "[" ++ newline_indent (S level)
              ++ PyStr.join ("," ++ newline_indent (S level))
                   (map (dumps_pretty (S level)) l)
              ++ newline_indent level ++ "]"
      end
  | PDict d =>
      match d with
      | [] => "{}"
      | _ =>
          "{" ++ newline_indent (S level)
              ++ PyStr.join ("," ++ newline_indent (S level))
                   (map (fun kv => match kv with
                                   | (k, x) =>
                                       encode_raw k ++ ": "
                                       ++ dumps_pretty (S level) x
                                   end) d)
              ++ newline_indent level ++ "}"
      end
  end.

(** Lines 47-69: one line for each example. *)
Fixpoint examples_text (recent_examples : list pyvalue) (acc : string)
  : result string :=
  match recent_examples with
  | [] => Ok acc
  | ex :: rest =>
      props <- Builtin.get ex "properties" (PDict []) ;;
      items <- Builtin.items props ;;
      simple <- simple_props items [] ;;
      examples_text rest
        (acc ++ "- " ++ dumps_raw (PDict simple) ++ newline)
  end.

(** [construct_prompt], lines 15-87. *)
Definition construct_prompt (text : string) (schema : dict)
  (recent_examples : list pyvalue) (system_prompt : string) : result string :=
  info <- schema_info schema [] ;;
  examples <- examples_text recent_examples "" ;;
  Ok (newline ++ system_prompt ++ newline
      ++ newline ++ "Target Database Schema:" ++ newline
      ++ dumps_pretty 0 (PDict info) ++ newline
      ++ newline ++ "Recent Examples:" ++ newline
      ++ examples ++ newline
      ++ newline ++ "User Input:" ++ newline
      ++ text ++ newline
      ++ newline ++ "Output JSON format strictly. NO markdown code blocks."
      ++ newline).

(** *** The single-shot flow from its arguments *)

(** A field of the raw schema as the flow behind the prompt reads it: by
    [v["type"]] alone, compared with the names of the kinds. *)
Definition field_view (v : pyvalue) : Ai.field :=
  Ai.mk_field
    (match Builtin.getitem v "type" with
     | Ok (PStr s) => s
     | _ => ""
     end) [].

Definition typed (schema : dict) : Ai.schema_t :=
  map (fun kv => (fst kv, field_view (snd kv))) schema.

(** [analyze_text_with_ai], lines 301-338: the prompt is built before the
    [try] statement.  [selected_model] is what [select_model_for_input]
    returned and [generate_json] the model executor on that model. *)
Definition analyze_text_with_ai (text : string) (schema : dict)
  (recent_examples : list pyvalue) (system_prompt : string)
  (selected_model : string) (generate_json : string -> result Ai.generated)
  : result dict :=
  prompt <- construct_prompt text schema recent_examples system_prompt ;;
  Ai.analyze_text_with_ai text (typed schema) selected_model
    (generate_json prompt).

End Prompt.

(** ** Vocabulary of the prompt properties *)

Module PromptSpec.

Import Py Ai.

(** The kinds whose descriptor lists options. *)
Definition has_options (t : string) : bool :=
  String.eqb t "select" || String.eqb t "multi_select".

Definition raw_options (names : list string) : pyvalue :=
  PDict [("options", PList (map (fun n => PDict [("name", PStr n)]) names))].

(** A field descriptor as the database API gives it: its type and, for
    the option kinds, the options under the name of the kind. *)
Definition raw_field (f : field) : pyvalue :=
  PDict (("type", PStr (ftype f))
         :: if has_options (ftype f)
            then [(ftype f, raw_options (options f))]
            else []).

Definition raw_schema (schema : schema_t) : dict :=
  map (fun kf => (fst kf, raw_field (snd kf))) schema.

(** The line of a field in the prompt. *)
Definition describe (f : field) : string :=
  ftype f ++ if has_options (ftype f)
             then Prompt.options_suffix (map PStr (options f))
             else "".

Definition described (schema : schema_t) : dict :=
  dict_of_pairs (map (fun kf => (fst kf, PStr (describe (snd kf)))) schema).

(** The schema as [typed] reads it back: the types, without options. *)
Definition forget_options (schema : schema_t) : schema_t :=
  map (fun kf => (fst kf, mk_field (ftype (snd kf)) [])) schema.

(** The prompt of [construct_prompt] around its three computed parts. *)
Definition prompt_text (text system_prompt : string) (info : dict)
  (examples : string) : string :=
  Prompt.newline ++ system_prompt ++ Prompt.newline
  ++ Prompt.newline ++ "Target Database Schema:" ++ Prompt.newline
  ++ Prompt.dumps_pretty 0 (PDict info) ++ Prompt.newline
  ++ Prompt.newline ++ "Recent Examples:" ++ Prompt.newline
  ++ examples ++ Prompt.newline
  ++ Prompt.newline ++ "User Input:" ++ Prompt.newline
  ++ text ++ Prompt.newline
  ++ Prompt.newline ++ "Output JSON format strictly. NO markdown code blocks."
  ++ Prompt.newline.

(** A property of a page as the database API returns it, by the part the
    prompt reads. *)
Inductive page_property : Type :=
| PageTitle (segments : list string)
| PageRichText (segments : list string)
| PageSelect (name : option string)
| PageMultiSelect (names : list string)
| PageDate (start : option string)
| PageCheckbox (checked : bool)
| PageOther (kind : string) (value : pyvalue).

Definition raw_segments (segments : list string) : pyvalue :=
  PList (map (fun s => PDict [("plain_text", PStr s)]) segments).

Definition raw_named (key : string) (name : option string) : pyvalue :=
  match name with
  | Some n => PDict [(key, PStr n)]
  | None => PNone
  end.

Definition raw_property (p : page_property) : pyvalue :=
  match p with
  | PageTitle segments =>
      PDict [("type", PStr "title"); ("title", raw_segments segments)]
  | PageRichText segments =>
      PDict [("type", PStr "rich_text"); ("rich_text", raw_segments segments)]
  | PageSelect name =>
      PDict [("type", PStr "select"); ("select", raw_named "name" name)]
  | PageMultiSelect names =>
      PDict [("type", PStr "multi_select");
             ("multi_select",
              PList (map (fun n => PDict [("name", PStr n)]) names))]
  | PageDate start =>
      PDict [("type", PStr "date"); ("date", raw_named "start" start)]
  | PageCheckbox checked =>
      PDict [("type", PStr "checkbox"); ("checkbox", PBool checked)]
  | PageOther kind value => PDict [("type", PStr kind); (kind, value)]
  end.

(** The kinds the examples show. *)
Definition shown_kind (kind : string) : bool :=
  existsb (String.eqb kind)
    ["title"; "rich_text"; "select"; "multi_select"; "date"; "checkbox"].

(** What the prompt shows for a property. *)
Definition shown (p : page_property) : pyvalue :=
  match p with
  | PageTitle segments | PageRichText segments =>
      PStr (String.concat "" segments)
  | PageSelect name | PageDate name =>
      match name with
      | Some n => PStr n
      | None => PNone
      end
  | PageMultiSelect names => PList (map PStr names)
  | PageCheckbox checked => PBool checked
  | PageOther _ _ => PStr "N/A"
  end.

(** A property is of one of the kinds the examples show, or of a kind
    they do not. *)
Definition well_kinded (p : page_property) : bool :=
  match p with
  | PageOther kind _ => negb (shown_kind kind)
  | _ => true
  end.

(** A page of the database: its properties by name. *)
Definition raw_page (properties : list (string * page_property)) : pyvalue :=
  PDict [("properties",
          PDict (map (fun kp => (fst kp, raw_property (snd kp))) properties))].

(** The line of a page in the prompt. *)
Definition page_line (properties : list (string * page_property)) : string :=
  "- "
  ++ Prompt.dumps_raw
       (PDict (dict_of_pairs
                 (map (fun kp => (fst kp, shown (snd kp))) properties)))
  ++ Prompt.newline.

End PromptSpec.

(** ** Vocabulary of the further properties *)

Module Terms.

Import Py Ai.

(** [{tag: {key: s}}] with a non-empty string [s]. *)
Definition named_shape (tag key : string) (x : pyvalue) : bool :=
  match x with
  | PDict [(t, PDict [(k, PStr s)])] =>
      String.eqb t tag && String.eqb k key && negb (String.eqb s "")
  | _ => false
  end.

(** [{tag: [{text: {content: s}}]}] with a string [s]. *)
Definition text_shape (tag : string) (x : pyvalue) : bool :=
  match x with
  | PDict [(t, PList [PDict [(a, PDict [(b, PStr _)])]])] =>
      String.eqb t tag && String.eqb a "text" && String.eqb b "content"
  | _ => false
  end.

(** [{tag: y}] with [y] accepted by [inner]. *)
Definition tagged (tag : string) (inner : pyvalue -> bool) (x : pyvalue)
  : bool :=
  match x with
  | PDict [(t, y)] => String.eqb t tag && inner y
  | _ => false
  end.

Definition option_shape (x : pyvalue) : bool :=
  match x with
  | PDict [(k, PStr s)] => String.eqb k "name" && negb (String.eqb s "")
  | _ => false
  end.

Definition is_bool (v : pyvalue) : bool :=
  match v with PBool _ => true | _ => false end.

Definition is_float (v : pyvalue) : bool :=
  match v with PFloat _ => true | _ => false end.

(** The property value of each kind, as the page API takes it. *)
Definition notion_shape (target_type : string) (x : pyvalue) : bool :=
  if String.eqb target_type "select" then named_shape "select" "name" x
  else if String.eqb target_type "multi_select"
       then tagged "multi_select"
              (fun y => match y with
                        | PList l => forallb option_shape l
                        | _ => false
                        end) x
  else if String.eqb target_type "status" then named_shape "status" "name" x
  else if String.eqb target_type "date" then named_shape "date" "start" x
  else if String.eqb target_type "checkbox" then tagged "checkbox" is_bool x
  else if String.eqb target_type "number" then tagged "number" is_float x
  else if String.eqb target_type "title" then text_shape "title" x
  else if String.eqb target_type "rich_text" then text_shape "rich_text" x
  else false.

(** An element of a rich-text array as the page API returns it: a mapping
    whose [plain_text], if present, is a string. *)
Definition is_segment (t : pyvalue) : bool :=
  match t with
  | PDict d =>
      match dict_get d "plain_text" with
      | Some x => is_str x
      | None => true
      end
  | _ => false
  end.

Definition segment_text (t : pyvalue) : string :=
  match t with
  | PDict d =>
      match dict_get d "plain_text" with
      | Some (PStr s) => s
      | _ => ""
      end
  | _ => ""
  end.

(** The value of a title or rich-text property holding the one text [s]. *)
Definition text_value (tag s : string) : pyvalue :=
  PDict [(tag, PList [PDict [("text", PDict [("content", PStr s)])]])].

(** A number or a truth value: what [json.loads] gives that is neither a
    string nor a container nor [None]. *)
Definition is_scalar (v : pyvalue) : bool :=
  match v with
  | PBool _ | PInt _ | PFloat _ => true
  | _ => false
  end.

Definition not_iterable (v : pyvalue) : exn :=
  mk_exn TypeError ("argument of type '" ++ type_name v ++ "' is not iterable").

(** [key in d and d[key]] for a mapping. *)
Definition dict_truthy (d : dict) (key : string) : bool :=
  match dict_get d key with
  | Some x => truthy x
  | None => false
  end.

(** Lines 525-527: the three entries written last. *)
Definition with_metadata (g : generated) (d : dict) : dict :=
  dict_set (dict_set (dict_set d "usage" (usage g)) "cost" (cost g))
    "model" (model g).

(** The notice for content that cannot be read, lines 474-477. *)
Definition unparsable_notice (json_resp : string) : dict :=
  [("message", PStr "AIの応答を解析できませんでした。");
   ("raw_response", PStr json_resp)].

(** The first character of [s] satisfies [p]. *)
Definition head_is (p : ascii -> bool) (s : string) : bool :=
  match s with
  | String c _ => p c
  | EmptyString => false
  end.

(** Every character of [s] satisfies [p]. *)
Fixpoint all_chars (p : ascii -> bool) (s : string) : bool :=
  match s with
  | String c s' => p c && all_chars p s'
  | EmptyString => true
  end.

(** A character that may carry a number on: a digit, the point, the
    exponent mark. *)
Definition number_char (c : ascii) : bool :=
  Dec.is_digit c || Ascii.eqb c "." || Ascii.eqb c "e" || Ascii.eqb c "E".

Definition is_ascii (c : ascii) : bool := (N_of_ascii c <? 128)%N.

Fixpoint distinct (l : list string) : bool :=
  match l with
  | [] => true
  | k :: rest => negb (existsb (String.eqb k) rest) && distinct rest
  end.

(** A value without floats, its strings ASCII text, the keys of each
    of its mappings distinct. *)
Fixpoint plain (v : pyvalue) : bool :=
  match v with
  | PNone | PBool _ | PInt _ => true
  | PFloat _ => false
  | PStr s => all_chars is_ascii s
  | PList l => forallb plain l
  | PDict d =>
      forallb (fun kv => match kv with
                         | (k, x) => all_chars is_ascii k && plain x
                         end) d
      && distinct (map fst d)
  end.

(** A character a JSON value can start with, as [json.dumps] writes it:
    no white space and no closing bracket. *)
Definition value_head (c : ascii) : bool :=
  negb (Json.is_ws c) && negb (Ascii.eqb c "]") && negb (Ascii.eqb c "}").

(** [json.loads] reads [v] at the head of the text [json.dumps] gave for
    it, whatever follows that cannot carry a number on. *)
Definition reads_back (v : pyvalue) : Prop :=
  forall rest,
    head_is number_char rest = false ->
    exists fuel,
      Json.scan_once fuel (Json.dumps v ++ rest) = Some (v, rest).

(** One entry of an object as [json.dumps] writes it. *)
Definition entry_text (kv : string * pyvalue) : string :=
  match kv with
  | (k, x) => Json.encode_str k ++ ": " ++ Json.dumps x
  end.

(** [dict(pairs)] continued from [acc]. *)
Definition set_all (d acc : dict) : dict :=
  fold_left (fun a kv => dict_set a (fst kv) (snd kv)) d acc.

(** The last character of [s] satisfies [p]. *)
Fixpoint last_is (p : ascii -> bool) (s : string) : bool :=
  match s with
  | EmptyString => false
  | String c EmptyString => p c
  | String _ s' => last_is p s'
  end.

(** An ASCII character that [strip] keeps and that is no backtick. *)
Definition edge (c : ascii) : bool :=
  is_ascii c && negb (PyStr.space1 c) && negb (Ascii.eqb c "`").

End Terms.

(** ** How the calls of [json.loads] end *)

Module Decoding.

Import Py Ai.

(** [json.loads(s)] returns [v]: the interpreter carries the call through
    and [s] is the JSON text of [v]. *)
Definition returns (py : Limits.interpreter) (s : string) (v : pyvalue)
  : Prop :=
  Limits.loads_raises py s = None /\ Json.loads s = Some v.

(** [json.loads(s)] raises [JSONDecodeError]. *)
Definition fails (py : Limits.interpreter) (s : string) : Prop :=
  (Limits.loads_raises py s = None /\ Json.loads s = None)
  \/ (exists e, Limits.loads_raises py s = Some e
                /\ exn_cls e = JSONDecodeError).

(** [json.loads(s)] raises [e], which is no [JSONDecodeError]. *)
Definition gives_up (py : Limits.interpreter) (s : string) (e : exn)
  : Prop :=
  Limits.loads_raises py s = Some e /\ exn_cls e <> JSONDecodeError.

(** The text from the first opening brace to the last closing one, as both
    retries cut it out. *)
Definition brace_part (s : string) : string :=
  PyStr.slice s (Some (PyStr.find s "{")) (Some (PyStr.rfind s "}" + 1)).

(** [validate_and_fix_json] goes on with [data]: the value of the cleaned
    text, or after a [JSONDecodeError] the value of its brace part. *)
Definition parsed (py : Limits.interpreter) (s : string) (data : pyvalue)
  : Prop :=
  returns py s data \/ (fails py s /\ returns py (brace_part s) data).

(** The conversational flow goes on with the mapping [d]: the value of the
    content brought into shape, or after a [JSONDecodeError] the value of
    its brace part, or the notice if that call raises too. *)
Definition read_as_mapping (py : Limits.interpreter) (s : string) (d : dict)
  : Prop :=
  (exists v, returns py s v /\ normalize_shape v = PDict d)
  \/ (fails py s /\ returns py (brace_part s) (PDict d))
  \/ (fails py s
      /\ (forall data, ~ returns py (brace_part s) data)
      /\ d = [("message", PStr "AIの応答を解析できませんでした。");
              ("raw_response", PStr s)]).

End Decoding.

(** * Properties *)

Import Py Ai Spec.

(** ** dict lemmas *)

Lemma dict_get_set_same {A : Type} (d : list (string * A)) k v :
  dict_get (dict_set d k v) k = Some v.
Proof.
  induction d as [|[k' v'] d IH]; simpl.
  - now rewrite String.eqb_refl.
  - destruct (String.eqb k' k) eqn:E; simpl; rewrite E; auto.
Qed.

Lemma dict_get_set_other {A : Type} (d : list (string * A)) k k' v :
  k' <> k -> dict_get (dict_set d k v) k' = dict_get d k'.
Proof.
  intros Hne. induction d as [|[k0 v0] d IH]; simpl.
  - destruct (String.eqb k k') eqn:E; auto.
    apply String.eqb_eq in E. congruence.
  - destruct (String.eqb k0 k) eqn:E; simpl.
    + apply String.eqb_eq in E. subst k0.
      destruct (String.eqb k k') eqn:E'; auto.
      apply String.eqb_eq in E'. congruence.
    + now rewrite IH.
Qed.

Lemma dict_set_In {A : Type} (d : list (string * A)) k v k' x :
  In (k', x) (dict_set d k v) -> (k' = k /\ x = v) \/ In (k', x) d.
Proof.
  induction d as [|[k0 v0] d IH]; simpl.
  - intros [H|[]]. inversion H. auto.
  - destruct (String.eqb k0 k) eqn:E; simpl.
    + apply String.eqb_eq in E. subst k0.
      intros [H|H]; [inversion H; auto | auto].
    + intros [H|H]; [auto | destruct (IH H); auto].
Qed.

Lemma dict_get_In {A : Type} (d : list (string * A)) k v :
  dict_get d k = Some v -> In (k, v) d.
Proof.
  induction d as [|[k0 v0] d IH]; simpl; [discriminate|].
  destruct (String.eqb k0 k) eqn:E.
  - apply String.eqb_eq in E. intros H. inversion H. subst. auto.
  - auto.
Qed.

Lemma dict_get_key {A : Type} (d : list (string * A)) k v :
  dict_get d k = Some v -> In k (dict_keys d).
Proof.
  intros H. apply dict_get_In in H.
  unfold dict_keys. change k with (fst (k, v)). now apply in_map.
Qed.

Lemma dict_get_None {A : Type} (d : list (string * A)) k :
  dict_get d k = None <-> ~ In k (dict_keys d).
Proof.
  induction d as [|[k0 v0] d IH]; simpl.
  - tauto.
  - destruct (String.eqb k0 k) eqn:E.
    + apply String.eqb_eq in E. split; [discriminate | tauto].
    + apply String.eqb_neq in E. tauto.
Qed.

Lemma dict_get_unique {A : Type} (d : list (string * A)) k v :
  NoDup (dict_keys d) -> In (k, v) d -> dict_get d k = Some v.
Proof.
  induction d as [|[k0 v0] d IH]; simpl; [tauto|].
  intros Hnd [H|H].
  - inversion H. subst. now rewrite String.eqb_refl.
  - inversion Hnd as [|? ? Hnot Hnd']. subst.
    destruct (String.eqb k0 k) eqn:E.
    + apply String.eqb_eq in E. subst k0. exfalso. apply Hnot.
      change k with (fst (k, v)). now apply in_map.
    + auto.
Qed.

(** ** The fallback of the single-shot flow *)

Lemma fallback_first_title text schema k :
  first_title schema k ->
  fallback_properties text schema
  = [(k, PDict [("title",
                 PList [PDict [("text", PDict [("content", PStr text)])]])])].
Proof.
  intros (pre & f & post & -> & Hf & Hpre).
  induction pre as [|[k' f'] pre IH]; simpl.
  - now rewrite Hf.
  - destruct (String.eqb (ftype f') "title") eqn:E.
    + apply String.eqb_eq in E. exfalso.
      apply (Hpre k' f'); simpl; auto.
    + apply IH. intros k0 f0 H. apply (Hpre k0 f0). simpl. auto.
Qed.

Lemma has_title_first schema :
  has_title schema -> exists k, first_title schema k.
Proof.
  induction schema as [|[k0 f0] schema IH]; intros (k & f & Hin & Hf).
  - destruct Hin.
  - destruct (String.eqb (ftype f0) "title") eqn:E.
    + apply String.eqb_eq in E. exists k0, [], f0, schema. simpl. tauto.
    + apply String.eqb_neq in E.
      destruct Hin as [H|H]; [inversion H; subst; tauto|].
      destruct IH as (k1 & pre & f1 & post & -> & Hf1 & Hpre).
      { now exists k, f. }
      exists k1, ((k0, f0) :: pre), f1, post. simpl. repeat split; auto.
      intros k' f' [H'|H']; [inversion H'; subst; auto | eauto].
Qed.

Lemma fallback_at_most_title text schema k x :
  In (k, x) (fallback_properties text schema) ->
  x = PDict [("title",
              PList [PDict [("text", PDict [("content", PStr text)])]])]
  /\ (exists f, In (k, f) schema /\ ftype f = "title").
Proof.
  induction schema as [|[k0 f0] schema IH]; simpl; [tauto|].
  destruct (String.eqb (ftype f0) "title") eqn:E.
  - apply String.eqb_eq in E. intros [H|[]]. inversion H. subst.
    split; auto. exists f0. auto.
  - intros H. destruct (IH H) as (Hx & f & Hin & Hf).
    split; auto. exists f. auto.
Qed.

Lemma fallback_without_title text schema :
  (forall k f, In (k, f) schema -> ftype f <> "title") ->
  fallback_properties text schema = [].
Proof.
  induction schema as [|[k0 f0] schema IH]; intros H; simpl; [reflexivity|].
  destruct (String.eqb (ftype f0) "title") eqn:E.
  - apply String.eqb_eq in E. exfalso. apply (H k0 f0); simpl; auto.
  - apply IH. intros k f Hin. apply (H k f). simpl. auto.
Qed.

Lemma fallback_length text schema :
  (List.length (fallback_properties text schema) <= 1)%nat.
Proof.
  induction schema as [|[k0 f0] schema IH]; simpl; [lia|].
  destruct (String.eqb (ftype f0) "title"); simpl; lia.
Qed.

(** C4. When the model executor raises, the single-shot flow returns the
    fallback with the exception's text under [error]: empty usage, zero
    cost, the selected model, and as [properties] the first title field of
    the schema alone, holding [{title: [{text: {content: text}}]}] for the
    input text (the empty mapping for a schema with no title field).  The
    conversational flow raises the same exception. *)
Theorem C4_upstream_failure :
  forall (text : string) (schema : schema_t) (selected_model : string)
         (e : exn),
    let title :=
      PDict [("title", PList [PDict [("text",
                                      PDict [("content", PStr text)])]])] in
    (exists properties,
        analyze_text_with_ai text schema selected_model (Raise e)
        = Ok [("properties", PDict properties);
              ("usage", PDict []);
              ("cost", PFloat (S754_zero false));
              ("model", PStr selected_model);
              ("error", PStr (exn_str e))]
        /\ (forall k, first_title schema k -> properties = [(k, title)])
        /\ ((forall k f, In (k, f) schema -> ftype f <> "title") ->
            properties = [])
        /\ (List.length properties <= 1)%nat
        /\ (forall k x,
               In (k, x) properties ->
               x = title /\ exists f, In (k, f) schema /\ ftype f = "title"))
    /\ chat_analyze_text_with_ai schema (Raise e) = Raise e.
Proof.
  intros text schema selected_model e title.
  split; [|reflexivity].
  exists (fallback_properties text schema).
  split; [reflexivity|].
  split; [intros k; apply fallback_first_title|].
  split; [apply fallback_without_title|].
  split; [apply fallback_length|].
  intros k x; apply fallback_at_most_title.
Qed.

(** C7. On the text [Sure! {"Status":"Done"} Hope that helps.] the strict
    parse fails, the text from the first [{] to the last [}] is
    [{"Status":"Done"}], and with the schema whose only field [Status] is
    a select the result is [{"Status": {"select": {"name": "Done"}}}]. *)
Theorem C7_recovers_embedded_object :
  let cleaned := strip_fences sure_done in
  Json.loads cleaned = None
  /\ PyStr.slice cleaned (Some (PyStr.find cleaned "{"))
       (Some (PyStr.rfind cleaned "}" + 1)) = status_done
  /\ validate_and_fix_json sure_done [("Status", mk_field "select" [])]
     = Ok [("Status", PDict [("select", PDict [("name", PStr "Done")])])].
Proof.
  vm_compute. repeat split; reflexivity.
Qed.

(** C2, at the failing input: the model answers [42].  The shape step
    leaves the number as it is, and the flow raises [TypeError] at the
    test [message not in data]. *)
Theorem C2_scalar_response_raises :
  forall (schema : schema_t) (u c m : pyvalue),
    normalize_shape (PInt 42) = PInt 42
    /\ chat_analyze_text_with_ai schema (Ok (mk_generated "42" u c m))
       = Raise (mk_exn TypeError "argument of type 'int' is not iterable").
Proof.
  intros. split; reflexivity.
Qed.

(** C5 as stated fails: for [null] the shape step does not give the empty
    mapping. *)
Lemma C5_null_is_not_empty_mapping :
  normalize_shape PNone <> PDict [].
Proof.
  vm_compute. discriminate.
Qed.

(** C5, amended. For an empty mapping, an empty sequence, a sequence whose
    first element is not a mapping or is an empty mapping, [null], [false]
    and a zero number, the shape step gives the mapping whose only entry
    is [message], the notice that no valid response was obtained. *)
Theorem C5_falsy_gets_notice :
  let notice := PDict [("message", PStr no_valid_response)] in
  normalize_shape (PDict []) = notice
  /\ normalize_shape (PList []) = notice
  /\ (forall x rest, is_dict x = false ->
                     normalize_shape (PList (x :: rest)) = notice)
  /\ (forall rest, normalize_shape (PList (PDict [] :: rest)) = notice)
  /\ normalize_shape PNone = notice
  /\ normalize_shape (PBool false) = notice
  /\ normalize_shape (PInt 0) = notice
  /\ (forall s, normalize_shape (PFloat (S754_zero s)) = notice).
Proof.
  cbv zeta. repeat split; try reflexivity.
  intros x rest Hx. destruct x; try discriminate; reflexivity.
Qed.

(** ** Characters of a cleaned text *)

Lemma occurs_app c s t :
  PyStr.occurs c (s ++ t) = PyStr.occurs c s || PyStr.occurs c t.
Proof.
  induction s as [|a s IH]; simpl; [reflexivity|].
  rewrite IH. now rewrite orb_assoc.
Qed.

Lemma occurs_rev_append c s acc :
  PyStr.occurs c (PyStr.rev_append s acc)
  = PyStr.occurs c s || PyStr.occurs c acc.
Proof.
  revert acc. induction s as [|a s IH]; intros acc; simpl; [reflexivity|].
  rewrite IH. simpl.
  destruct (Ascii.eqb a c), (PyStr.occurs c s), (PyStr.occurs c acc);
    reflexivity.
Qed.

Lemma occurs_rev c s : PyStr.occurs c (PyStr.rev s) = PyStr.occurs c s.
Proof.
  unfold PyStr.rev. rewrite occurs_rev_append. simpl. apply orb_false_r.
Qed.

Lemma occurs_substring c s : forall n m,
  PyStr.occurs c s = false -> PyStr.occurs c (substring n m s) = false.
Proof.
  induction s as [|a s IH]; intros n m H.
  - destruct n, m; reflexivity.
  - simpl in H. apply orb_false_iff in H. destruct H as [Ha Hs].
    destruct n; simpl.
    + destruct m; simpl; [reflexivity|]. rewrite Ha. simpl. now apply IH.
    + now apply IH.
Qed.

Lemma occurs_slice c s lo hi :
  PyStr.occurs c s = false -> PyStr.occurs c (PyStr.slice s lo hi) = false.
Proof.
  intros H. unfold PyStr.slice. now apply occurs_substring.
Qed.

Lemma lstrip_with_suffix sp : forall n s,
  (String.length s <= n)%nat -> exists p, s = p ++ PyStr.lstrip_with sp s.
Proof.
  induction n as [|n IH]; intros s Hn.
  - destruct s; simpl in Hn; [|lia]. now exists "".
  - destruct s as [|a s1]; [now exists ""|].
    simpl in Hn. simpl. destruct (sp a).
    + destruct (IH s1) as [p Hp]; [lia|].
      exists (String a p). simpl. now rewrite <- Hp.
    + destruct s1 as [|b s2]; [now exists ""|].
      simpl in Hn. destruct (PyStr.space2 a b).
      * destruct (IH s2) as [p Hp]; [lia|].
        exists (String a (String b p)). simpl. now rewrite <- Hp.
      * destruct s2 as [|c s3]; [now exists ""|].
        simpl in Hn. destruct (PyStr.space3 a b c); [|now exists ""].
        destruct (IH s3) as [p Hp]; [lia|].
        exists (String a (String b (String c p))). simpl. now rewrite <- Hp.
Qed.

Lemma lstrip_rev_with_suffix sp : forall n s,
  (String.length s <= n)%nat -> exists p, s = p ++ PyStr.lstrip_rev_with sp s.
Proof.
  induction n as [|n IH]; intros s Hn.
  - destruct s; simpl in Hn; [|lia]. now exists "".
  - destruct s as [|a s1]; [now exists ""|].
    simpl in Hn. simpl. destruct (sp a).
    + destruct (IH s1) as [p Hp]; [lia|].
      exists (String a p). simpl. now rewrite <- Hp.
    + destruct s1 as [|b s2]; [now exists ""|].
      simpl in Hn. destruct (PyStr.space2 b a).
      * destruct (IH s2) as [p Hp]; [lia|].
        exists (String a (String b p)). simpl. now rewrite <- Hp.
      * destruct s2 as [|c s3]; [now exists ""|].
        simpl in Hn. destruct (PyStr.space3 c b a); [|now exists ""].
        destruct (IH s3) as [p Hp]; [lia|].
        exists (String a (String b (String c p))). simpl. now rewrite <- Hp.
Qed.

Lemma occurs_suffix c p s :
  PyStr.occurs c (p ++ s) = false -> PyStr.occurs c s = false.
Proof.
  rewrite occurs_app. intros H. now apply orb_false_iff in H.
Qed.

Lemma occurs_strip_with c sp s :
  PyStr.occurs c s = false -> PyStr.occurs c (PyStr.strip_with sp s) = false.
Proof.
  intros H. unfold PyStr.strip_with. rewrite occurs_rev.
  destruct (lstrip_rev_with_suffix sp _ (PyStr.rev (PyStr.lstrip_with sp s))
              (le_n _)) as [p Hp].
  apply (occurs_suffix c p). rewrite <- Hp. rewrite occurs_rev.
  destruct (lstrip_with_suffix sp _ s (le_n _)) as [q Hq].
  apply (occurs_suffix c q). now rewrite <- Hq.
Qed.

Lemma occurs_strip_fences c json_str :
  PyStr.occurs c json_str = false ->
  PyStr.occurs c (strip_fences json_str) = false.
Proof.
  intros H. unfold strip_fences, PyStr.strip.
  apply occurs_strip_with.
  repeat match goal with
         | |- PyStr.occurs _ (if ?b then _ else _) = false => destruct b
         | |- PyStr.occurs _ (PyStr.slice _ _ _) = false => apply occurs_slice
         end;
    now apply occurs_strip_with.
Qed.

Lemma find_from_absent c s : forall i,
  PyStr.occurs c s = false -> PyStr.find_from s (String c "") i = -1.
Proof.
  induction s as [|a s IH]; intros i H; simpl.
  - reflexivity.
  - simpl in H. apply orb_false_iff in H. destruct H as [Ha Hs].
    destruct (ascii_dec c a) as [E|E].
    + subst. now rewrite Ascii.eqb_refl in Ha.
    + now apply IH.
Qed.

Lemma find_absent c s :
  PyStr.occurs c s = false -> PyStr.find s (String c "") = -1.
Proof. apply find_from_absent. Qed.

(** ** Single-shot flow on unusable content *)

(** C1 as stated fails: on empty content and a schema with a title field
    the result is no title fallback. *)
Lemma C1_empty_content_no_fallback :
  ~ title_fallback "Buy milk" [("Name", mk_field "title" [])]
      (analyze_text_with_ai "Buy milk" [("Name", mk_field "title" [])]
         "model-a" (Ok (mk_generated "" (PDict []) (PInt 0) (PStr "model-a")))).
Proof.
  intros (d & k & e & Hd & _ & _ & He & _).
  vm_compute in Hd. inversion Hd. subst d. discriminate He.
Qed.

(** *** The calls of [json.loads] *)

Lemma returns_decoded py s v :
  Decoding.returns py s v <-> Limits.loads py s = Limits.Decoded v.
Proof.
  unfold Decoding.returns, Limits.loads, Limits.is_decode_error.
  destruct (Limits.loads_raises py s) as [e|].
  - split.
    + intros [H _]. discriminate.
    + destruct (exn_cls e); discriminate.
  - destruct (Json.loads s) as [v0|].
    + split.
      * intros [_ H]. inversion H. reflexivity.
      * intros H. inversion H. auto.
    + split; [intros [_ H]|]; discriminate.
Qed.

Lemma fails_malformed py s :
  Decoding.fails py s <-> Limits.loads py s = Limits.Malformed.
Proof.
  unfold Decoding.fails, Limits.loads, Limits.is_decode_error.
  destruct (Limits.loads_raises py s) as [e|].
  - split.
    + intros [[H _]|(e0 & H & Hc)]; [discriminate|].
      inversion H. subst e0. rewrite Hc. reflexivity.
    + intros H. right. exists e. split; [reflexivity|].
      destruct (exn_cls e); try discriminate; reflexivity.
  - destruct (Json.loads s) as [v0|].
    + split; [intros [[_ H]|(e0 & H & _)]|]; discriminate.
    + split; [reflexivity|]. intros _. left. auto.
Qed.

Lemma gives_up_given_up py s e :
  Decoding.gives_up py s e <-> Limits.loads py s = Limits.GivenUp e.
Proof.
  unfold Decoding.gives_up, Limits.loads, Limits.is_decode_error.
  destruct (Limits.loads_raises py s) as [e0|].
  - split.
    + intros [H Hc]. inversion H. subst e0.
      destruct (exn_cls e); try reflexivity. now exfalso.
    + intros H.
      destruct (exn_cls e0) eqn:E; try discriminate;
        inversion H; subst e0; (split; [reflexivity|]); rewrite E;
        discriminate.
  - destruct (Json.loads s); split; try discriminate; intros [H _];
      discriminate.
Qed.

(** C1, amended. For every schema: if [json.loads] raises
    [JSONDecodeError] on the content with the fences cut off, as it does on
    the empty string whenever the interpreter carries the call through, and
    the content holds no brace, [analyze_text_with_ai] returns the empty
    [properties] mapping, the usage, cost and model of the model result, and
    no [error] field.  The title fallback comes back where [json.loads]
    raises another exception (the recursion limit, the limit on the digits
    of an integer): then [properties] holds the first title field alone,
    filled with the input text, and [error] the text of that exception. *)
Theorem C1_unparsable_gives_empty_properties :
  forall (py : Limits.interpreter) (text : string) (schema : schema_t)
         (selected_model : string) (g : generated),
    let cleaned := strip_fences (content g) in
    let empty := [("properties", PDict []); ("usage", usage g);
                  ("cost", cost g); ("model", model g)] in
    (Decoding.fails py cleaned ->
     no_braces (content g) ->
     Limits.analyze_text_with_ai py text schema selected_model (Ok g)
     = Ok empty)
    /\ (content g = "" ->
        Limits.loads_raises py "" = None ->
        Limits.analyze_text_with_ai py text schema selected_model (Ok g)
        = Ok empty)
    /\ dict_get empty "error" = None
    /\ (forall e k,
           Decoding.gives_up py cleaned e ->
           first_title schema k ->
           Limits.analyze_text_with_ai py text schema selected_model (Ok g)
           = Ok [("properties",
                  PDict [(k, PDict [("title",
                                     PList [PDict [("text",
                                                    PDict [("content",
                                                            PStr text)])]])])]);
                 ("usage", PDict []);
                 ("cost", PFloat (S754_zero false));
                 ("model", PStr selected_model);
                 ("error", PStr (exn_str e))]).
Proof.
  intros py text schema selected_model g cleaned empty.
  assert (Hm : Decoding.fails py cleaned ->
               PyStr.occurs "{" (content g) = false ->
               Limits.analyze_text_with_ai py text schema selected_model (Ok g)
               = Ok empty).
  { intros Hl Hb. apply fails_malformed in Hl.
    unfold Limits.analyze_text_with_ai, Limits.validate_and_fix_json.
    cbn [bind]. fold cleaned.
    unfold Limits.parse_or_recover. rewrite Hl.
    change "{" with (String "{"%char "") at 1.
    rewrite (find_absent "{" cleaned)
      by (unfold cleaned; now apply occurs_strip_fences).
    reflexivity. }
  split; [intros Hl [Hb _]; auto|].
  split.
  - intros Hc Hq. apply Hm.
    + left. unfold cleaned. rewrite Hc.
      change (strip_fences "") with "". split; [exact Hq | reflexivity].
    + rewrite Hc. reflexivity.
  - split; [reflexivity|].
    intros e k Hl Hk. apply gives_up_given_up in Hl.
    unfold Limits.analyze_text_with_ai, Limits.validate_and_fix_json.
    cbn [bind]. fold cleaned.
    unfold Limits.parse_or_recover. rewrite Hl. cbn [bind].
    now rewrite (fallback_first_title text schema k Hk).
Qed.

Lemma C1_unparsable_witness :
  Limits.analyze_text_with_ai Limits.within_limits "Buy milk"
    [("Name", mk_field "title" [])] "model-a"
    (Ok (mk_generated "I cannot help with that." (PDict []) (PInt 0)
           (PStr "model-a")))
  = Ok [("properties", PDict []); ("usage", PDict []);
        ("cost", PInt 0); ("model", PStr "model-a")]
  /\ Limits.analyze_text_with_ai
       (Limits.gives_up_on "[[[[1]]]]" Limits.too_deep) "Buy milk"
       [("Name", mk_field "title" [])] "model-a"
       (Ok (mk_generated "[[[[1]]]]" (PDict []) (PInt 0)
              (PStr "model-a")))
     = Ok [("properties",
            PDict [("Name",
                    PDict [("title",
                            PList [PDict [("text",
                                           PDict [("content",
                                                   PStr "Buy milk")])]])])]);
           ("usage", PDict []);
           ("cost", PFloat (S754_zero false));
           ("model", PStr "model-a");
           ("error", PStr (exn_str Limits.too_deep))].
Proof.
  split.
  - apply (proj1 (C1_unparsable_gives_empty_properties Limits.within_limits
                    "Buy milk" [("Name", mk_field "title" [])] "model-a"
                    (mk_generated "I cannot help with that." (PDict [])
                       (PInt 0) (PStr "model-a")))).
    + left. split; [reflexivity | vm_compute; reflexivity].
    + split; reflexivity.
  - apply (proj2 (proj2 (proj2
             (C1_unparsable_gives_empty_properties
                (Limits.gives_up_on "[[[[1]]]]" Limits.too_deep)
                "Buy milk" [("Name", mk_field "title" [])] "model-a"
                (mk_generated "[[[[1]]]]" (PDict []) (PInt 0)
                   (PStr "model-a")))))).
    + split; [vm_compute; reflexivity | discriminate].
    + exists [], (mk_field "title" []), []. simpl.
      split; [reflexivity|]. split; [reflexivity|]. intros k f [].
Defined.

Lemma validate_non_object json_str schema v :
  Json.loads (strip_fences json_str) = Some v ->
  is_dict v = false ->
  validate_and_fix_json json_str schema = Raise (Builtin.no_attribute v "items").
Proof.
  intros Hl Hv. unfold validate_and_fix_json, parse_or_recover.
  rewrite Hl. destruct v; try discriminate; reflexivity.
Qed.

(** C10. For a schema with a title field, if the content, the fences cut
    off, parses to a JSON value that is no object, [analyze_text_with_ai]
    returns the title fallback: [properties] holds the first title field
    alone, filled with [{title: [{text: {content: text}}]}] for the input
    text, and [error] is the non-empty text of the [AttributeError] that
    [data.items()] raised. *)
Theorem C10_non_object_gives_title_fallback :
  forall (text : string) (schema : schema_t) (selected_model : string)
         (g : generated) (v : pyvalue),
    has_title schema ->
    Json.loads (strip_fences (content g)) = Some v ->
    is_dict v = false ->
    title_fallback text schema
      (analyze_text_with_ai text schema selected_model (Ok g))
    /\ exists k,
         first_title schema k
         /\ analyze_text_with_ai text schema selected_model (Ok g)
            = Ok [("properties",
                   PDict [(k, PDict [("title",
                                      PList [PDict [("text",
                                                     PDict [("content",
                                                             PStr text)])]])])]);
                  ("usage", PDict []);
                  ("cost", PFloat (S754_zero false));
                  ("model", PStr selected_model);
                  ("error",
                   PStr ("'" ++ type_name v
                         ++ "' object has no attribute 'items'"))].
Proof.
  intros text schema selected_model g v Ht Hl Hv.
  destruct (has_title_first schema Ht) as [k Hk].
  assert (E : analyze_text_with_ai text schema selected_model (Ok g)
              = Ok [("properties",
                     PDict [(k, PDict [("title",
                                        PList [PDict [("text",
                                                       PDict [("content",
                                                               PStr text)])]])])]);
                    ("usage", PDict []);
                    ("cost", PFloat (S754_zero false));
                    ("model", PStr selected_model);
                    ("error",
                     PStr ("'" ++ type_name v
                           ++ "' object has no attribute 'items'"))]).
  { unfold analyze_text_with_ai. simpl.
    rewrite (validate_non_object _ schema v Hl Hv). simpl.
    now rewrite (fallback_first_title text schema k Hk). }
  split; [|exists k; auto].
  rewrite E. eexists _, k, _. repeat split; auto. discriminate.
Qed.

Lemma C10_non_object_witness :
  title_fallback "Buy milk" [("Name", mk_field "title" [])]
    (analyze_text_with_ai "Buy milk" [("Name", mk_field "title" [])]
       "model-a"
       (Ok (mk_generated "[1, 2]" (PDict []) (PInt 0) (PStr "model-a")))).
Proof.
  apply (C10_non_object_gives_title_fallback "Buy milk"
           [("Name", mk_field "title" [])] "model-a"
           (mk_generated "[1, 2]" (PDict []) (PInt 0) (PStr "model-a"))
           (PList [PInt 1; PInt 2])).
  - exists "Name", (mk_field "title" []). simpl. auto.
  - vm_compute. reflexivity.
  - reflexivity.
Defined.

(** ** The coercion loop *)

Lemma dict_set_keys {A : Type} (d : list (string * A)) k v k' :
  In k' (dict_keys (dict_set d k v)) -> k' = k \/ In k' (dict_keys d).
Proof.
  induction d as [|[k0 v0] d IH]; simpl.
  - intros [H|[]]; auto.
  - destruct (String.eqb k0 k) eqn:E; simpl.
    + tauto.
    + intros [H|H]; [auto | destruct (IH H); auto].
Qed.

Lemma coerce_items_cons schema k v rest validated :
  coerce_items schema ((k, v) :: rest) validated
  = match step schema validated k v with
    | Ok validated' => coerce_items schema rest validated'
    | Raise e => Raise e
    end.
Proof.
  unfold step. simpl. destruct (dict_get schema k); [|reflexivity].
  destruct (coerce_value (ftype f) v) as [[x|]|e]; reflexivity.
Qed.

Lemma step_keys schema validated k v out k' :
  step schema validated k v = Ok out ->
  In k' (dict_keys out) ->
  In k' (dict_keys validated) \/ (k' = k /\ In k' (dict_keys schema)).
Proof.
  unfold step. destruct (dict_get schema k) as [f|] eqn:Ek.
  - destruct (coerce_value (ftype f) v) as [[x|]|e]; intros H; inversion H;
      subst; auto.
    intros Hin. apply dict_set_keys in Hin. destruct Hin; auto.
    subst. right. split; auto. eapply dict_get_key; eauto.
  - intros H. inversion H. subst. auto.
Qed.

Lemma step_other schema validated k v out k' :
  step schema validated k v = Ok out ->
  k' <> k -> dict_get out k' = dict_get validated k'.
Proof.
  unfold step. destruct (dict_get schema k) as [f|].
  - destruct (coerce_value (ftype f) v) as [[x|]|e]; intros H; inversion H;
      subst; auto.
    intros Hne. now apply dict_get_set_other.
  - intros H. inversion H. reflexivity.
Qed.

Lemma coerce_items_keys schema items : forall validated out,
  coerce_items schema items validated = Ok out ->
  forall k, In k (dict_keys out) ->
            In k (dict_keys validated) \/ In k (dict_keys schema).
Proof.
  induction items as [|[k v] rest IH]; intros validated out H k' Hin.
  - inversion H. subst. auto.
  - rewrite coerce_items_cons in H.
    destruct (step schema validated k v) as [validated'|e] eqn:Es;
      [|discriminate].
    destruct (IH _ _ H k' Hin) as [H1|H1]; auto.
    destruct (step_keys _ _ _ _ _ _ Es H1) as [H2|[_ H2]]; auto.
Qed.

Lemma coerce_items_other schema items : forall validated out k,
  coerce_items schema items validated = Ok out ->
  ~ In k (dict_keys items) ->
  dict_get out k = dict_get validated k.
Proof.
  induction items as [|[k0 v0] rest IH]; intros validated out k H Hn.
  - inversion H. reflexivity.
  - rewrite coerce_items_cons in H.
    destruct (step schema validated k0 v0) as [validated'|e] eqn:Es;
      [|discriminate].
    simpl in Hn. rewrite (IH _ _ _ H); [|tauto].
    eapply step_other; eauto.
Qed.

(** What the loop leaves under the key of an item, the keys of the items
    being distinct. *)
Lemma coerce_items_field schema items : forall validated out k v f,
  coerce_items schema items validated = Ok out ->
  NoDup (dict_keys items) ->
  In (k, v) items ->
  dict_get schema k = Some f ->
  exists r,
    coerce_value (ftype f) v = Ok r
    /\ dict_get out k = match r with
                        | Some x => Some x
                        | None => dict_get validated k
                        end.
Proof.
  induction items as [|[k0 v0] rest IH]; intros validated out k v f H Hnd Hin Hf.
  - destruct Hin.
  - rewrite coerce_items_cons in H.
    destruct (step schema validated k0 v0) as [validated'|e] eqn:Es;
      [|discriminate].
    simpl in Hnd. inversion Hnd as [|? ? Hnot Hnd']. subst.
    destruct Hin as [Hin|Hin].
    + inversion Hin. subst k0 v0.
      rewrite (coerce_items_other _ _ _ _ _ H Hnot).
      unfold step in Es. rewrite Hf in Es.
      destruct (coerce_value (ftype f) v) as [[x|]|e]; inversion Es; subst.
      * exists (Some x). split; auto. apply dict_get_set_same.
      * exists None. auto.
    + destruct (IH _ _ _ _ _ H Hnd' Hin Hf) as (r & Hr & Hg).
      exists r. split; auto. rewrite Hg. destruct r; auto.
      eapply step_other; eauto.
      intros ->. apply Hnot. change k0 with (fst (k0, v)).
      now apply in_map.
Qed.

(** The loop returns when the rule of every item does. *)
Lemma coerce_items_total schema items : forall validated,
  (forall k v f, In (k, v) items -> dict_get schema k = Some f ->
                 exists r, coerce_value (ftype f) v = Ok r) ->
  exists out, coerce_items schema items validated = Ok out.
Proof.
  induction items as [|[k0 v0] rest IH]; intros validated Hall.
  - now exists validated.
  - rewrite coerce_items_cons. unfold step.
    destruct (dict_get schema k0) as [f|] eqn:Ek.
    + destruct (Hall k0 v0 f) as [r Hr]; simpl; auto.
      rewrite Hr. destruct r; apply IH; intros; eapply Hall; simpl; eauto.
    + apply IH. intros; eapply Hall; simpl; eauto.
Qed.

(** An item whose key the schema lacks changes nothing. *)
Lemma coerce_items_drop schema k v : forall pre post validated,
  dict_get schema k = None ->
  coerce_items schema (pre ++ (k, v) :: post) validated
  = coerce_items schema (pre ++ post) validated.
Proof.
  induction pre as [|[k0 v0] pre IH]; intros post validated Hk.
  - simpl. now rewrite Hk.
  - simpl app. rewrite !coerce_items_cons.
    destruct (step schema validated k0 v0); auto.
Qed.

(** ** Keys of the coerced mapping *)

Lemma coerce_properties_keys schema candidates out :
  coerce_properties (PDict candidates) schema = Ok out ->
  incl (dict_keys out) (dict_keys schema).
Proof.
  unfold coerce_properties. simpl. intros H k Hin.
  destruct (coerce_items_keys _ _ _ _ H k Hin) as [[]|]; auto.
Qed.

(** C3. Every key of the mapping [validate_and_fix_json] returns is a key
    of the schema, from the text as from a candidate mapping; and a
    candidate whose key the schema lacks is dropped: with or without it
    the call returns the same mapping or raises the same exception. *)
Theorem C3_coerced_keys_in_schema :
  forall (schema : schema_t),
    (forall json_str out,
        validate_and_fix_json json_str schema = Ok out ->
        incl (dict_keys out) (dict_keys schema))
    /\ (forall candidates out,
           coerce_properties (PDict candidates) schema = Ok out ->
           incl (dict_keys out) (dict_keys schema))
    /\ (forall k v pre post,
           ~ In k (dict_keys schema) ->
           coerce_properties (PDict (pre ++ (k, v) :: post)) schema
           = coerce_properties (PDict (pre ++ post)) schema).
Proof.
  intros schema. split; [|split].
  - intros json_str out. unfold validate_and_fix_json.
    destruct (parse_or_recover (strip_fences json_str)) as [data|].
    + destruct data; try discriminate. apply coerce_properties_keys.
    + intros H. inversion H. intros k [].
  - apply coerce_properties_keys.
  - intros k v pre post Hk. unfold coerce_properties. simpl.
    apply coerce_items_drop. now apply dict_get_None.
Qed.

Lemma C3_keys_witness :
  incl (dict_keys [("Done", PDict [("checkbox", PBool true)])])
       (dict_keys [("Done", mk_field "checkbox" [])])
  /\ coerce_properties
       (PDict ([("Done", PBool true)] ++ ("Mood", PStr "fine") :: []))
       [("Done", mk_field "checkbox" [])]
     = coerce_properties (PDict ([("Done", PBool true)] ++ []))
         [("Done", mk_field "checkbox" [])].
Proof.
  destruct (C3_coerced_keys_in_schema [("Done", mk_field "checkbox" [])])
    as (_ & Hkeys & Hdrop).
  split.
  - apply (Hkeys [("Done", PBool true); ("Mood", PStr "fine")]).
    reflexivity.
  - apply Hdrop. simpl. intros [H|[]]. discriminate H.
Defined.

(** ** The keys of a parsed object are distinct *)

Lemma dict_set_nodup {A : Type} (d : list (string * A)) k v :
  NoDup (dict_keys d) -> NoDup (dict_keys (dict_set d k v)).
Proof.
  induction d as [|[k0 v0] d IH]; simpl; intros Hnd.
  - constructor; [tauto | constructor].
  - inversion Hnd as [|? ? Hnot Hnd']. subst.
    destruct (String.eqb k0 k) eqn:E; simpl.
    + now constructor.
    + constructor; auto. intros Hin. apply dict_set_keys in Hin.
      destruct Hin as [->|Hin]; auto.
      now rewrite String.eqb_refl in E.
Qed.

Lemma parse_members_nodup : forall fuel s acc d r,
  Json.parse_members fuel s acc = Some (d, r) ->
  NoDup (dict_keys acc) -> NoDup (dict_keys d).
Proof.
  induction fuel as [|fuel IH]; intros s acc d r H Hnd; [discriminate|].
  simpl in H.
  repeat match type of H with
         | context [match ?x with _ => _ end] =>
             destruct x eqn:?; try discriminate
         end.
  - inversion H. subst. now apply dict_set_nodup.
  - eapply IH; eauto. now apply dict_set_nodup.
Qed.

Lemma scan_once_dict_nodup fuel s d r :
  Json.scan_once fuel s = Some (PDict d, r) -> NoDup (dict_keys d).
Proof.
  destruct fuel as [|fuel]; [discriminate|]. simpl. intros H.
  repeat match type of H with
         | context [match ?x with _ => _ end] =>
             destruct x eqn:?; try discriminate
         end;
    try (inversion H; subst; try constructor; fail).
  - inversion H. subst. eapply parse_members_nodup; eauto. constructor.
  - inversion H. subst. unfold Json.match_constant in *.
    repeat match goal with
           | H' : (if ?b then _ else _) = Some _ |- _ =>
               destruct b; try discriminate
           end.
  - unfold Json.match_number, Json.match_unsigned in H.
    repeat match type of H with
           | context [match ?x with _ => _ end] =>
               destruct x eqn:?; try discriminate
           end.
Qed.

Lemma loads_dict_nodup s d :
  Json.loads s = Some (PDict d) -> NoDup (dict_keys d).
Proof.
  unfold Json.loads.
  destruct (Json.scan_once _ _) as [[v r]|] eqn:E; [|discriminate].
  destruct (Json.skip_ws r); [|discriminate].
  intros H. inversion H. subst. eapply scan_once_dict_nodup; eauto.
Qed.

Lemma parse_or_recover_nodup s d :
  parse_or_recover s = Some (PDict d) -> NoDup (dict_keys d).
Proof.
  unfold parse_or_recover.
  destruct (Json.loads s) eqn:E.
  - intros H. inversion H. subst. eapply loads_dict_nodup; eauto.
  - destruct (_ && _); [|discriminate]. apply loads_dict_nodup.
Qed.

(** ** Checkbox and multi-select fields *)

Lemma coerce_value_checkbox t v :
  t = "checkbox" ->
  coerce_value t v = Ok (Some (PDict [("checkbox", PBool (truthy v))])).
Proof. intros ->. reflexivity. Qed.

Lemma unwrap_name item : unwrap "name" item = item_name item.
Proof. destruct item; reflexivity. Qed.

Lemma collect_opts_spec items : forall opts,
  collect_opts items opts
  = (opts ++ map (fun x => PDict [("name", PStr (str x))])
               (filter truthy (map item_name items)))%list.
Proof.
  induction items as [|item rest IH]; intros opts;
    cbn [collect_opts map filter].
  - now rewrite app_nil_r.
  - rewrite IH, unwrap_name. destruct (truthy (item_name item)).
    + cbn [map]. now rewrite <- app_assoc.
    + reflexivity.
Qed.

Lemma coerce_multi_select_spec v :
  coerce_multi_select v = multi_select_of v.
Proof.
  unfold coerce_multi_select, multi_select_of, option_names, as_sequence.
  now rewrite collect_opts_spec.
Qed.

Lemma coerce_value_multi_select t v :
  t = "multi_select" -> coerce_value t v = Ok (Some (multi_select_of v)).
Proof.
  intros ->. unfold coerce_value. simpl.
  now rewrite coerce_multi_select_spec.
Qed.

(** A field whose rule gives [x] for its candidate is in every mapping
    the coercion returns, from a candidate mapping as from the text; and
    the coercion returns when the rules of the other fields do. *)
Lemma field_always_emitted schema candidates k v f x :
  dict_get schema k = Some f ->
  coerce_value (ftype f) v = Ok (Some x) ->
  In (k, v) candidates ->
  (forall out,
      NoDup (dict_keys candidates) ->
      coerce_properties (PDict candidates) schema = Ok out ->
      dict_get out k = Some x)
  /\ (forall json_str out,
         parse_or_recover (strip_fences json_str) = Some (PDict candidates) ->
         validate_and_fix_json json_str schema = Ok out ->
         dict_get out k = Some x)
  /\ (NoDup (dict_keys candidates) ->
      (forall k' v' f', In (k', v') candidates -> k' <> k ->
                        dict_get schema k' = Some f' ->
                        exists r, coerce_value (ftype f') v' = Ok r) ->
      exists out, coerce_properties (PDict candidates) schema = Ok out).
Proof.
  intros Hf Hx Hin.
  assert (Hout : forall out,
             NoDup (dict_keys candidates) ->
             coerce_properties (PDict candidates) schema = Ok out ->
             dict_get out k = Some x).
  { intros out Hnd H. unfold coerce_properties in H. simpl in H.
    destruct (coerce_items_field _ _ _ _ _ _ _ H Hnd Hin Hf) as (r & Hr & Hg).
    rewrite Hx in Hr. inversion Hr. subst r. exact Hg. }
  split; [exact Hout|]. split.
  - intros json_str out Hp H. unfold validate_and_fix_json in H.
    rewrite Hp in H. apply Hout; auto.
    eapply parse_or_recover_nodup; eauto.
  - intros Hnd Hothers. unfold coerce_properties. simpl.
    apply coerce_items_total. intros k' v' f' Hin' Hf'.
    destruct (string_dec k' k) as [->|Hne].
    + rewrite Hf in Hf'. inversion Hf'. subst f'.
      pose proof (dict_get_unique _ _ _ Hnd Hin) as E.
      rewrite (dict_get_unique _ _ _ Hnd Hin') in E. inversion E. subst v'.
      eauto.
    + eauto.
Qed.

(** C8. For a checkbox field of the schema with candidate value [v], the
    rule gives [{checkbox: bool(v)}] whatever [v] is; every mapping the
    coercer returns, from a candidate mapping as from the model text,
    holds the field with that value; and the coercer returns whenever the
    rules of the other candidates do. *)
Theorem C8_checkbox_never_omitted :
  forall (schema : schema_t) (candidates : dict) (k : string) (v : pyvalue)
         (f : field),
    dict_get schema k = Some f ->
    ftype f = "checkbox" ->
    In (k, v) candidates ->
    let checkbox := PDict [("checkbox", PBool (truthy v))] in
    coerce_value (ftype f) v = Ok (Some checkbox)
    /\ (forall out,
           NoDup (dict_keys candidates) ->
           coerce_properties (PDict candidates) schema = Ok out ->
           dict_get out k = Some checkbox)
    /\ (forall json_str out,
           parse_or_recover (strip_fences json_str) = Some (PDict candidates) ->
           validate_and_fix_json json_str schema = Ok out ->
           dict_get out k = Some checkbox)
    /\ (NoDup (dict_keys candidates) ->
        (forall k' v' f',
            In (k', v') candidates -> k' <> k ->
            dict_get schema k' = Some f' ->
            exists r, coerce_value (ftype f') v' = Ok r) ->
        exists out, coerce_properties (PDict candidates) schema = Ok out).
Proof.
  intros schema candidates k v f Hf Ht Hin checkbox.
  pose proof (coerce_value_checkbox (ftype f) v Ht) as Hx.
  split; [exact Hx|].
  exact (field_always_emitted schema candidates k v f _ Hf Hx Hin).
Qed.

Lemma C8_checkbox_witness :
  coerce_value "checkbox" (PList [])
  = Ok (Some (PDict [("checkbox", PBool false)]))
  /\ (forall out,
         NoDup (dict_keys [("Done", PList []); ("Mood", PStr "fine")]) ->
         coerce_properties (PDict [("Done", PList []); ("Mood", PStr "fine")])
           [("Done", mk_field "checkbox" [])] = Ok out ->
         dict_get out "Done" = Some (PDict [("checkbox", PBool false)]))
  /\ (forall json_str out,
         parse_or_recover (strip_fences json_str)
         = Some (PDict [("Done", PList []); ("Mood", PStr "fine")]) ->
         validate_and_fix_json json_str [("Done", mk_field "checkbox" [])]
         = Ok out ->
         dict_get out "Done" = Some (PDict [("checkbox", PBool false)]))
  /\ (NoDup (dict_keys [("Done", PList []); ("Mood", PStr "fine")]) ->
      (forall k' v' f',
          In (k', v') [("Done", PList []); ("Mood", PStr "fine")] ->
          k' <> "Done" ->
          dict_get [("Done", mk_field "checkbox" [])] k' = Some f' ->
          exists r, coerce_value (ftype f') v' = Ok r) ->
      exists out,
        coerce_properties (PDict [("Done", PList []); ("Mood", PStr "fine")])
          [("Done", mk_field "checkbox" [])] = Ok out).
Proof.
  apply (C8_checkbox_never_omitted [("Done", mk_field "checkbox" [])]
           [("Done", PList []); ("Mood", PStr "fine")] "Done" (PList [])
           (mk_field "checkbox" [])).
  - reflexivity.
  - reflexivity.
  - simpl. auto.
Defined.

(** C6. For a multi-select field of the schema with candidate value [v],
    the rule takes [v] as a sequence (itself, or the one-element sequence
    of it), takes [.name] of each item that is a mapping, leaves out the
    items that give no truthy name, and gives [{multi_select: [{name:
    str(item)}, ...]}]; every mapping the coercer returns, from a
    candidate mapping as from the model text, holds the field with that
    value, an empty option list included; and the coercer returns whenever
    the rules of the other candidates do. *)
Theorem C6_multi_select_always_emitted :
  forall (schema : schema_t) (candidates : dict) (k : string) (v : pyvalue)
         (f : field),
    dict_get schema k = Some f ->
    ftype f = "multi_select" ->
    In (k, v) candidates ->
    coerce_value (ftype f) v = Ok (Some (multi_select_of v))
    /\ (option_names v = [] ->
        multi_select_of v = PDict [("multi_select", PList [])])
    /\ (forall out,
           NoDup (dict_keys candidates) ->
           coerce_properties (PDict candidates) schema = Ok out ->
           dict_get out k = Some (multi_select_of v))
    /\ (forall json_str out,
           parse_or_recover (strip_fences json_str) = Some (PDict candidates) ->
           validate_and_fix_json json_str schema = Ok out ->
           dict_get out k = Some (multi_select_of v))
    /\ (NoDup (dict_keys candidates) ->
        (forall k' v' f',
            In (k', v') candidates -> k' <> k ->
            dict_get schema k' = Some f' ->
            exists r, coerce_value (ftype f') v' = Ok r) ->
        exists out, coerce_properties (PDict candidates) schema = Ok out).
Proof.
  intros schema candidates k v f Hf Ht Hin.
  pose proof (coerce_value_multi_select (ftype f) v Ht) as Hx.
  split; [exact Hx|]. split.
  - intros Hnone. unfold multi_select_of. now rewrite Hnone.
  - exact (field_always_emitted schema candidates k v f _ Hf Hx Hin).
Qed.

Lemma C6_multi_select_witness :
  coerce_value "multi_select" (PDict [("id", PInt 7)])
  = Ok (Some (multi_select_of (PDict [("id", PInt 7)])))
  /\ (option_names (PDict [("id", PInt 7)]) = [] ->
      multi_select_of (PDict [("id", PInt 7)])
      = PDict [("multi_select", PList [])])
  /\ (forall out,
         NoDup (dict_keys [("Tags", PDict [("id", PInt 7)])]) ->
         coerce_properties (PDict [("Tags", PDict [("id", PInt 7)])])
           [("Tags", mk_field "multi_select" ["home"])] = Ok out ->
         dict_get out "Tags" = Some (multi_select_of (PDict [("id", PInt 7)])))
  /\ (forall json_str out,
         parse_or_recover (strip_fences json_str)
         = Some (PDict [("Tags", PDict [("id", PInt 7)])]) ->
         validate_and_fix_json json_str
           [("Tags", mk_field "multi_select" ["home"])] = Ok out ->
         dict_get out "Tags" = Some (multi_select_of (PDict [("id", PInt 7)])))
  /\ (NoDup (dict_keys [("Tags", PDict [("id", PInt 7)])]) ->
      (forall k' v' f',
          In (k', v') [("Tags", PDict [("id", PInt 7)])] ->
          k' <> "Tags" ->
          dict_get [("Tags", mk_field "multi_select" ["home"])] k' = Some f' ->
          exists r, coerce_value (ftype f') v' = Ok r) ->
      exists out,
        coerce_properties (PDict [("Tags", PDict [("id", PInt 7)])])
          [("Tags", mk_field "multi_select" ["home"])] = Ok out).
Proof.
  apply (C6_multi_select_always_emitted
           [("Tags", mk_field "multi_select" ["home"])]
           [("Tags", PDict [("id", PInt 7)])] "Tags" (PDict [("id", PInt 7)])
           (mk_field "multi_select" ["home"])).
  - reflexivity.
  - reflexivity.
  - simpl. auto.
Defined.

(** The multi-select rule on a list of a name, a mapping with a name, a
    mapping without one, a zero and a number. *)
Example multi_select_mixed :
  coerce_multi_select
    (PList [PStr "a"; PDict [("name", PStr "b")]; PDict [("id", PInt 1)];
            PInt 0; PInt 3])
  = PDict [("multi_select",
            PList [PDict [("name", PStr "a")]; PDict [("name", PStr "b")];
                   PDict [("name", PStr "3")]])].
Proof. reflexivity. Qed.

(** ** The coercer on its own output *)

Lemma coerce_number_shape v x :
  coerce_number v = Ok (Some x) -> exists y, x = PDict [("number", PFloat y)].
Proof.
  unfold coerce_number. intros H.
  destruct v; try discriminate;
    match type of H with
    | match ?c with _ => _ end = _ => destruct c as [y|e]
    end;
    try (inversion H; eauto; fail);
    destruct (is_value_or_type_error e); discriminate.
Qed.

Lemma coerce_text_shape tag v x :
  coerce_text tag v = Ok (Some x) ->
  exists s,
    x = PDict [(tag, PList [PDict [("text", PDict [("content", PStr s)])]])].
Proof.
  unfold coerce_text. intros H.
  match type of H with
  | bind ?c _ = _ => destruct c as [w|e]
  end; simpl in H; inversion H. eauto.
Qed.

Lemma coerce_text_total_on_output tag tag' s :
  (exists r,
      coerce_text tag'
        (PList [PDict [("text", PDict [("content", PStr s)])]]) = Ok r)
  /\ (exists r,
         coerce_text tag'
           (PDict [(tag, PList [PDict [("text", PDict [("content", PStr s)])]])])
         = Ok r).
Proof. split; eexists; reflexivity. Qed.

Lemma coerce_number_total_on_output y :
  (exists r, coerce_number (PFloat y) = Ok r)
  /\ (exists r, coerce_number (PDict [("number", PFloat y)]) = Ok r).
Proof. split; eexists; reflexivity. Qed.

(** A rule applied to what it gave, or to the value under the kind tag
    of it, returns. *)
Lemma coerce_value_on_output t v x :
  coerce_value t v = Ok (Some x) ->
  (exists r, coerce_value t (inner_value x) = Ok r)
  /\ (exists r, coerce_value t x = Ok r).
Proof.
  unfold coerce_value.
  repeat match goal with
         | |- context [if String.eqb t ?s then _ else _] =>
             destruct (String.eqb t s)
         end;
    intros H;
    try (split; eexists; reflexivity).
  - destruct (coerce_number_shape _ _ H) as [y ->].
    apply coerce_number_total_on_output.
  - destruct (coerce_text_shape _ _ _ H) as [s ->].
    apply coerce_text_total_on_output.
  - destruct (coerce_text_shape _ _ _ H) as [s ->].
    apply coerce_text_total_on_output.
Qed.

Lemma step_produced schema validated k v out :
  step schema validated k v = Ok out ->
  (forall k' x, In (k', x) validated -> produced schema k' x) ->
  forall k' x, In (k', x) out -> produced schema k' x.
Proof.
  unfold step. intros H Hacc k' x Hin.
  destruct (dict_get schema k) as [f|] eqn:Ek.
  - destruct (coerce_value (ftype f) v) as [[y|]|e] eqn:Ev; inversion H;
      subst; auto.
    apply dict_set_In in Hin. destruct Hin as [[-> ->]|Hin]; auto.
    now exists f, v.
  - inversion H. subst. auto.
Qed.

Lemma coerce_items_produced schema items : forall validated out,
  coerce_items schema items validated = Ok out ->
  (forall k x, In (k, x) validated -> produced schema k x) ->
  forall k x, In (k, x) out -> produced schema k x.
Proof.
  induction items as [|[k0 v0] rest IH]; intros validated out H Hacc.
  - inversion H. subst. auto.
  - rewrite coerce_items_cons in H.
    destruct (step schema validated k0 v0) as [validated'|e] eqn:Es;
      [|discriminate].
    eapply IH; eauto. eapply step_produced; eauto.
Qed.

Lemma coerce_produced_total schema (g : pyvalue -> pyvalue) :
  (forall t v x, coerce_value t v = Ok (Some x) ->
                 exists r, coerce_value t (g x) = Ok r) ->
  forall items,
    (forall k x, In (k, x) items -> produced schema k x) ->
    exists out,
      coerce_items schema (map (fun kv => (fst kv, g (snd kv))) items) []
      = Ok out.
Proof.
  intros Hg items Hall. apply coerce_items_total.
  intros k v f Hin Hf. apply in_map_iff in Hin.
  destruct Hin as ([k0 x] & E & Hin). simpl in E. inversion E. subst k v.
  destruct (Hall _ _ Hin) as (f0 & v0 & Hf0 & Hv0).
  rewrite Hf in Hf0. inversion Hf0. subst f0. eauto.
Qed.

(** C9. When the coercer has returned a mapping, applying it again to
    that mapping returns too: with each field's value under its kind tag
    as the new candidate, and with each field's whole value as well. *)
Theorem C9_reapplication_returns :
  forall (schema : schema_t) (candidates out : dict),
    coerce_properties (PDict candidates) schema = Ok out ->
    (exists out', coerce_properties (PDict (as_candidates out)) schema = Ok out')
    /\ (exists out', coerce_properties (PDict out) schema = Ok out').
Proof.
  intros schema candidates out H.
  assert (Hprod : forall k x, In (k, x) out -> produced schema k x).
  { unfold coerce_properties in H. simpl in H.
    eapply coerce_items_produced; eauto. intros k x []. }
  split.
  - unfold coerce_properties, as_candidates. simpl.
    apply (coerce_produced_total schema inner_value); auto.
    intros t v x Hx. now destruct (coerce_value_on_output t v x Hx).
  - unfold coerce_properties. simpl.
    assert (E : map (fun kv : string * pyvalue => (fst kv, snd kv)) out = out).
    { clear. induction out as [|[k x] out IH]; simpl; congruence. }
    rewrite <- E.
    apply (coerce_produced_total schema (fun x => x)); auto.
    intros t v x Hx. now destruct (coerce_value_on_output t v x Hx).
Qed.

Lemma C9_reapplication_witness :
  (exists out',
      coerce_properties
        (PDict (as_candidates
                  [("Name",
                    PDict [("title",
                            PList [PDict [("text",
                                           PDict [("content",
                                                   PStr "Buy milk")])]])]);
                   ("Count", PDict [("number", PFloat (PyFloat.of_Z 3))])]))
        [("Name", mk_field "title" []); ("Count", mk_field "number" [])]
      = Ok out')
  /\ (exists out',
         coerce_properties
           (PDict
              [("Name",
                PDict [("title",
                        PList [PDict [("text",
                                       PDict [("content", PStr "Buy milk")])]])]);
               ("Count", PDict [("number", PFloat (PyFloat.of_Z 3))])])
           [("Name", mk_field "title" []); ("Count", mk_field "number" [])]
         = Ok out').
Proof.
  apply (C9_reapplication_returns
           [("Name", mk_field "title" []); ("Count", mk_field "number" [])]
           [("Name", PStr "Buy milk"); ("Count", PInt 3)]).
  vm_compute. reflexivity.
Defined.


(** ** The fuel of the JSON parser *)

Lemma skip_ws_length s :
  (String.length (Json.skip_ws s) <= String.length s)%nat.
Proof.
  induction s as [|a s IH]; simpl; [lia|].
  destruct (Json.is_ws a); simpl; lia.
Qed.

Lemma span_digits_length s : forall ds r,
  Dec.span_digits s = (ds, r) ->
  String.length s = (String.length ds + String.length r)%nat.
Proof.
  induction s as [|a s IH]; intros ds r H; simpl in H.
  - inversion H. reflexivity.
  - destruct (Dec.is_digit a).
    + destruct (Dec.span_digits s) as [ds' r'] eqn:E.
      inversion H. subst. simpl. now rewrite (IH _ _ eq_refl).
    + inversion H. reflexivity.
Qed.

Lemma substring_length s : forall n m,
  String.length (substring n m s) = Nat.min m (String.length s - n).
Proof.
  induction s as [|a s IH]; intros n m.
  - destruct n, m; reflexivity.
  - destruct n; simpl.
    + destruct m; simpl; [reflexivity|]. now rewrite IH, Nat.sub_0_r.
    + apply IH.
Qed.

Lemma prefix_length p : forall s,
  prefix p s = true -> (String.length p <= String.length s)%nat.
Proof.
  induction p as [|a p IH]; intros s H; simpl; [lia|].
  destruct s as [|b s]; simpl in H; [discriminate|].
  destruct (ascii_dec a b); [|discriminate].
  apply IH in H. simpl. lia.
Qed.

Lemma drop_length n s :
  String.length (Json.drop n s) = (String.length s - n)%nat.
Proof. unfold Json.drop. rewrite substring_length. lia. Qed.

Lemma match_constant_length s v r :
  Json.match_constant s = Some (v, r) ->
  (String.length r < String.length s)%nat.
Proof.
  unfold Json.match_constant.
  repeat match goal with
         | |- context [if prefix ?p s then _ else _] =>
             let E := fresh "E" in
             destruct (prefix p s) eqn:E;
             [apply prefix_length in E; simpl in E; intros H; inversion H;
              rewrite drop_length; lia|]
         end.
  discriminate.
Qed.

Lemma match_int_length s ip r :
  Json.match_int s = Some (ip, r) ->
  (String.length r < String.length s)%nat.
Proof.
  destruct s as [|a s]; simpl; [discriminate|].
  destruct (Ascii.eqb a "0").
  - intros H. inversion H. subst. simpl. lia.
  - destruct (Dec.is_digit a) eqn:E; [|discriminate].
    destruct (Dec.span_digits s) as [ds r'] eqn:Es.
    intros H. inversion H. subst.
    apply span_digits_length in Es. simpl. lia.
Qed.

Lemma match_frac_length s fp r :
  Json.match_frac s = Some (fp, r) ->
  (String.length r < String.length s)%nat.
Proof.
  destruct s as [|a s]; simpl; [discriminate|].
  destruct (Ascii.eqb a "."); [|discriminate].
  destruct (Dec.span_digits s) as [ds r'] eqn:Es.
  destruct ds; [discriminate|].
  intros H. inversion H. subst. apply span_digits_length in Es. lia.
Qed.

Lemma match_exp_length s ex r :
  Json.match_exp s = Some (ex, r) ->
  (String.length r < String.length s)%nat.
Proof.
  destruct s as [|a s]; simpl; [discriminate|].
  destruct (Ascii.eqb a "e" || Ascii.eqb a "E"); [|discriminate].
  assert (Hs : forall neg s'',
             (String.length s'' <= String.length s)%nat ->
             match Dec.span_digits s'' with
             | ("", _) => None
             | (String a0 s0 as ds, r0) =>
                 Some (if neg : bool then (- Dec.to_Z ds 0)%Z
                       else Dec.to_Z ds 0, r0)
             end = Some (ex, r) -> (String.length r < S (String.length s))%nat).
  { intros neg s'' Hle.
    destruct (Dec.span_digits s'') as [ds r'] eqn:Es.
    destruct ds; [discriminate|].
    intros H. inversion H. subst. apply span_digits_length in Es. lia. }
  destruct s as [|b t].
  - apply (Hs false). lia.
  - destruct (Ascii.eqb b "-"); [apply (Hs true); simpl; lia|].
    destruct (Ascii.eqb b "+"); apply (Hs false); simpl; lia.
Qed.

Lemma match_unsigned_length neg s v r :
  Json.match_unsigned neg s = Some (v, r) ->
  (String.length r < String.length s)%nat.
Proof.
  unfold Json.match_unsigned.
  destruct (Json.match_int s) as [[ip s1]|] eqn:E1; [|discriminate].
  apply match_int_length in E1.
  destruct (Json.match_frac s1) as [[fp s2]|] eqn:E2;
    [apply match_frac_length in E2|];
    (destruct (Json.match_exp _) as [[ex s3]|] eqn:E3;
     [apply match_exp_length in E3|]);
    simpl; intros H; inversion H; subst; lia.
Qed.

Lemma match_number_length s v r :
  Json.match_number s = Some (v, r) ->
  (String.length r < String.length s)%nat.
Proof.
  destruct s as [|a s']; simpl; [discriminate|].
  destruct (Ascii.eqb a "-"); intros H;
    apply match_unsigned_length in H; simpl in *; lia.
Qed.

Opaque Json.hex4 Json.simple_escape Json.low_surrogate_escape
  Json.utf8_encode Ascii.eqb N.ltb N_of_ascii Json.is_high_surrogate
  Json.join_surrogates.

Lemma scanstring_length : forall n s t r,
  (String.length s <= n)%nat ->
  Json.scanstring s = Some (t, r) -> (String.length r < String.length s)%nat.
Proof.
  induction n as [|n IH]; intros s t r Hn H.
  - destruct s; simpl in *; [discriminate | lia].
  - destruct s as [|a s1]; [discriminate|].
    simpl in Hn. simpl in H.
    repeat match type of H with
           | context [match ?x with _ => _ end] =>
               destruct x eqn:?; try discriminate
           end.
    all: try (inversion H; subst; simpl; lia).
    all: repeat match goal with
                | E : Json.scanstring ?u = Some (_, ?r') |- _ =>
                    apply IH in E; [|simpl in *; lia]; simpl in E
                end;
      inversion H; subst; simpl in *; try lia.
Qed.

Lemma scanstring_shorter s t r :
  Json.scanstring s = Some (t, r) -> (String.length r < String.length s)%nat.
Proof. apply (scanstring_length (String.length s)). lia. Qed.

Opaque Json.scanstring Json.match_constant Json.match_number
  Json.skip_ws dict_set.

Lemma parser_reads : forall fuel,
  (forall s v r, Json.scan_once fuel s = Some (v, r) ->
                 reads Json.scan_once s v r)
  /\ (forall s acc d r,
         Json.parse_members fuel s acc = Some (d, r) ->
         reads (fun fuel s => Json.parse_members fuel s acc) s d r)
  /\ (forall s l r, Json.parse_elems fuel s = Some (l, r) ->
                    reads Json.parse_elems s l r).
Proof.
  induction fuel as [|fuel (IHs & IHm & IHe)].
  { repeat split; intros; discriminate. }
  split; [|split].
  - intros s v r H. simpl in H.
    destruct s as [|a s1]; [discriminate|].
    destruct (Ascii.eqb a PyStr.dquote) eqn:Eq.
    { destruct (Json.scanstring s1) as [[t r']|] eqn:Es; inversion H; subst.
      pose proof (scanstring_shorter _ _ _ Es) as Hl.
      split; [cbn [String.length] in *; lia|]. intros [|f] Hf; [lia|].
      simpl. now rewrite Eq, Es. }
    destruct (Ascii.eqb a "{") eqn:Eo.
    { pose proof (skip_ws_length s1) as Hw.
      destruct (Json.skip_ws s1) as [|b r0] eqn:Ew; [discriminate|].
      destruct (Ascii.eqb b "}") eqn:Ec.
      - inversion H; subst. simpl in Hw. split; [cbn [String.length] in *; lia|].
        intros [|f] Hf; [lia|]. simpl. now rewrite Eq, Eo, Ew, Ec.
      - destruct (Json.parse_members fuel (String b r0) []) as [[d r']|] eqn:Em;
          inversion H; subst.
        destruct (IHm _ _ _ _ Em) as [Hl Hen]. simpl in Hw, Hl.
        split; [cbn [String.length] in *; lia|]. intros [|f] Hf; [lia|].
        simpl. rewrite Eq, Eo, Ew, Ec. rewrite Hen; [reflexivity|].
        cbn [String.length] in *; lia. }
    destruct (Ascii.eqb a "[") eqn:Ea.
    { pose proof (skip_ws_length s1) as Hw.
      destruct (Json.skip_ws s1) as [|b r0] eqn:Ew; [discriminate|].
      destruct (Ascii.eqb b "]") eqn:Ec.
      - inversion H; subst. simpl in Hw. split; [cbn [String.length] in *; lia|].
        intros [|f] Hf; [lia|]. simpl. now rewrite Eq, Eo, Ea, Ew, Ec.
      - destruct (Json.parse_elems fuel (String b r0)) as [[l r']|] eqn:Em;
          inversion H; subst.
        destruct (IHe _ _ _ Em) as [Hl Hen]. simpl in Hw, Hl.
        split; [cbn [String.length] in *; lia|]. intros [|f] Hf; [lia|].
        simpl. rewrite Eq, Eo, Ea, Ew, Ec. rewrite Hen; [reflexivity|].
        cbn [String.length] in *; lia. }
    destruct (Json.match_constant (String a s1)) as [[c rc]|] eqn:Ec.
    + inversion H; subst. pose proof (match_constant_length _ _ _ Ec) as Hl.
      split; [exact Hl|]. intros [|f] Hf; [lia|].
      simpl. now rewrite Eq, Eo, Ea, Ec.
    + pose proof (match_number_length _ _ _ H) as Hl.
      split; [exact Hl|]. intros [|f] Hf; [lia|].
      simpl. now rewrite Eq, Eo, Ea, Ec.
  - intros s acc d r H. simpl in H.
    destruct s as [|q s1]; [discriminate|].
    destruct (Ascii.eqb q PyStr.dquote) eqn:Eq; [|discriminate].
    destruct (Json.scanstring s1) as [[key s2]|] eqn:Es; [|discriminate].
    pose proof (scanstring_shorter _ _ _ Es) as Hl1.
    pose proof (skip_ws_length s2) as Hw2.
    destruct (Json.skip_ws s2) as [|c s3] eqn:Ew2; [discriminate|].
    destruct (Ascii.eqb c ":") eqn:Ec; [|discriminate].
    pose proof (skip_ws_length s3) as Hw3.
    destruct (Json.scan_once fuel (Json.skip_ws s3)) as [[v s4]|] eqn:Ev;
      [|discriminate].
    destruct (IHs _ _ _ Ev) as [Hl4 Hen4].
    pose proof (skip_ws_length s4) as Hw4.
    destruct (Json.skip_ws s4) as [|e s5] eqn:Ew4; [discriminate|].
    simpl in Hw2, Hw4.
    destruct (Ascii.eqb e "}") eqn:Ee.
    + inversion H; subst. split; [cbn [String.length] in *; lia|].
      intros [|f] Hf; [lia|]. simpl. rewrite Eq, Es, Ew2, Ec.
      rewrite Hen4; [|cbn [String.length] in *; lia]. now rewrite Ew4, Ee.
    + destruct (Ascii.eqb e ",") eqn:Ek; [|discriminate].
      pose proof (skip_ws_length s5) as Hw5.
      destruct (IHm _ _ _ _ H) as [Hl5 Hen5].
      split; [cbn [String.length] in *; lia|].
      intros [|f] Hf; [lia|]. simpl. rewrite Eq, Es, Ew2, Ec.
      rewrite Hen4; [|cbn [String.length] in *; lia]. rewrite Ew4, Ee, Ek.
      apply Hen5. cbn [String.length] in *; lia.
  - intros s l r H. simpl in H.
    destruct (Json.scan_once fuel s) as [[v s1]|] eqn:Ev; [|discriminate].
    destruct (IHs _ _ _ Ev) as [Hl1 Hen1].
    pose proof (skip_ws_length s1) as Hw1.
    destruct (Json.skip_ws s1) as [|e s2] eqn:Ew1; [discriminate|].
    simpl in Hw1.
    destruct (Ascii.eqb e "]") eqn:Ee.
    + inversion H; subst. split; [lia|].
      intros [|f] Hf; [lia|]. simpl.
      rewrite Hen1; [|lia]. now rewrite Ew1, Ee.
    + destruct (Ascii.eqb e ",") eqn:Ek; [|discriminate].
      pose proof (skip_ws_length s2) as Hw2.
      destruct (Json.parse_elems fuel (Json.skip_ws s2)) as [[l' r']|] eqn:El;
        [|discriminate].
      inversion H; subst.
      destruct (IHe _ _ _ El) as [Hl2 Hen2].
      split; [lia|].
      intros [|f] Hf; [lia|]. simpl.
      rewrite Hen1; [|lia]. rewrite Ew1, Ee, Ek.
      rewrite Hen2; [reflexivity | lia].
Qed.

(** [json.loads] gives the value a parse with any fuel gives: the fuel it
    takes is enough. *)
Lemma loads_any_fuel fuel s v r :
  Json.scan_once fuel (Json.skip_ws s) = Some (v, r) ->
  Json.skip_ws r = "" ->
  Json.loads s = Some v.
Proof.
  intros H Hr. destruct (parser_reads fuel) as (Hs & _ & _).
  destruct (Hs _ _ _ H) as [Hl Hen].
  unfold Json.loads. rewrite Hen, Hr; [reflexivity|].
  pose proof (skip_ws_length s). lia.
Qed.

(** [json.loads] fails only where a parse with any fuel fails. *)
Lemma loads_none_any_fuel fuel s :
  Json.loads s = None ->
  match Json.scan_once fuel (Json.skip_ws s) with
  | Some (_, r) => Json.skip_ws r <> ""
  | None => True
  end.
Proof.
  intros H. destruct (Json.scan_once fuel (Json.skip_ws s)) as [[v r]|] eqn:E;
    [|exact I].
  intros Hr. rewrite (loads_any_fuel fuel s v r E Hr) in H. discriminate.
Qed.

Transparent Json.hex4 Json.simple_escape Json.low_surrogate_escape
  Json.utf8_encode Ascii.eqb N.ltb N_of_ascii Json.is_high_surrogate
  Json.join_surrogates Json.scanstring Json.match_constant Json.match_number
  Json.skip_ws dict_set.

(** * Further properties *)

Import Terms PromptSpec.

Lemma string_app_length s t :
  String.length (s ++ t) = (String.length s + String.length t)%nat.
Proof. induction s; simpl; congruence. Qed.

Lemma of_nonneg_length fuel : forall n acc,
  (String.length acc <= String.length (Dec.of_nonneg fuel n acc))%nat.
Proof.
  induction fuel as [|fuel IH]; intros n acc; simpl; [lia|].
  destruct (n <? 10); simpl; [lia|].
  specialize (IH (n / 10) (String (Dec.digit (n mod 10)) acc)).
  simpl in IH. lia.
Qed.

Lemma of_Z_nonempty z : Dec.of_Z z <> "".
Proof.
  unfold Dec.of_Z, Dec.digits_fuel.
  destruct (z <? 0); [discriminate|].
  cbn [Dec.of_nonneg]. destruct (z <? 10); [discriminate|].
  intros E.
  pose proof (of_nonneg_length (Z.to_nat (Z.log2 z)) (z / 10)
                (String (Dec.digit (z mod 10)) "")) as H.
  rewrite E in H. simpl in H. lia.
Qed.

Lemma app_nonempty_r s t : t <> "" -> s ++ t <> "".
Proof. destruct s; simpl; [auto | discriminate]. Qed.

Lemma format_short_nonempty ds dp : PyFloat.format_short ds dp <> "".
Proof.
  unfold PyFloat.format_short.
  destruct (_ && _).
  - destruct (dp <=? 0); [discriminate|].
    destruct (_ <=? _).
    + apply app_nonempty_r, app_nonempty_r. discriminate.
    + apply app_nonempty_r. discriminate.
  - cbv zeta. apply app_nonempty_r. discriminate.
Qed.

Lemma float_repr_nonempty x : PyFloat.repr x <> "".
Proof.
  destruct x as [s|s| |s m e]; simpl; try discriminate;
    try (destruct s; discriminate).
  destruct (PyFloat.shortest m e) as [ds dp].
  apply app_nonempty_r, format_short_nonempty.
Qed.

(** The text of a truthy value is not empty. *)
Lemma str_truthy_nonempty v : truthy v = true -> str v <> "".
Proof.
  destruct v as [|b|z|x|s|l|d]; simpl; try discriminate.
  - destruct b; discriminate.
  - intros _. apply of_Z_nonempty.
  - intros _. apply float_repr_nonempty.
  - destruct (String.eqb_spec s ""); [discriminate | auto].
Qed.

Lemma eqb_neq_empty s : s <> "" -> negb (String.eqb s "") = true.
Proof. intros H. destruct (String.eqb_spec s ""); [contradiction | reflexivity]. Qed.

Lemma coerce_named_shape tag key v x :
  coerce_named tag key v = Some x -> named_shape tag key x = true.
Proof.
  unfold coerce_named. destruct (truthy (unwrap key v)) eqn:E; [|discriminate].
  intros H. inversion H. subst x. unfold named_shape.
  rewrite !String.eqb_refl. simpl.
  apply eqb_neq_empty, str_truthy_nonempty, E.
Qed.

Lemma option_names_shape l :
  forallb option_shape
    (map (fun x => PDict [("name", PStr (str x))]) (filter truthy l)) = true.
Proof.
  induction l as [|a l IH]; simpl; [reflexivity|].
  destruct (truthy a) eqn:E; [|exact IH].
  simpl. rewrite IH, andb_true_r.
  apply eqb_neq_empty, str_truthy_nonempty, E.
Qed.

(** What a rule gives has the shape of its kind. *)
Lemma coerce_value_shape t v x :
  coerce_value t v = Ok (Some x) -> notion_shape t x = true.
Proof.
  unfold coerce_value, notion_shape.
  repeat match goal with
         | |- context [if String.eqb t ?s then _ else _] =>
             destruct (String.eqb t s)
         end;
    intros H; try discriminate.
  - inversion H. eapply coerce_named_shape; eauto.
  - inversion H. rewrite coerce_multi_select_spec. unfold multi_select_of.
    simpl. apply option_names_shape.
  - inversion H. eapply coerce_named_shape; eauto.
  - inversion H. eapply coerce_named_shape; eauto.
  - inversion H. reflexivity.
  - destruct (coerce_number_shape _ _ H) as [y ->]. reflexivity.
  - destruct (coerce_text_shape _ _ _ H) as [s ->]. reflexivity.
  - destruct (coerce_text_shape _ _ _ H) as [s ->]. reflexivity.
Qed.

Lemma validate_produced json_str schema out :
  validate_and_fix_json json_str schema = Ok out ->
  forall k x, In (k, x) out -> produced schema k x.
Proof.
  unfold validate_and_fix_json.
  destruct (parse_or_recover (strip_fences json_str)) as [data|].
  - destruct data; try discriminate. unfold coerce_properties. simpl.
    intros H. eapply coerce_items_produced; eauto. intros k x [].
  - intros H. inversion H. intros k x [].
Qed.

(** X1. Every entry of the mapping [validate_and_fix_json] returns
    stands under a key of the schema and has the shape of that field's
    kind: a non-empty name under the kind for select and status, a
    non-empty start for date, a list of non-empty names for multi-select,
    a truth value for checkbox, a float for number, one text for title and
    rich text.  A field of another kind (people, files, an unknown one) is
    never written. *)
Theorem coerced_values_have_the_shape_of_their_kind :
  forall (json_str : string) (schema : schema_t) (out : dict) (k : string)
         (x : pyvalue),
    validate_and_fix_json json_str schema = Ok out ->
    In (k, x) out ->
    exists f, dict_get schema k = Some f /\ notion_shape (ftype f) x = true.
Proof.
  intros json_str schema out k x H Hin.
  destruct (validate_produced _ _ _ H k x Hin) as (f & v & Hf & Hv).
  exists f. split; [exact Hf|]. eapply coerce_value_shape; eauto.
Qed.

(** ** When the coercion raises *)

Lemma contains_raises key t e :
  Builtin.contains key t = Raise e -> exn_cls e = TypeError.
Proof. destruct t; simpl; intros H; inversion H; reflexivity. Qed.

Lemma get_raises t key default e :
  Builtin.get t key default = Raise e -> exn_cls e = AttributeError.
Proof. destruct t; simpl; intros H; inversion H; reflexivity. Qed.

Lemma plain_texts_raises l e :
  plain_texts l = Raise e ->
  exn_cls e = TypeError \/ exn_cls e = AttributeError.
Proof.
  induction l as [|t rest IH]; simpl; [discriminate|].
  destruct (Builtin.contains "plain_text" t) as [b|e0] eqn:Ec; simpl.
  - destruct b; [|exact IH].
    destruct (Builtin.get t "plain_text" (PStr "")) as [x|e1] eqn:Eg; simpl.
    + destruct (plain_texts rest) as [xs|e2]; simpl; [discriminate|].
      intros H. inversion H. subst. auto.
    + intros H. inversion H. subst. right. eapply get_raises; eauto.
  - intros H. inversion H. subst. left. eapply contains_raises; eauto.
Qed.

Lemma join_from_raises parts : forall i e,
  Builtin.join_from i parts = Raise e -> exn_cls e = TypeError.
Proof.
  induction parts as [|x rest IH]; intros i e; simpl; [discriminate|].
  destruct x; try (intros H; inversion H; reflexivity).
  destruct (Builtin.join_from (i + 1) rest) as [t|e0] eqn:E; [discriminate|].
  intros H. inversion H. subst. eapply IH; eauto.
Qed.

Lemma coerce_text_raises tag v e :
  coerce_text tag v = Raise e ->
  is_list v = true /\ (exn_cls e = TypeError \/ exn_cls e = AttributeError).
Proof.
  unfold coerce_text. destruct v; simpl; try discriminate.
  destruct (plain_texts l) as [xs|e0] eqn:Ep; simpl.
  - unfold Builtin.join.
    destruct (Builtin.join_from 0 xs) as [s|e1] eqn:Ej; simpl; [discriminate|].
    intros H. inversion H. subst. split; auto. left.
    eapply join_from_raises; eauto.
  - intros H. inversion H. subst. split; auto.
    eapply plain_texts_raises; eauto.
Qed.

Lemma coerce_number_raises v e :
  coerce_number v = Raise e ->
  (exists z, v = PInt z) /\ exn_cls e = OverflowError.
Proof.
  unfold coerce_number.
  destruct v; simpl; try discriminate.
  - destruct (PyFloat.of_Z z); simpl; try discriminate.
    intros H. inversion H. split; eauto.
  - destruct (Builtin.float_of_string s); simpl; discriminate.
Qed.

Lemma coerce_value_raises t v e :
  coerce_value t v = Raise e ->
  (t = "number" /\ (exists z, v = PInt z) /\ exn_cls e = OverflowError)
  \/ ((t = "title" \/ t = "rich_text") /\ is_list v = true
      /\ (exn_cls e = TypeError \/ exn_cls e = AttributeError)).
Proof.
  unfold coerce_value.
  repeat match goal with
         | |- context [if String.eqb t ?s then _ else _] =>
             destruct (String.eqb_spec t s)
         end;
    intros H; try discriminate.
  - left. split; auto. now apply coerce_number_raises.
  - right. split; auto. eapply coerce_text_raises; eauto.
  - right. split; auto. eapply coerce_text_raises; eauto.
Qed.

Lemma coerce_items_raises schema items : forall validated e,
  coerce_items schema items validated = Raise e ->
  exists k v f,
    In (k, v) items /\ dict_get schema k = Some f
    /\ coerce_value (ftype f) v = Raise e.
Proof.
  induction items as [|[k0 v0] rest IH]; intros validated e H.
  - discriminate.
  - rewrite coerce_items_cons in H. unfold step in H.
    destruct (dict_get schema k0) as [f|] eqn:Ek.
    + destruct (coerce_value (ftype f) v0) as [[x|]|e0] eqn:Ev.
      * destruct (IH _ _ H) as (k & v & f' & Hin & Hf & Hv).
        exists k, v, f'. simpl. auto.
      * destruct (IH _ _ H) as (k & v & f' & Hin & Hf & Hv).
        exists k, v, f'. simpl. auto.
      * inversion H. subst e0. exists k0, v0, f. simpl. auto.
    + destruct (IH _ _ H) as (k & v & f' & Hin & Hf & Hv).
      exists k, v, f'. simpl. auto.
Qed.

(** ** Rich text read back *)


Lemma string_app_nil_r s : s ++ "" = s.
Proof. induction s; simpl; congruence. Qed.

Lemma concat_empty_cons s l :
  String.concat "" (s :: l) = s ++ String.concat "" l.
Proof. destruct l; simpl; [now rewrite string_app_nil_r | reflexivity]. Qed.

Lemma plain_texts_segments l :
  forallb is_segment l = true ->
  exists xs,
    plain_texts l = Ok xs
    /\ Builtin.join xs = Ok (String.concat "" (map segment_text l)).
Proof.
  unfold Builtin.join. generalize 0.
  induction l as [|t rest IH]; intros i Hall.
  - exists []. split; reflexivity.
  - simpl in Hall. apply andb_true_iff in Hall. destruct Hall as [Ht Hrest].
    destruct t as [| | | | | |d]; try discriminate.
    simpl in Ht. cbn [plain_texts Builtin.contains bind].
    unfold dict_has. cbn [map]. rewrite concat_empty_cons.
    cbn [segment_text Builtin.get].
    destruct (dict_get d "plain_text") as [x|] eqn:Ed.
    + destruct x; try discriminate.
      destruct (IH (i + 1) Hrest) as (xs & Hxs & Hj).
      exists (PStr s :: xs). cbn [bind]. rewrite Hxs.
      split; [reflexivity|]. cbn [Builtin.join_from]. now rewrite Hj.
    + destruct (IH i Hrest) as (xs & Hxs & Hj).
      exists xs. split; [exact Hxs|]. now rewrite Hj.
Qed.

(** X3. For a title or rich-text field whose candidate is a list of
    mappings, each with a string under [plain_text] or without that key,
    the rule gives the one text that joins the [plain_text] values in
    order. *)
Theorem text_rule_joins_plain_text :
  forall (t : string) (l : list pyvalue),
    t = "title" \/ t = "rich_text" ->
    forallb is_segment l = true ->
    coerce_value t (PList l)
    = Ok (Some (text_value t (String.concat "" (map segment_text l)))).
Proof.
  intros t l Ht Hall.
  destruct (plain_texts_segments l Hall) as (xs & Hxs & Hj).
  assert (E : coerce_text t (PList l)
              = Ok (Some (text_value t
                            (String.concat "" (map segment_text l))))).
  { unfold coerce_text. rewrite Hxs. cbn [bind]. rewrite Hj. reflexivity. }
  destruct Ht as [-> | ->]; exact E.
Qed.

Lemma text_rule_joins_plain_text_witness :
  coerce_value "rich_text"
    (PList [PDict [("plain_text", PStr "Buy ")];
            PDict [("href", PNone)];
            PDict [("plain_text", PStr "milk")]])
  = Ok (Some (text_value "rich_text" "Buy milk")).
Proof.
  apply (text_rule_joins_plain_text "rich_text"
           [PDict [("plain_text", PStr "Buy ")];
            PDict [("href", PNone)];
            PDict [("plain_text", PStr "milk")]]).
  - right. reflexivity.
  - reflexivity.
Defined.

(** ** The single-shot flow *)

(** X4. Whatever the model executor does, [analyze_text_with_ai]
    returns a mapping whose [properties] hold fields of the schema only,
    each in the shape of its kind.  Without an [error] entry the
    properties are the coerced model answer and usage, cost and model are
    the executor's.  With one they are the title fallback, usage is empty,
    cost zero, model the selected one, and [error] is the text of the
    exception the executor or the coercion raised. *)
Theorem single_shot_result_fits_schema :
  forall (text : string) (schema : schema_t) (selected_model : string)
         (outcome : result generated),
    exists d props,
      analyze_text_with_ai text schema selected_model outcome = Ok d
      /\ dict_get d "properties" = Some (PDict props)
      /\ (forall k x,
             In (k, x) props ->
             exists f, In (k, f) schema /\ notion_shape (ftype f) x = true)
      /\ (dict_get d "error" = None ->
          exists g,
            outcome = Ok g
            /\ validate_and_fix_json (content g) schema = Ok props
            /\ dict_get d "usage" = Some (usage g)
            /\ dict_get d "cost" = Some (cost g)
            /\ dict_get d "model" = Some (model g))
      /\ (forall e,
             dict_get d "error" = Some e ->
             props = fallback_properties text schema
             /\ dict_get d "usage" = Some (PDict [])
             /\ dict_get d "cost" = Some (PFloat (S754_zero false))
             /\ dict_get d "model" = Some (PStr selected_model)
             /\ exists e0,
                  e = PStr (exn_str e0)
                  /\ (outcome = Raise e0
                      \/ exists g,
                           outcome = Ok g
                           /\ validate_and_fix_json (content g) schema
                              = Raise e0)).
Proof.
  intros text schema selected_model outcome.
  assert (Hfb : forall e0,
             (outcome = Raise e0
              \/ exists g, outcome = Ok g
                           /\ validate_and_fix_json (content g) schema
                              = Raise e0) ->
             exists d props,
               Ok [("properties", PDict (fallback_properties text schema));
                   ("usage", PDict []);
                   ("cost", PFloat (S754_zero false));
                   ("model", PStr selected_model);
                   ("error", PStr (exn_str e0))] = Ok d
               /\ dict_get d "properties" = Some (PDict props)
               /\ (forall k x,
                      In (k, x) props ->
                      exists f, In (k, f) schema
                                /\ notion_shape (ftype f) x = true)
               /\ (dict_get d "error" = None ->
                   exists g,
                     outcome = Ok g
                     /\ validate_and_fix_json (content g) schema = Ok props
                     /\ dict_get d "usage" = Some (usage g)
                     /\ dict_get d "cost" = Some (cost g)
                     /\ dict_get d "model" = Some (model g))
               /\ (forall e,
                      dict_get d "error" = Some e ->
                      props = fallback_properties text schema
                      /\ dict_get d "usage" = Some (PDict [])
                      /\ dict_get d "cost" = Some (PFloat (S754_zero false))
                      /\ dict_get d "model" = Some (PStr selected_model)
                      /\ exists e1,
                           e = PStr (exn_str e1)
                           /\ (outcome = Raise e1
                               \/ exists g,
                                    outcome = Ok g
                                    /\ validate_and_fix_json (content g) schema
                                       = Raise e1))).
  { intros e0 Hwhy. eexists. exists (fallback_properties text schema).
    split; [reflexivity|]. split; [reflexivity|]. split; [|split].
    - intros k x Hin.
      destruct (fallback_at_most_title _ _ _ _ Hin) as (-> & f & Hf & Ht).
      exists f. split; [exact Hf|]. rewrite Ht. reflexivity.
    - discriminate.
    - intros e He. simpl in He. inversion He. subst e.
      repeat split; try reflexivity. exists e0. auto. }
  unfold analyze_text_with_ai.
  destruct outcome as [g|e0]; cbn [bind].
  - destruct (validate_and_fix_json (content g) schema) as [props|e0] eqn:Ev;
      cbn [bind].
    + eexists. exists props. split; [reflexivity|]. split; [reflexivity|].
      split; [|split].
      * intros k x Hin.
        destruct (validate_produced _ _ _ Ev k x Hin) as (f & v & Hf & Hv).
        exists f. split; [now apply dict_get_In|].
        eapply coerce_value_shape; eauto.
      * intros _. exists g. repeat split; auto.
      * discriminate.
    + apply Hfb. right. exists g. auto.
  - apply Hfb. left. reflexivity.
Qed.

Lemma coerced_values_have_the_shape_of_their_kind_witness :
  exists f,
    dict_get [("Status", mk_field "select" [])] "Status" = Some f
    /\ notion_shape (ftype f)
         (PDict [("select", PDict [("name", PStr "Done")])]) = true.
Proof.
  apply (coerced_values_have_the_shape_of_their_kind sure_done
           [("Status", mk_field "select" [])]
           [("Status", PDict [("select", PDict [("name", PStr "Done")])])]
           "Status" (PDict [("select", PDict [("name", PStr "Done")])])).
  - vm_compute. reflexivity.
  - left. reflexivity.
Defined.

(** ** Where [find] and [rfind] point *)

Lemma find_from_char c s : forall i,
  let r := PyStr.find_from s (String c "") i in
  r = -1
  \/ (i <= r < i + PyStr.len s
      /\ String.get (Z.to_nat (r - i)) s = Some c).
Proof.
  unfold PyStr.len.
  induction s as [|a s IH]; intros i; cbn [PyStr.find_from prefix].
  - auto.
  - change (String.length (String a s)) with (S (String.length s)).
    destruct (ascii_dec c a) as [E|E].
    + right. subst.
      assert (Hp : prefix "" s = true) by (destruct s; reflexivity).
      rewrite Hp. replace (i - i) with 0 by lia.
      split; [lia | reflexivity].
    + destruct (IH (i + 1)) as [H|[H1 H2]]; [auto|]. right.
      split; [lia|].
      replace (Z.to_nat (PyStr.find_from s (String c "") (i + 1) - i))
        with (S (Z.to_nat (PyStr.find_from s (String c "") (i + 1) - (i + 1))))
        by lia.
      exact H2.
Qed.

Lemma rfind_from_char c s : forall i last,
  let r := PyStr.rfind_from s (String c "") i last in
  r = last
  \/ (i <= r < i + PyStr.len s
      /\ String.get (Z.to_nat (r - i)) s = Some c).
Proof.
  unfold PyStr.len.
  induction s as [|a s IH]; intros i last; cbn [PyStr.rfind_from prefix].
  - auto.
  - change (String.length (String a s)) with (S (String.length s)).
    destruct (ascii_dec c a) as [E|E].
    + subst.
      assert (Hp : prefix "" s = true) by (destruct s; reflexivity).
      rewrite Hp.
      destruct (IH (i + 1) i) as [H|[H1 H2]].
      * right. rewrite H. replace (i - i) with 0 by lia.
        split; [lia | reflexivity].
      * right. split; [lia|].
        replace (Z.to_nat (PyStr.rfind_from s (String a "") (i + 1) i - i))
          with (S (Z.to_nat (PyStr.rfind_from s (String a "") (i + 1) i
                             - (i + 1)))) by lia.
        exact H2.
    + destruct (IH (i + 1) last) as [H|[H1 H2]]; [auto|]. right.
      split; [lia|].
      replace (Z.to_nat (PyStr.rfind_from s (String c "") (i + 1) last - i))
        with (S (Z.to_nat (PyStr.rfind_from s (String c "") (i + 1) last
                           - (i + 1)))) by lia.
      exact H2.
Qed.

Lemma find_char c s :
  PyStr.find s (String c "") = -1
  \/ (0 <= PyStr.find s (String c "") < PyStr.len s
      /\ String.get (Z.to_nat (PyStr.find s (String c ""))) s = Some c).
Proof.
  unfold PyStr.find.
  destruct (find_from_char c s 0) as [H|[H1 H2]]; [auto|].
  right. rewrite Z.sub_0_r in H2. split; [lia | exact H2].
Qed.

Lemma rfind_char c s :
  PyStr.rfind s (String c "") = -1
  \/ (0 <= PyStr.rfind s (String c "") < PyStr.len s
      /\ String.get (Z.to_nat (PyStr.rfind s (String c ""))) s = Some c).
Proof.
  unfold PyStr.rfind.
  destruct (rfind_from_char c s 0 (-1)) as [H|[H1 H2]]; [auto|].
  right. rewrite Z.sub_0_r in H2. split; [lia | exact H2].
Qed.

(** The head of a substring is the character at its start. *)
Lemma substring_head s : forall n m,
  substring n m s = ""
  \/ exists a t, substring n m s = String a t /\ String.get n s = Some a.
Proof.
  induction s as [|a s IH]; intros n m.
  - left. destruct n, m; reflexivity.
  - destruct n; simpl.
    + destruct m; [auto|]. right. eauto.
    + apply IH.
Qed.

Lemma substring_zero s : forall n, substring n 0 s = "".
Proof.
  induction s as [|a s IH]; intros n; destruct n; simpl; auto.
Qed.

Lemma substring_one s : forall n a,
  String.get n s = Some a -> substring n 1 s = String a "".
Proof.
  induction s as [|b s IH]; intros n a H.
  - destruct n; discriminate.
  - destruct n; simpl in *.
    + inversion H. subst. destruct s; reflexivity.
    + now apply IH.
Qed.

(** ** The head of a JSON text *)

Lemma loads_empty : Json.loads "" = None.
Proof. reflexivity. Qed.

Lemma scan_once_open fuel r v rest :
  Json.scan_once fuel (String "{" r) = Some (v, rest) -> is_dict v = true.
Proof.
  destruct fuel as [|fuel]; [discriminate|].
  cbn [Json.scan_once].
  change (Ascii.eqb "{" PyStr.dquote) with false.
  change (Ascii.eqb "{" "{") with true. cbv iota.
  destruct (Json.skip_ws r) as [|b r']; [discriminate|].
  destruct (Ascii.eqb b "}").
  - intros H. inversion H. reflexivity.
  - destruct (Json.parse_members fuel (String b r') []) as [[d r'']|];
      [|discriminate].
    intros H. inversion H. reflexivity.
Qed.

Lemma loads_open r v :
  Json.loads (String "{" r) = Some v -> is_dict v = true.
Proof.
  unfold Json.loads.
  change (Json.skip_ws (String "{" r)) with (String "{" r).
  destruct (Json.scan_once _ _) as [[v0 rest]|] eqn:E; [|discriminate].
  destruct (Json.skip_ws rest); [|discriminate].
  intros H. inversion H. subst. eapply scan_once_open; eauto.
Qed.

Lemma loads_close r : Json.loads (String "}" r) = None.
Proof.
  unfold Json.loads.
  change (Json.skip_ws (String "}" r)) with (String "}" r).
  cbn [Nat.add]. cbn [Json.scan_once].
  change (Ascii.eqb "}" PyStr.dquote) with false.
  change (Ascii.eqb "}" "{") with false.
  change (Ascii.eqb "}" "[") with false. cbv iota.
  reflexivity.
Qed.

(** ** What the recovery step can give *)

Lemma adjust_index_inside n i : 0 <= i <= n -> PyStr.adjust_index n i = i.
Proof.
  intros H. unfold PyStr.adjust_index. cbv zeta.
  destruct (Z.ltb_spec i 0); [lia|].
  repeat match goal with
         | |- context [?a <? ?b] => destruct (Z.ltb_spec a b)
         end; lia.
Qed.

Lemma recovered_slice s :
  let t := PyStr.slice s (Some (PyStr.find s "{"))
             (Some (PyStr.rfind s "}" + 1)) in
  t = "" \/ (exists r, t = String "{" r) \/ t = "}".
Proof.
  cbv zeta. unfold PyStr.slice.
  set (n := PyStr.len s).
  assert (Hn : 0 <= n) by (unfold n, PyStr.len; lia).
  assert (Hhi : PyStr.adjust_index n (PyStr.rfind s "}" + 1)
                = PyStr.rfind s "}" + 1
                /\ (PyStr.rfind s "}" = -1
                    \/ (0 <= PyStr.rfind s "}" < n
                        /\ String.get (Z.to_nat (PyStr.rfind s "}")) s
                           = Some "}"%char))).
  { destruct (rfind_char "}" s) as [H|[H1 H2]].
    - change (String "}" "") with "}" in H. rewrite H. split; [|auto].
      apply adjust_index_inside. lia.
    - change (String "}" "") with "}" in H1, H2. fold n in H1.
      split; [|auto]. apply adjust_index_inside. lia. }
  destruct Hhi as [Ehi Hr]. rewrite Ehi.
  destruct (find_char "{" s) as [H|[H1 H2]];
    change (String "{" "") with "{" in *.
  - (* no opening brace: the slice starts at the last character *)
    rewrite H.
    assert (Elo : PyStr.adjust_index n (-1) = Z.max 0 (n - 1)).
    { unfold PyStr.adjust_index. cbv zeta.
      change (-1 <? 0) with true. cbv iota.
      repeat match goal with
             | |- context [?a <? ?b] => destruct (Z.ltb_spec a b)
             end; lia. }
    rewrite Elo.
    destruct Hr as [Hr|[Hr1 Hr2]].
    + rewrite Hr. left.
      replace (Z.to_nat (-1 + 1 - Z.max 0 (n - 1))) with 0%nat by lia.
      apply substring_zero.
    + destruct (Z.eq_dec (PyStr.rfind s "}") (n - 1)) as [E|E].
      * right. right. rewrite E.
        replace (Z.to_nat (n - 1 + 1 - Z.max 0 (n - 1))) with 1%nat by lia.
        apply substring_one.
        replace (Z.max 0 (n - 1)) with (PyStr.rfind s "}") by lia.
        exact Hr2.
      * left.
        replace (Z.to_nat (PyStr.rfind s "}" + 1 - Z.max 0 (n - 1)))
          with 0%nat by lia.
        apply substring_zero.
  - fold n in H1. rewrite (adjust_index_inside n (PyStr.find s "{")) by lia.
    destruct (substring_head s (Z.to_nat (PyStr.find s "{"))
                (Z.to_nat (PyStr.rfind s "}" + 1 - PyStr.find s "{")))
      as [E|(a & t & E & Ha)].
    + auto.
    + right. left. rewrite E. rewrite H2 in Ha. inversion Ha. eauto.
Qed.

Lemma recovered_is_mapping s v :
  Json.loads (PyStr.slice s (Some (PyStr.find s "{"))
                (Some (PyStr.rfind s "}" + 1))) = Some v ->
  is_dict v = true.
Proof.
  destruct (recovered_slice s) as [E|[[r E]|E]]; cbv zeta in E; rewrite E.
  - discriminate.
  - apply loads_open.
  - rewrite loads_close. discriminate.
Qed.

(** ** The shape of the parsed response *)

Lemma normalize_shape_cases v :
  (exists d, normalize_shape v = PDict d)
  \/ (is_scalar v = true /\ truthy v = true /\ normalize_shape v = v).
Proof.
  destruct v as [|b|z|x|s|l|d]; unfold normalize_shape.
  - left. eexists. reflexivity.
  - destruct b; [right; auto | left; eexists; reflexivity].
  - destruct (truthy (PInt z)) eqn:E; [right; auto | left; eexists; reflexivity].
  - destruct (truthy (PFloat x)) eqn:E;
      [right; auto | left; eexists; reflexivity].
  - left. eexists. reflexivity.
  - left. destruct l as [|[| | | | | |d] l]; try (eexists; reflexivity).
    destruct d; eexists; reflexivity.
  - left. destruct d; eexists; reflexivity.
Qed.

Lemma parse_response_cases s :
  (exists d, parse_response s = PDict d)
  \/ (exists v,
         Json.loads s = Some v /\ is_scalar v = true /\ truthy v = true
         /\ parse_response s = v).
Proof.
  unfold parse_response.
  destruct (Json.loads s) as [v|] eqn:El.
  - destruct (normalize_shape_cases v) as [H|(H1 & H2 & H3)]; [auto|].
    right. exists v. auto.
  - left.
    destruct (Json.loads (PyStr.slice s _ _)) as [v|] eqn:Er.
    + pose proof (recovered_is_mapping _ _ Er) as Hd.
      destruct v; try discriminate. eauto.
    + eauto.
Qed.

(** ** The conversational flow on a mapping *)

Lemma has_truthy_dict d key : has_truthy (PDict d) key = Ok (dict_truthy d key).
Proof.
  unfold has_truthy, dict_truthy. simpl. unfold dict_has.
  destruct (dict_get d key); reflexivity.
Qed.

Lemma any_in_dict d keys : any_in (PDict d) keys = Ok (existsb (dict_has d) keys).
Proof.
  induction keys as [|k keys IH]; simpl; [reflexivity|].
  destruct (dict_has d k); simpl; auto.
Qed.

Lemma fallback_message_dict d :
  exists msg, fallback_message (PDict d) = Ok msg /\ msg <> "".
Proof.
  unfold fallback_message. rewrite any_in_dict, !has_truthy_dict.
  cbn [bind]. unfold dict_truthy.
  destruct (dict_get d "refined_text") as [r|] eqn:Er.
  - destruct (truthy r).
    + simpl. rewrite Er. eexists. split; [reflexivity|discriminate].
    + destruct (existsb _ _).
      * simpl. destruct (dict_has d "Title"); simpl.
        -- destruct (truthy _); eexists; (split; [reflexivity|discriminate]).
        -- destruct (dict_has d "Content"); simpl.
           ++ destruct (truthy _); eexists;
                (split; [reflexivity|discriminate]).
           ++ eexists; (split; [reflexivity|discriminate]).
      * eexists; (split; [reflexivity|discriminate]).
  - destruct (existsb _ _).
    + simpl. destruct (dict_has d "Title"); simpl.
      * destruct (truthy _); eexists; (split; [reflexivity|discriminate]).
      * destruct (dict_has d "Content"); simpl.
        -- destruct (truthy _); eexists; (split; [reflexivity|discriminate]).
        -- eexists; (split; [reflexivity|discriminate]).
    + eexists; (split; [reflexivity|discriminate]).
Qed.

Lemma ensure_message_dict d :
  exists d',
    ensure_message (PDict d) = Ok (PDict d')
    /\ dict_truthy d' "message" = true
    /\ (forall k, k <> "message" -> dict_get d' k = dict_get d k)
    /\ (dict_truthy d "message" = true -> d' = d)
    /\ (NoDup (dict_keys d) -> NoDup (dict_keys d')).
Proof.
  unfold ensure_message. cbn [Builtin.contains bind].
  unfold dict_has, dict_truthy, Builtin.getitem.
  destruct (dict_get d "message") as [m|] eqn:Em; cbn [bind].
  - destruct (truthy m) eqn:Et.
    + exists d. rewrite Em. repeat split; auto.
    + destruct (fallback_message_dict d) as (msg & Hm & Hne). rewrite Hm.
      cbn [bind Builtin.setitem]. eexists. split; [reflexivity|].
      rewrite dict_get_set_same. simpl.
      repeat split.
      * now apply eqb_neq_empty.
      * intros k Hk. apply dict_get_set_other. congruence.
      * discriminate.
      * apply dict_set_nodup.
  - destruct (fallback_message_dict d) as (msg & Hm & Hne). rewrite Hm.
    cbn [bind Builtin.setitem]. eexists. split; [reflexivity|].
    rewrite dict_get_set_same. simpl.
    repeat split.
    + now apply eqb_neq_empty.
    + intros k Hk. apply dict_get_set_other. congruence.
    + discriminate.
    + apply dict_set_nodup.
Qed.

Lemma dict_get_del_other {A : Type} (d : list (string * A)) k k' :
  k' <> k -> dict_get (dict_del d k) k' = dict_get d k'.
Proof.
  intros Hne. induction d as [|[k0 v0] d IH]; simpl; [reflexivity|].
  destruct (String.eqb k0 k) eqn:E; simpl.
  - apply String.eqb_eq in E. subst k0.
    destruct (String.eqb k k') eqn:E'; auto.
    apply String.eqb_eq in E'. congruence.
  - now rewrite IH.
Qed.

Lemma dict_del_keys {A : Type} (d : list (string * A)) k k' :
  In k' (dict_keys (dict_del d k)) -> In k' (dict_keys d).
Proof.
  induction d as [|[k0 v0] d IH]; simpl; [tauto|].
  destruct (String.eqb k0 k); simpl; tauto.
Qed.

Lemma dict_del_nodup {A : Type} (d : list (string * A)) k :
  NoDup (dict_keys d) -> NoDup (dict_keys (dict_del d k)).
Proof.
  induction d as [|[k0 v0] d IH]; simpl; intros Hnd; [constructor|].
  inversion Hnd as [|? ? Hnot Hnd']. subst.
  destruct (String.eqb k0 k); simpl; [assumption|].
  constructor; [|auto]. intros Hin. apply Hnot. eapply dict_del_keys; eauto.
Qed.

Lemma dict_get_del_same {A : Type} (d : list (string * A)) k :
  NoDup (dict_keys d) -> dict_get (dict_del d k) k = None.
Proof.
  induction d as [|[k0 v0] d IH]; simpl; intros Hnd; [reflexivity|].
  inversion Hnd as [|? ? Hnot Hnd']. subst.
  destruct (String.eqb k0 k) eqn:E; simpl.
  - apply String.eqb_eq in E. subst k0. now apply dict_get_None.
  - rewrite E. auto.
Qed.

Lemma dict_has_true {A : Type} (d : list (string * A)) k :
  dict_has d k = true <-> In k (dict_keys d).
Proof.
  unfold dict_has. destruct (dict_get d k) eqn:E.
  - split; auto. intros _. eapply dict_get_key; eauto.
  - split; [discriminate|]. intros H. apply dict_get_None in E. contradiction.
Qed.

Lemma pick_dict d : forall keys acc,
  (forall k, In k keys -> dict_has d k = true) ->
  exists p,
    pick (PDict d) keys acc = Ok p
    /\ (forall k, dict_get p k = if in_dec string_dec k keys then dict_get d k
                                 else dict_get acc k).
Proof.
  induction keys as [|k0 keys IH]; intros acc Hall.
  - exists acc. split; [reflexivity|]. intros k. reflexivity.
  - cbn [pick Builtin.getitem].
    assert (H0 : dict_has d k0 = true) by (apply Hall; simpl; auto).
    unfold dict_has in H0.
    destruct (dict_get d k0) as [x|] eqn:E0; [|discriminate]. cbn [bind].
    destruct (IH (dict_set acc k0 x)) as (p & Hp & Hg).
    { intros k Hk. apply Hall. simpl. auto. }
    exists p. split; [exact Hp|]. intros k. rewrite Hg.
    destruct (in_dec string_dec k keys) as [Hin|Hin];
      destruct (in_dec string_dec k (k0 :: keys)) as [Hin'|Hin'];
      try reflexivity.
    + exfalso. apply Hin'. simpl. auto.
    + destruct Hin' as [->|Hin']; [|contradiction].
      now rewrite dict_get_set_same.
    + apply dict_get_set_other. intros ->. apply Hin'. simpl. auto.
Qed.

Lemma delete_all_dict : forall keys d,
  NoDup keys ->
  (forall k, In k keys -> dict_has d k = true) ->
  exists d',
    delete_all (PDict d) keys = Ok (PDict d')
    /\ (forall k, ~ In k keys -> dict_get d' k = dict_get d k)
    /\ (NoDup (dict_keys d) ->
        NoDup (dict_keys d') /\ forall k, In k keys -> dict_get d' k = None).
Proof.
  induction keys as [|k0 keys IH]; intros d Hnd Hall.
  - exists d. split; [reflexivity|]. split; [reflexivity|].
    intros H. split; [exact H | intros k []].
  - cbn [delete_all Builtin.delitem].
    rewrite (Hall k0) by (simpl; auto). cbn [bind].
    inversion Hnd as [|? ? Hnot Hnd']. subst.
    destruct (IH (dict_del d k0) Hnd') as (d' & Hd & Hother & Hgone).
    { intros k Hk. unfold dict_has. rewrite dict_get_del_other.
      - apply Hall. simpl. auto.
      - intros ->. contradiction. }
    exists d'. split; [exact Hd|]. split.
    + intros k Hk. rewrite Hother by (simpl in Hk; tauto).
      apply dict_get_del_other. intros ->. apply Hk. simpl. auto.
    + intros Hd0. destruct (Hgone (dict_del_nodup _ _ Hd0)) as [H1 H2].
      split; [exact H1|]. intros k [->|Hk]; [|auto].
      rewrite Hother by assumption. now apply dict_get_del_same.
Qed.

Lemma lift_properties_dict d schema :
  exists d',
    lift_properties (PDict d) schema = Ok (PDict d')
    /\ (dict_has d "properties" = true -> d' = d)
    /\ ((forall k, dict_has d k = true -> dict_has schema k = false) -> d' = d)
    /\ (forall k, k <> "properties" -> dict_has schema k = false ->
                  dict_get d' k = dict_get d k)
    /\ (NoDup (dict_keys d) -> NoDup (dict_keys d'))
    /\ (dict_has d "properties" = false ->
        (exists k, dict_has d k = true /\ dict_has schema k = true) ->
        exists p,
          dict_get d' "properties" = Some (PDict p)
          /\ (forall k, dict_get p k = if dict_has schema k then dict_get d k
                                       else None)
          /\ (NoDup (dict_keys d) ->
              forall k, k <> "properties" -> dict_has schema k = true ->
                        dict_get d' k = None)).
Proof.
  unfold lift_properties. cbn [Builtin.contains bind Builtin.keys].
  destruct (dict_has d "properties") eqn:Ep.
  - exists d. repeat split; auto. discriminate.
  - remember (filter (fun key => dict_has schema key)
                (nodup string_dec (dict_keys d))) as keys eqn:Ekeys.
    assert (Hkeys : forall k, In k keys
                              <-> dict_has d k = true /\ dict_has schema k = true).
    { intros k. rewrite Ekeys, filter_In, nodup_In.
      rewrite <- (dict_has_true d k). tauto. }
    assert (Hnd : NoDup keys).
    { rewrite Ekeys. apply NoDup_filter, NoDup_nodup. }
    clear Ekeys. destruct keys as [|k0 keys'].
    + exists d. repeat split; auto.
      intros _ [k [H1 H2]]. exfalso.
      apply (proj2 (Hkeys k)); auto.
    + assert (Hin0 : In k0 (k0 :: keys')) by (simpl; auto).
      cbv iota. revert Hkeys Hnd Hin0. generalize (k0 :: keys') as keys.
      intros keys Hkeys Hnd Hin0.
      destruct (pick_dict d keys []) as (p & Hp & Hg).
      { intros k Hk. now apply Hkeys. }
      destruct (delete_all_dict keys d Hnd) as (d1 & Hd1 & Hother & Hgone).
      { intros k Hk. now apply Hkeys. }
      rewrite Hp. cbn [bind]. rewrite Hd1. cbn [bind Builtin.setitem].
      eexists. split; [reflexivity|].
      assert (Hp' : forall k, dict_get p k = if dict_has schema k
                                             then dict_get d k else None).
      { intros k. rewrite Hg.
        destruct (in_dec string_dec k keys) as [Hin|Hin].
        - apply Hkeys in Hin. destruct Hin as [_ ->]. reflexivity.
        - destruct (dict_has schema k) eqn:Es; [|reflexivity].
          destruct (dict_has d k) eqn:Ed.
          + exfalso. apply Hin, Hkeys. auto.
          + unfold dict_has in Ed. destruct (dict_get d k); [discriminate|].
            reflexivity. }
      split; [discriminate|]. split.
      { intros Hno. exfalso.
        apply Hkeys in Hin0. destruct Hin0 as [H1 H2].
        rewrite (Hno _ H1) in H2. discriminate. }
      split.
      { intros k Hk Hs. rewrite dict_get_set_other by assumption.
        apply Hother. intros Hin. apply Hkeys in Hin.
        destruct Hin as [_ Hin]. congruence. }
      split.
      { intros Hd0. apply dict_set_nodup. now apply Hgone. }
      intros _ _. exists p. split; [apply dict_get_set_same|].
      split; [exact Hp'|].
      intros Hd0 k Hk Hs. rewrite dict_get_set_other by assumption.
      destruct (dict_has d k) eqn:Ed.
      * apply Hgone; auto. apply Hkeys. auto.
      * rewrite Hother.
        -- unfold dict_has in Ed. destruct (dict_get d k); [discriminate|].
           reflexivity.
        -- intros Hin. apply Hkeys in Hin. destruct Hin. congruence.
Qed.


Lemma validate_properties_dict d schema :
  validate_properties (PDict d) schema
  = if dict_truthy d "properties" then
      match dict_get d "properties" with
      | Some p =>
          bind (validate_and_fix_json (Json.dumps p) schema)
            (fun validated =>
               Ok (PDict (dict_set d "properties" (PDict validated))))
      | None => Ok (PDict d)
      end
    else Ok (PDict d).
Proof.
  unfold validate_properties. rewrite has_truthy_dict. cbn [bind].
  unfold dict_truthy, Builtin.getitem.
  destruct (dict_get d "properties") as [p|]; [|reflexivity].
  destruct (truthy p); reflexivity.
Qed.

Lemma with_metadata_get g d :
  dict_get (with_metadata g d) "usage" = Some (usage g)
  /\ dict_get (with_metadata g d) "cost" = Some (cost g)
  /\ dict_get (with_metadata g d) "model" = Some (model g)
  /\ (forall k, k <> "usage" -> k <> "cost" -> k <> "model" ->
                dict_get (with_metadata g d) k = dict_get d k).
Proof.
  unfold with_metadata. repeat split.
  - rewrite !dict_get_set_other by discriminate. apply dict_get_set_same.
  - rewrite dict_get_set_other by discriminate. apply dict_get_set_same.
  - apply dict_get_set_same.
  - intros k H1 H2 H3. now rewrite !dict_get_set_other.
Qed.

(** The flow behind the parse, for a mapping. *)
Lemma chat_on_mapping schema g d :
  parse_response (content g) = PDict d ->
  exists d1 d2,
    ensure_message (PDict d) = Ok (PDict d1)
    /\ lift_properties (PDict d1) schema = Ok (PDict d2)
    /\ chat_analyze_text_with_ai schema (Ok g)
       = if dict_truthy d2 "properties" then
           match dict_get d2 "properties" with
           | Some p =>
               bind (validate_and_fix_json (Json.dumps p) schema)
                 (fun validated =>
                    Ok (PDict (with_metadata g
                                 (dict_set d2 "properties" (PDict validated)))))
           | None => Ok (PDict (with_metadata g d2))
           end
         else Ok (PDict (with_metadata g d2)).
Proof.
  intros Hp.
  destruct (ensure_message_dict d) as (d1 & H1 & _).
  destruct (lift_properties_dict d1 schema) as (d2 & H2 & _).
  exists d1, d2. split; [exact H1|]. split; [exact H2|].
  unfold chat_analyze_text_with_ai. cbn [bind]. rewrite Hp, H1. cbn [bind].
  rewrite H2. cbn [bind]. rewrite validate_properties_dict.
  destruct (dict_truthy d2 "properties"); [|reflexivity].
  destruct (dict_get d2 "properties") as [p|]; [|reflexivity].
  destruct (validate_and_fix_json (Json.dumps p) schema); reflexivity.
Qed.

Lemma chat_on_scalar schema g v :
  parse_response (content g) = v -> is_scalar v = true ->
  chat_analyze_text_with_ai schema (Ok g) = Raise (not_iterable v).
Proof.
  intros Hp Hs. unfold chat_analyze_text_with_ai. cbn [bind]. rewrite Hp.
  destruct v; try discriminate; reflexivity.
Qed.

Lemma loads_parse_response s v :
  Json.loads s = Some v -> is_scalar v = true -> truthy v = true ->
  parse_response s = v.
Proof.
  intros Hl Hs Ht. unfold parse_response, normalize_shape. rewrite Hl.
  destruct v; try discriminate; rewrite Ht; reflexivity.
Qed.

(** X6. When the content parses to a truthy number or truth value
    (a non-zero number, [true]), the conversational flow raises the
    [TypeError] of the test [message not in data]. *)
Theorem chat_number_response_raises :
  forall (schema : schema_t) (g : generated) (v : pyvalue),
    Json.loads (content g) = Some v ->
    is_scalar v = true ->
    truthy v = true ->
    chat_analyze_text_with_ai schema (Ok g) = Raise (not_iterable v).
Proof.
  intros schema g v Hl Hs Ht.
  apply chat_on_scalar; auto. now apply loads_parse_response.
Qed.

Lemma chat_number_response_raises_witness :
  chat_analyze_text_with_ai [("Name", mk_field "title" [])]
    (Ok (mk_generated "true" (PDict []) (PInt 0) (PStr "m")))
  = Raise (not_iterable (PBool true)).
Proof.
  apply (chat_number_response_raises [("Name", mk_field "title" [])]
           (mk_generated "true" (PDict []) (PInt 0) (PStr "m")) (PBool true));
    reflexivity.
Defined.

(** X8. What the conversational flow returns is a mapping that
    carries the executor's usage, cost and model; and if the schema has no
    field named [message], its [message] entry is truthy. *)
Theorem chat_reply_has_message_and_metadata :
  forall (schema : schema_t) (outcome : result generated) (r : pyvalue),
    chat_analyze_text_with_ai schema outcome = Ok r ->
    exists g d,
      outcome = Ok g
      /\ r = PDict d
      /\ dict_get d "usage" = Some (usage g)
      /\ dict_get d "cost" = Some (cost g)
      /\ dict_get d "model" = Some (model g)
      /\ (dict_has schema "message" = false ->
          dict_truthy d "message" = true).
Proof.
  intros schema outcome r H.
  destruct outcome as [g|e]; [|discriminate]. exists g.
  destruct (parse_response_cases (content g)) as [[d Hd]|(v & Hl & Hs & Ht & Hv)].
  - destruct (chat_on_mapping schema g d Hd) as (d1 & d2 & H1 & H2 & Hc).
    rewrite Hc in H.
    destruct (ensure_message_dict d) as (d1' & H1' & Hm & _).
    rewrite H1 in H1'. inversion H1'. subst d1'.
    destruct (lift_properties_dict d1 schema) as (d2' & H2' & _ & _ & Hk & _).
    rewrite H2 in H2'. inversion H2'. subst d2'.
    assert (Hmsg : dict_has schema "message" = false ->
                   forall x, dict_truthy (with_metadata g
                                            (dict_set d2 "properties" x))
                               "message" = true
                             /\ dict_truthy (with_metadata g d2) "message"
                                = true).
    { intros Hs x. unfold dict_truthy in *.
      destruct (with_metadata_get g (dict_set d2 "properties" x))
        as (_ & _ & _ & E1).
      destruct (with_metadata_get g d2) as (_ & _ & _ & E2).
      rewrite E1, E2 by discriminate.
      rewrite dict_get_set_other by discriminate.
      rewrite (Hk "message") by (auto; discriminate). auto. }
    assert (Hfin : forall d', r = PDict (with_metadata g d') ->
                     (dict_has schema "message" = false ->
                      dict_truthy (with_metadata g d') "message" = true) ->
                     exists d0,
                       r = PDict d0
                       /\ dict_get d0 "usage" = Some (usage g)
                       /\ dict_get d0 "cost" = Some (cost g)
                       /\ dict_get d0 "model" = Some (model g)
                       /\ (dict_has schema "message" = false ->
                           dict_truthy d0 "message" = true)).
    { intros d' -> Hm'. exists (with_metadata g d').
      destruct (with_metadata_get g d') as (E1 & E2 & E3 & _). auto. }
    assert (Hgoal : exists d0,
               r = PDict d0
               /\ dict_get d0 "usage" = Some (usage g)
               /\ dict_get d0 "cost" = Some (cost g)
               /\ dict_get d0 "model" = Some (model g)
               /\ (dict_has schema "message" = false ->
                   dict_truthy d0 "message" = true)).
    { destruct (dict_truthy d2 "properties").
      - destruct (dict_get d2 "properties") as [p|].
        + destruct (validate_and_fix_json (Json.dumps p) schema) as [x|e0];
            [|discriminate].
          cbn [bind] in H. injection H as Hr.
          eapply Hfin; [symmetry; exact Hr|].
          intros Hs. now apply Hmsg.
        + injection H as Hr. eapply Hfin; [symmetry; exact Hr|].
          intros Hs. now apply (Hmsg Hs PNone).
      - injection H as Hr. eapply Hfin; [symmetry; exact Hr|].
        intros Hs. now apply (Hmsg Hs PNone). }
    destruct Hgoal as (d0 & Hgoal). exists d0. tauto.
  - rewrite (chat_on_scalar schema g v Hv Hs) in H. discriminate.
Qed.

Lemma chat_reply_has_message_and_metadata_witness :
  exists g d,
    Ok (mk_generated "Sorry, no." (PDict []) (PInt 0) (PStr "m")) = Ok g
    /\ PDict (with_metadata
                (mk_generated "Sorry, no." (PDict []) (PInt 0) (PStr "m"))
                (unparsable_notice "Sorry, no.")) = PDict d
    /\ dict_get d "usage" = Some (usage g)
    /\ dict_get d "cost" = Some (cost g)
    /\ dict_get d "model" = Some (model g)
    /\ (dict_has [("Status", mk_field "select" [])] "message" = false ->
        dict_truthy d "message" = true).
Proof.
  apply (chat_reply_has_message_and_metadata
           [("Status", mk_field "select" [])]
           (Ok (mk_generated "Sorry, no." (PDict []) (PInt 0) (PStr "m")))).
  vm_compute. reflexivity.
Defined.

Lemma rfind_from_absent c s : forall i last,
  PyStr.occurs c s = false -> PyStr.rfind_from s (String c "") i last = last.
Proof.
  induction s as [|a s IH]; intros i last H; cbn [PyStr.rfind_from prefix].
  - reflexivity.
  - simpl in H. apply orb_false_iff in H. destruct H as [Ha Hs].
    destruct (ascii_dec c a) as [E|E].
    + subst. now rewrite Ascii.eqb_refl in Ha.
    + now apply IH.
Qed.

(** Without one of the braces the recovery step has nothing to read. *)
Lemma recovery_needs_braces s :
  PyStr.occurs "{" s = false \/ PyStr.occurs "}" s = false ->
  Json.loads (PyStr.slice s (Some (PyStr.find s "{"))
                (Some (PyStr.rfind s "}" + 1))) = None.
Proof.
  intros [H|H].
  - destruct (recovered_slice s) as [E|[[r E]|E]]; cbv zeta in E.
    + rewrite E. reflexivity.
    + pose proof (occurs_slice "{" s (Some (PyStr.find s "{"))
                    (Some (PyStr.rfind s "}" + 1)) H) as Ho.
      rewrite E in Ho. discriminate.
    + rewrite E. reflexivity.
  - unfold PyStr.rfind.
    change "}" with (String "}"%char "") at 1.
    rewrite (rfind_from_absent _ _ 0 (-1) H).
    unfold PyStr.slice.
    assert (E : Z.to_nat (PyStr.adjust_index (PyStr.len s) (-1 + 1)
                          - PyStr.adjust_index (PyStr.len s)
                              (PyStr.find s "{")) = 0%nat).
    { assert (0 <= PyStr.len s) by (unfold PyStr.len; lia).
      rewrite (adjust_index_inside (PyStr.len s) (-1 + 1)) by lia.
      assert (0 <= PyStr.adjust_index (PyStr.len s) (PyStr.find s "{")).
      { unfold PyStr.adjust_index. cbv zeta.
        destruct (Z.ltb_spec (PyStr.find s "{") 0);
          repeat match goal with
                 | |- context [?a <? ?b] => destruct (Z.ltb_spec a b)
                 end; lia. }
      lia. }
    rewrite E, substring_zero. reflexivity.
Qed.

Lemma loads_mapping_response s d :
  Json.loads s = Some (PDict d) ->
  exists d0,
    parse_response s = PDict d0
    /\ NoDup (dict_keys d0)
    /\ (d <> [] -> d0 = d)
    /\ (forall k, k <> "message" -> dict_has d k = false ->
                  dict_has d0 k = false).
Proof.
  intros Hl. unfold parse_response. rewrite Hl.
  pose proof (loads_dict_nodup _ _ Hl) as Hnd.
  destruct d as [|kv d].
  - eexists. split; [reflexivity|]. split.
    + repeat constructor. simpl. tauto.
    + split; [congruence|]. intros k Hk _. unfold dict_has.
      cbn [dict_get].
      destruct (String.eqb_spec "message" k); [congruence | reflexivity].
  - exists (kv :: d). repeat split; auto.
Qed.

(** X10. When the content parses to a mapping with a truthy
    [message] and a [properties] entry, nothing is lifted: a falsy entry
    ([null], an empty mapping) leaves the mapping as it is but for the
    metadata, and a truthy one is replaced by the coercion of its JSON
    text, the flow raising what the coercion raises. *)
Theorem chat_reply_with_properties_entry :
  forall (schema : schema_t) (g : generated) (d : dict) (p : pyvalue),
    Json.loads (content g) = Some (PDict d) ->
    dict_truthy d "message" = true ->
    dict_get d "properties" = Some p ->
    chat_analyze_text_with_ai schema (Ok g)
    = if truthy p then
        bind (validate_and_fix_json (Json.dumps p) schema)
          (fun validated =>
             Ok (PDict (with_metadata g
                          (dict_set d "properties" (PDict validated)))))
      else Ok (PDict (with_metadata g d)).
Proof.
  intros schema g d p Hl Hm Hp.
  destruct (loads_mapping_response _ _ Hl) as (d0 & Hd0 & _ & Hsame & _).
  assert (Hne : d <> []) by (intros ->; discriminate).
  rewrite (Hsame Hne) in Hd0.
  destruct (chat_on_mapping schema g d Hd0) as (d1 & d2 & H1 & H2 & Hc).
  destruct (ensure_message_dict d) as (d1' & H1' & _ & _ & Hkeep & _).
  rewrite H1 in H1'. inversion H1'. subst d1'.
  rewrite (Hkeep Hm) in *.
  destruct (lift_properties_dict d schema) as (d2' & H2' & Hnoop & _).
  rewrite H2 in H2'. inversion H2'. subst d2'.
  rewrite Hnoop in Hc by (unfold dict_has; now rewrite Hp).
  rewrite Hc. unfold dict_truthy. rewrite Hp.
  destruct (truthy p); reflexivity.
Qed.

Lemma chat_reply_with_properties_entry_witness :
  let text := "{" ++ PyStr.dq ++ "message" ++ PyStr.dq ++ ": " ++ PyStr.dq
              ++ "hi" ++ PyStr.dq ++ ", " ++ PyStr.dq ++ "properties"
              ++ PyStr.dq ++ ": null}" in
  let g := mk_generated text (PDict []) (PInt 0) (PStr "m") in
  chat_analyze_text_with_ai [("Status", mk_field "select" [])] (Ok g)
  = Ok (PDict (with_metadata g
                 [("message", PStr "hi"); ("properties", PNone)])).
Proof.
  cbv zeta.
  apply (chat_reply_with_properties_entry
           [("Status", mk_field "select" [])]
           (mk_generated
              ("{" ++ PyStr.dq ++ "message" ++ PyStr.dq ++ ": " ++ PyStr.dq
               ++ "hi" ++ PyStr.dq ++ ", " ++ PyStr.dq ++ "properties"
               ++ PyStr.dq ++ ": null}") (PDict []) (PInt 0) (PStr "m"))
           [("message", PStr "hi"); ("properties", PNone)] PNone);
    reflexivity.
Defined.

(** X11. When the schema has a field named [message] and the
    content parses to a mapping without a [properties] entry, the message
    is lifted with the other schema keys: what the flow returns has a
    [properties] mapping and no [message] entry. *)
Theorem chat_message_moves_into_properties :
  forall (schema : schema_t) (g : generated) (d : dict) (r : pyvalue),
    Json.loads (content g) = Some (PDict d) ->
    dict_has d "properties" = false ->
    dict_has schema "message" = true ->
    chat_analyze_text_with_ai schema (Ok g) = Ok r ->
    exists d' p,
      r = PDict d'
      /\ dict_get d' "message" = None
      /\ dict_get d' "properties" = Some (PDict p).
Proof.
  intros schema g d r Hl Hnp Hs H.
  destruct (loads_mapping_response _ _ Hl) as (d0 & Hd0 & Hnd0 & _ & Hk0).
  assert (Hnp0 : dict_has d0 "properties" = false)
    by (apply Hk0; [discriminate | exact Hnp]).
  destruct (chat_on_mapping schema g d0 Hd0) as (d1 & d2 & H1 & H2 & Hc).
  destruct (ensure_message_dict d0) as (d1' & H1' & Hm & Hother & _ & Hnd1).
  rewrite H1 in H1'. inversion H1'. subst d1'.
  assert (Hnp1 : dict_has d1 "properties" = false).
  { unfold dict_has in *. rewrite Hother by discriminate. exact Hnp0. }
  assert (Hm1 : dict_has d1 "message" = true).
  { unfold dict_has, dict_truthy in *.
    destruct (dict_get d1 "message"); [reflexivity | discriminate]. }
  destruct (lift_properties_dict d1 schema)
    as (d2' & H2' & _ & _ & _ & _ & Hlift).
  rewrite H2 in H2'. inversion H2'. subst d2'.
  destruct (Hlift Hnp1) as (p & Hp & Hpk & Hgone); [eauto|].
  assert (Hmsg2 : dict_get d2 "message" = None).
  { apply Hgone; auto. discriminate. }
  assert (Ht : truthy (PDict p) = true).
  { pose proof (Hpk "message") as E. rewrite Hs in E.
    unfold dict_has in Hm1.
    destruct p; [|reflexivity]. simpl in E.
    destruct (dict_get d1 "message"); discriminate. }
  rewrite Hc in H. unfold dict_truthy in H. rewrite Hp, Ht in H.
  destruct (validate_and_fix_json (Json.dumps (PDict p)) schema) as [x|e];
    [|discriminate].
  cbn [bind] in H. injection H as Hr.
  exists (with_metadata g (dict_set d2 "properties" (PDict x))), x.
  split; [auto|].
  destruct (with_metadata_get g (dict_set d2 "properties" (PDict x)))
    as (_ & _ & _ & E).
  rewrite !E by discriminate.
  rewrite dict_get_set_other by discriminate.
  rewrite dict_get_set_same. auto.
Qed.

Lemma chat_message_moves_into_properties_witness :
  exists d' p,
    PDict
      [("properties",
        PDict
          [("Status", PDict [("select", PDict [("name", PStr "Done")])]);
           ("message", PDict [("select", PDict [("name", PStr "（応答完了）")])])]);
       ("usage", PDict []); ("cost", PInt 0); ("model", PStr "m")]
    = PDict d'
    /\ dict_get d' "message" = None
    /\ dict_get d' "properties" = Some (PDict p).
Proof.
  apply (chat_message_moves_into_properties
           [("Status", mk_field "select" []); ("message", mk_field "select" [])]
           (mk_generated status_done (PDict []) (PInt 0) (PStr "m"))
           [("Status", PStr "Done")]).
  - reflexivity.
  - reflexivity.
  - reflexivity.
  - vm_compute. reflexivity.
Defined.

(** X12. [lift_properties] on a mapping with distinct keys.  With a
    [properties] entry, or without a key of the schema, the mapping is
    left as it is.  Otherwise the entries under keys of the schema are
    taken out of the mapping and form the new [properties] entry; the
    other entries stay. *)
Theorem lifting_collects_schema_keys :
  forall (d : dict) (schema : schema_t),
    NoDup (dict_keys d) ->
    exists d',
      lift_properties (PDict d) schema = Ok (PDict d')
      /\ (dict_has d "properties" = true
          \/ (forall k, dict_has d k = true -> dict_has schema k = false) ->
          d' = d)
      /\ (dict_has d "properties" = false ->
          (exists k, dict_has d k = true /\ dict_has schema k = true) ->
          exists p,
            dict_get d' "properties" = Some (PDict p)
            /\ (forall k, dict_get p k = if dict_has schema k
                                         then dict_get d k else None)
            /\ (forall k, k <> "properties" ->
                          dict_get d' k = if dict_has schema k then None
                                          else dict_get d k)).
Proof.
  intros d schema Hnd.
  destruct (lift_properties_dict d schema)
    as (d' & H & Hn1 & Hn2 & Hother & _ & Hlift).
  exists d'. split; [exact H|]. split.
  - intros [Hp|Hno]; auto.
  - intros Hp Hex. destruct (Hlift Hp Hex) as (p & Hp' & Hpk & Hgone).
    exists p. split; [exact Hp'|]. split; [exact Hpk|].
    intros k Hk. destruct (dict_has schema k) eqn:Es; auto.
Qed.

Lemma lifting_collects_schema_keys_witness :
  exists d',
    lift_properties (PDict [("Status", PStr "Done"); ("note", PStr "x")])
      [("Status", mk_field "select" [])] = Ok (PDict d')
    /\ (dict_has [("Status", PStr "Done"); ("note", PStr "x")] "properties"
        = true
        \/ (forall k,
               dict_has [("Status", PStr "Done"); ("note", PStr "x")] k = true ->
               dict_has [("Status", mk_field "select" [])] k = false) ->
        d' = [("Status", PStr "Done"); ("note", PStr "x")])
    /\ (dict_has [("Status", PStr "Done"); ("note", PStr "x")] "properties"
        = false ->
        (exists k,
            dict_has [("Status", PStr "Done"); ("note", PStr "x")] k = true
            /\ dict_has [("Status", mk_field "select" [])] k = true) ->
        exists p,
          dict_get d' "properties" = Some (PDict p)
          /\ (forall k,
                 dict_get p k
                 = if dict_has [("Status", mk_field "select" [])] k
                   then dict_get [("Status", PStr "Done"); ("note", PStr "x")] k
                   else None)
          /\ (forall k, k <> "properties" ->
                        dict_get d' k
                        = if dict_has [("Status", mk_field "select" [])] k
                          then None
                          else dict_get [("Status", PStr "Done");
                                         ("note", PStr "x")] k)).
Proof.
  apply (lifting_collects_schema_keys
           [("Status", PStr "Done"); ("note", PStr "x")]
           [("Status", mk_field "select" [])]).
  repeat constructor; simpl; intuition discriminate.
Defined.

(** ** Substrings of a concatenation *)

Lemma substring_whole s : substring 0 (String.length s) s = s.
Proof. induction s; simpl; congruence. Qed.

Lemma substring_app_left a b :
  substring 0 (String.length a) (a ++ b) = a.
Proof.
  induction a as [|c a IH]; simpl.
  - destruct b; reflexivity.
  - now rewrite IH.
Qed.

Lemma substring_app_right a b : forall m,
  substring (String.length a) m (a ++ b) = substring 0 m b.
Proof. induction a as [|c a IH]; intros m; simpl; auto. Qed.

Lemma substring_app_middle a b c :
  substring (String.length a) (String.length b) (a ++ b ++ c) = b.
Proof. rewrite substring_app_right. apply substring_app_left. Qed.

Lemma string_app_assoc (a b c : string) : (a ++ b) ++ c = a ++ b ++ c.
Proof. induction a; simpl; congruence. Qed.

Lemma len_app a b : PyStr.len (a ++ b) = PyStr.len a + PyStr.len b.
Proof. unfold PyStr.len. rewrite string_app_length. lia. Qed.

Lemma len_nonneg s : 0 <= PyStr.len s.
Proof. unfold PyStr.len. lia. Qed.

(** ** [find] and [rfind] across a concatenation *)

Lemma find_from_app c p r : forall i,
  PyStr.occurs c p = false ->
  PyStr.find_from (p ++ String c r) (String c "") i = i + PyStr.len p.
Proof.
  unfold PyStr.len.
  induction p as [|a p IH]; intros i H.
  - cbn [append PyStr.find_from prefix].
    destruct (ascii_dec c c) as [_|N]; [|contradiction].
    assert (Hp : prefix "" r = true) by (destruct r; reflexivity).
    rewrite Hp. simpl. lia.
  - simpl in H. apply orb_false_iff in H. destruct H as [Ha Hp].
    cbn [append PyStr.find_from prefix].
    destruct (ascii_dec c a) as [E|E].
    + subst. now rewrite Ascii.eqb_refl in Ha.
    + rewrite IH by assumption.
      change (String.length (String a p)) with (S (String.length p)). lia.
Qed.

Lemma rfind_from_app c q : forall p i last,
  PyStr.occurs c q = false ->
  PyStr.rfind_from (p ++ String c q) (String c "") i last = i + PyStr.len p.
Proof.
  unfold PyStr.len.
  induction p as [|a p IH]; intros i last H.
  - cbn [append PyStr.rfind_from prefix].
    destruct (ascii_dec c c) as [_|N]; [|contradiction].
    assert (Hp : prefix "" q = true) by (destruct q; reflexivity).
    rewrite Hp. rewrite rfind_from_absent by assumption. simpl. lia.
  - cbn [append PyStr.rfind_from].
    rewrite IH by assumption.
    change (String.length (String a p)) with (S (String.length p)). lia.
Qed.

(** The text from the first opening brace to the last closing one. *)
Lemma brace_part p o q :
  PyStr.occurs "{" p = false ->
  PyStr.occurs "}" q = false ->
  let s := p ++ "{" ++ o ++ "}" ++ q in
  PyStr.find s "{" <> -1
  /\ PyStr.slice s (Some (PyStr.find s "{")) (Some (PyStr.rfind s "}" + 1))
     = "{" ++ o ++ "}".
Proof.
  intros Hp Hq s.
  assert (Ef : PyStr.find s "{" = PyStr.len p).
  { unfold s, PyStr.find. change ("{" ++ o ++ "}" ++ q)
      with (String "{" (o ++ "}" ++ q)).
    rewrite find_from_app by assumption. lia. }
  assert (Er : PyStr.rfind s "}" = PyStr.len p + 1 + PyStr.len o).
  { unfold s, PyStr.rfind.
    replace (p ++ "{" ++ o ++ "}" ++ q) with ((p ++ "{" ++ o) ++ String "}" q).
    - rewrite rfind_from_app by assumption.
      rewrite !len_app. change (PyStr.len "{") with 1. lia.
    - rewrite !string_app_assoc. reflexivity. }
  pose proof (len_nonneg p). pose proof (len_nonneg o). pose proof (len_nonneg q).
  split; [rewrite Ef; lia|].
  rewrite Ef, Er. unfold PyStr.slice.
  assert (En : PyStr.len s = PyStr.len p + 1 + PyStr.len o + 1 + PyStr.len q).
  { unfold s. rewrite !len_app. change (PyStr.len "{") with 1.
    change (PyStr.len "}") with 1. lia. }
  rewrite En. rewrite !adjust_index_inside by lia.
  replace (Z.to_nat (PyStr.len p)) with (String.length p)
    by (unfold PyStr.len; lia).
  replace (Z.to_nat (PyStr.len p + 1 + PyStr.len o + 1 - PyStr.len p))
    with (String.length ("{" ++ o ++ "}")).
  - unfold s.
    replace (p ++ "{" ++ o ++ "}" ++ q) with (p ++ ("{" ++ o ++ "}") ++ q).
    + apply substring_app_middle.
    + rewrite !string_app_assoc. reflexivity.
  - rewrite !string_app_length. unfold PyStr.len. simpl. lia.
Qed.

(** ** The Markdown fence *)

Lemma rev_append_app s : forall t acc,
  PyStr.rev_append (s ++ t) acc = PyStr.rev_append t (PyStr.rev_append s acc).
Proof. induction s as [|a s IH]; intros t acc; simpl; auto. Qed.

Lemma rev_append_acc x : forall y,
  PyStr.rev_append x y = PyStr.rev_append x "" ++ y.
Proof.
  induction x as [|b x IH]; intros y; simpl; [reflexivity|].
  rewrite IH. rewrite (IH (String b "")).
  rewrite string_app_assoc. reflexivity.
Qed.

Lemma rev_app s t : PyStr.rev (s ++ t) = PyStr.rev t ++ PyStr.rev s.
Proof. unfold PyStr.rev. rewrite rev_append_app. apply rev_append_acc. Qed.

Lemma rev_cons a s : PyStr.rev (String a s) = PyStr.rev s ++ String a "".
Proof. unfold PyStr.rev. simpl. apply rev_append_acc. Qed.

Lemma rev_involutive s : PyStr.rev (PyStr.rev s) = s.
Proof.
  induction s as [|a s IH]; [reflexivity|].
  rewrite rev_cons, rev_app, IH. reflexivity.
Qed.

(** A text between two fences of three backticks is not stripped. *)
Lemma strip_fenced a m :
  PyStr.strip ("```" ++ a ++ m ++ "```") = "```" ++ a ++ m ++ "```".
Proof.
  unfold PyStr.strip, PyStr.strip_with.
  assert (E1 : PyStr.lstrip_with PyStr.space1 ("```" ++ a ++ m ++ "```")
               = "```" ++ a ++ m ++ "```") by reflexivity.
  rewrite E1.
  assert (E2 : PyStr.rev ("```" ++ a ++ m ++ "```")
               = "```" ++ PyStr.rev ("```" ++ a ++ m)).
  { replace ("```" ++ a ++ m ++ "```") with (("```" ++ a ++ m) ++ "```")
      by (rewrite !string_app_assoc; reflexivity).
    rewrite rev_app. reflexivity. }
  rewrite E2.
  assert (E3 : PyStr.lstrip_rev_with PyStr.space1
                 ("```" ++ PyStr.rev ("```" ++ a ++ m))
               = "```" ++ PyStr.rev ("```" ++ a ++ m)) by reflexivity.
  rewrite E3, <- E2. apply rev_involutive.
Qed.

Lemma prefix_nil s : prefix "" s = true.
Proof. destruct s; reflexivity. Qed.

Lemma slice_from_7 a0 a1 a2 a3 a4 a5 a6 r :
  PyStr.slice (String a0 (String a1 (String a2 (String a3 (String a4
                 (String a5 (String a6 r))))))) (Some 7) None = r.
Proof.
  unfold PyStr.slice, PyStr.len.
  cbn [String.length].
  rewrite adjust_index_inside by lia.
  replace (Z.to_nat (Z.of_nat (S (S (S (S (S (S (S (String.length r))))))))
                     - 7)) with (String.length r) by lia.
  change (Z.to_nat 7) with 7%nat. cbn [substring].
  apply substring_whole.
Qed.

Lemma slice_from_3 a0 a1 a2 r :
  PyStr.slice (String a0 (String a1 (String a2 r))) (Some 3) None = r.
Proof.
  unfold PyStr.slice, PyStr.len.
  cbn [String.length].
  rewrite adjust_index_inside by lia.
  replace (Z.to_nat (Z.of_nat (S (S (S (String.length r)))) - 3))
    with (String.length r) by lia.
  change (Z.to_nat 3) with 3%nat. cbn [substring].
  apply substring_whole.
Qed.

Lemma endswith_app m t : PyStr.endswith (m ++ t) t = true.
Proof.
  unfold PyStr.endswith. rewrite string_app_length.
  replace (String.length m + String.length t - String.length t)%nat
    with (String.length m) by lia.
  rewrite substring_app_right, substring_whole, String.eqb_refl.
  rewrite andb_true_r. apply Nat.leb_le. lia.
Qed.

Lemma slice_cut_3 m t :
  String.length t = 3%nat -> PyStr.slice (m ++ t) None (Some (-3)) = m.
Proof.
  intros Ht. unfold PyStr.slice, PyStr.len. rewrite string_app_length, Ht.
  assert (E : PyStr.adjust_index (Z.of_nat (String.length m + 3)) (-3)
              = Z.of_nat (String.length m)).
  { unfold PyStr.adjust_index. cbv zeta. change (-3 <? 0) with true. cbv iota.
    repeat match goal with
           | |- context [?a <? ?b] => destruct (Z.ltb_spec a b)
           end; lia. }
  rewrite E. rewrite Z.sub_0_r, Nat2Z.id. apply substring_app_left.
Qed.

Lemma closing_fence_only m :
  PyStr.occurs "`" m = false -> m <> "" ->
  PyStr.startswith (m ++ "```") "```" = false.
Proof.
  intros H Hne. destruct m as [|c m]; [congruence|].
  simpl in H. apply orb_false_iff in H. destruct H as [Hc _].
  unfold PyStr.startswith. cbn [append prefix].
  destruct (ascii_dec "`" c) as [E|E]; [|reflexivity].
  subst. discriminate.
Qed.

Lemma cut_closing_fence m :
  PyStr.occurs "`" m = false ->
  (let s := m ++ "```" in
   let s := if PyStr.startswith s "```" then PyStr.slice s (Some 3) None
            else s in
   let s := if PyStr.endswith s "```" then PyStr.slice s None (Some (-3))
            else s in
   PyStr.strip s) = PyStr.strip m.
Proof.
  intros H. cbv zeta. destruct m as [|c m].
  - reflexivity.
  - rewrite closing_fence_only by (auto; discriminate).
    rewrite endswith_app. now rewrite slice_cut_3.
Qed.

Lemma not_json_fence m :
  PyStr.occurs "`" m = false ->
  PyStr.startswith m "json" = false ->
  PyStr.startswith ("```" ++ m ++ "```") "```json" = false.
Proof.
  unfold PyStr.startswith. intros Hb Hj.
  cbn [append prefix].
  destruct (ascii_dec "`" "`") as [_|N]; [|contradiction].
  destruct m as [|c1 m]; [reflexivity|].
  cbn [append prefix] in *.
  destruct (ascii_dec "j" c1); [|reflexivity].
  destruct m as [|c2 m]; [reflexivity|].
  cbn [append prefix] in *.
  destruct (ascii_dec "s" c2); [|reflexivity].
  destruct m as [|c3 m]; [reflexivity|].
  cbn [append prefix] in *.
  destruct (ascii_dec "o" c3); [|reflexivity].
  destruct m as [|c4 m]; [reflexivity|].
  cbn [append prefix] in *.
  destruct (ascii_dec "n" c4); [|reflexivity].
  rewrite prefix_nil in Hj. discriminate.
Qed.

(** X14. A text without backticks between a fence [```json] and a
    closing fence is cleaned to the stripped text; so is a text between
    two plain fences, if it does not start with [json]. *)
Theorem fences_are_cut :
  forall (m : string),
    PyStr.occurs "`" m = false ->
    strip_fences ("```json" ++ m ++ "```") = PyStr.strip m
    /\ (PyStr.startswith m "json" = false ->
        strip_fences ("```" ++ m ++ "```") = PyStr.strip m).
Proof.
  intros m Hb. split.
  - unfold strip_fences.
    change ("```json" ++ m ++ "```") with ("```" ++ "json" ++ m ++ "```").
    rewrite strip_fenced.
    change ("```" ++ "json" ++ m ++ "```")
      with (String "`" (String "`" (String "`" (String "j" (String "s"
              (String "o" (String "n" (m ++ "```")))))))).
    assert (E : PyStr.startswith
                  (String "`" (String "`" (String "`" (String "j" (String "s"
                     (String "o" (String "n" (m ++ "```"))))))))
                  "```json" = true).
    { unfold PyStr.startswith. cbn [prefix].
      repeat match goal with
             | |- context [ascii_dec ?a ?a] =>
                 destruct (ascii_dec a a) as [_|N]; [|contradiction]
             end.
      apply prefix_nil. }
    rewrite E, slice_from_7. now apply cut_closing_fence.
  - intros Hj. unfold strip_fences.
    pose proof (strip_fenced "" m) as Es. cbn [append] in Es.
    cbn [append]. rewrite Es.
    pose proof (not_json_fence m Hb Hj) as En. cbn [append] in En.
    rewrite En.
    assert (E : PyStr.startswith
                  (String "`" (String "`" (String "`" (m ++ "```"))))
                  "```" = true).
    { unfold PyStr.startswith. cbn [prefix].
      repeat match goal with
             | |- context [ascii_dec ?a ?a] =>
                 destruct (ascii_dec a a) as [_|N]; [|contradiction]
             end.
      apply prefix_nil. }
    rewrite E, slice_from_3.
    pose proof (cut_closing_fence m Hb) as Ec. cbv zeta in Ec.
    destruct m as [|c m]; [reflexivity|].
    rewrite closing_fence_only in Ec by (auto; discriminate).
    rewrite endswith_app in *. exact Ec.
Qed.

Lemma fences_are_cut_witness :
  strip_fences ("```json" ++ " {} " ++ "```") = PyStr.strip " {} "
  /\ (PyStr.startswith " {} " "json" = false ->
      strip_fences ("```" ++ " {} " ++ "```") = PyStr.strip " {} ").
Proof.
  apply (fences_are_cut " {} "). reflexivity.
Defined.

(** ** Decimal text read back *)

Lemma digit_props d :
  0 <= d <= 9 ->
  Dec.is_digit (Dec.digit d) = true
  /\ Dec.digit_val (Dec.digit d) = d
  /\ (d <> 0 -> Ascii.eqb (Dec.digit d) "0" = false).
Proof.
  intros H.
  assert (C : d = 0 \/ d = 1 \/ d = 2 \/ d = 3 \/ d = 4 \/ d = 5 \/ d = 6
              \/ d = 7 \/ d = 8 \/ d = 9) by lia.
  repeat (destruct C as [C|C]; [subst d; repeat split; try reflexivity;
                                intros N; congruence|]).
  subst d; repeat split; reflexivity.
Qed.

Lemma to_Z_app ds : forall t acc,
  Dec.to_Z (ds ++ t) acc = Dec.to_Z t (Dec.to_Z ds acc).
Proof. induction ds as [|a ds IH]; intros t acc; simpl; auto. Qed.

Lemma all_chars_app p s t :
  all_chars p (s ++ t) = all_chars p s && all_chars p t.
Proof.
  induction s as [|a s IH]; simpl; [reflexivity|].
  now rewrite IH, andb_assoc.
Qed.

Lemma log2_tenth n : 10 <= n -> Z.log2 (n / 10) < Z.log2 n.
Proof.
  intros H.
  assert (H1 : n / 10 <= n / 2).
  { apply Z.div_le_compat_l; lia. }
  assert (H2 : Z.log2 (n / 2) = Z.log2 n - 1).
  { rewrite <- Z.div2_div, Z.div2_spec, Z.log2_shiftr by lia.
    pose proof (Z.log2_le_mono 10 n H) as H3.
    change (Z.log2 10) with 3 in H3. lia. }
  pose proof (Z.log2_le_mono _ _ H1). lia.
Qed.

(** The digits of [n]: no leading zero, and they read back as [n]. *)
Lemma of_nonneg_digits fuel : forall n acc,
  0 <= n -> Z.log2 n < Z.of_nat fuel ->
  exists ds,
    Dec.of_nonneg fuel n acc = ds ++ acc
    /\ all_chars Dec.is_digit ds = true
    /\ Dec.to_Z ds 0 = n
    /\ (n = 0 -> ds = "0")
    /\ (n <> 0 -> head_is (fun c => Dec.is_digit c && negb (Ascii.eqb c "0")) ds
                  = true).
Proof.
  induction fuel as [|fuel IH]; intros n acc Hn Hf.
  - pose proof (Z.log2_nonneg n). lia.
  - cbn [Dec.of_nonneg].
    destruct (Z.ltb_spec n 10) as [Hlt|Hge].
    + destruct (digit_props n) as (H1 & H2 & H3); [lia|].
      rewrite Z.mod_small by lia.
      exists (String (Dec.digit n) ""). split; [reflexivity|].
      split; [simpl; now rewrite H1|].
      split; [simpl; lia|]. split.
      * intros ->. reflexivity.
      * intros Hne. simpl. rewrite H1, (H3 Hne). reflexivity.
    + destruct (IH (n / 10) (String (Dec.digit (n mod 10)) acc))
        as (ds & E & Ha & Hv & _ & Hh).
      { apply Z.div_pos; lia. }
      { pose proof (log2_tenth n Hge). lia. }
      destruct (digit_props (n mod 10)) as (H1 & H2 & _).
      { pose proof (Z.mod_pos_bound n 10). lia. }
      exists (ds ++ String (Dec.digit (n mod 10)) "").
      split; [rewrite E, string_app_assoc; reflexivity|].
      split; [rewrite all_chars_app, Ha; simpl; now rewrite H1|].
      split.
      { rewrite to_Z_app, Hv. cbn [Dec.to_Z]. rewrite H2.
        pose proof (Z.div_mod n 10 ltac:(lia)). lia. }
      split; [lia|].
      intros _.
      assert (Hq : n / 10 <> 0).
      { pose proof (Z.div_le_lower_bound n 10 1). lia. }
      specialize (Hh Hq). destruct ds; [discriminate | exact Hh].
Qed.

Lemma span_digits_app ds : forall r,
  all_chars Dec.is_digit ds = true -> head_is Dec.is_digit r = false ->
  Dec.span_digits (ds ++ r) = (ds, r).
Proof.
  induction ds as [|a ds IH]; intros r Ha Hh; simpl in *.
  - destruct r as [|c r]; [reflexivity|]. simpl in *. now rewrite Hh.
  - apply andb_true_iff in Ha. destruct Ha as [Ha1 Ha2].
    now rewrite Ha1, IH.
Qed.

Lemma number_char_false r :
  head_is number_char r = false ->
  head_is Dec.is_digit r = false
  /\ Json.match_frac r = None /\ Json.match_exp r = None.
Proof.
  destruct r as [|c r]; [auto|]. unfold number_char. cbn [head_is].
  intros H. apply orb_false_iff in H. destruct H as [H HE].
  apply orb_false_iff in H. destruct H as [H He].
  apply orb_false_iff in H. destruct H as [Hd Hp].
  split; [exact Hd|]. unfold Json.match_frac, Json.match_exp.
  now rewrite Hp, He, HE.
Qed.

Lemma match_unsigned_digits neg ds rest :
  all_chars Dec.is_digit ds = true ->
  ds = "0"
  \/ head_is (fun c => Dec.is_digit c && negb (Ascii.eqb c "0")) ds = true ->
  head_is number_char rest = false ->
  Json.match_unsigned neg (ds ++ rest)
  = Some (PInt (if neg then - Dec.to_Z ds 0 else Dec.to_Z ds 0), rest).
Proof.
  intros Ha Hh Hr.
  destruct (number_char_false rest Hr) as (Hd & Hf & He).
  assert (Ei : Json.match_int (ds ++ rest) = Some (ds, rest)).
  { destruct Hh as [->|Hh].
    - reflexivity.
    - destruct ds as [|a ds]; [discriminate|]. cbn [head_is] in Hh.
      apply andb_true_iff in Hh. destruct Hh as [H1 H2].
      apply negb_true_iff in H2.
      change (String a ds ++ rest) with (String a (ds ++ rest)).
      unfold Json.match_int. rewrite H2, H1.
      change (String a (ds ++ rest)) with (String a ds ++ rest).
      now rewrite span_digits_app. }
  unfold Json.match_unsigned. rewrite Ei, Hf, He. reflexivity.
Qed.

Lemma digit_head a :
  Dec.is_digit a = true ->
  Ascii.eqb a PyStr.dquote = false /\ Ascii.eqb a "{" = false
  /\ Ascii.eqb a "[" = false /\ Ascii.eqb a "-" = false
  /\ Json.is_ws a = false
  /\ (forall s, Json.match_constant (String a s) = None)
  /\ (forall s, Json.match_constant (String "-" (String a s)) = None).
Proof.
  destruct a as [[] [] [] [] [] [] [] []]; intros H; try discriminate H;
    repeat split; reflexivity.
Qed.

Lemma of_Z_text z :
  exists ds,
    all_chars Dec.is_digit ds = true
    /\ (ds = "0"
        \/ head_is (fun c => Dec.is_digit c && negb (Ascii.eqb c "0")) ds
           = true)
    /\ Dec.to_Z ds 0 = Z.abs z
    /\ Dec.of_Z z = if z <? 0 then String "-" ds else ds.
Proof.
  unfold Dec.of_Z, Dec.digits_fuel.
  destruct (Z.ltb_spec z 0) as [Hneg|Hpos].
  - destruct (of_nonneg_digits (S (Z.to_nat (Z.log2 (- z)))) (- z) "")
      as (ds & E & Ha & Hv & H0 & Hh); [lia | |].
    { pose proof (Z.log2_nonneg (- z)). lia. }
    exists ds. rewrite E, string_app_nil_r.
    repeat split; auto; [|lia]. right. apply Hh. lia.
  - destruct (of_nonneg_digits (S (Z.to_nat (Z.log2 z))) z "")
      as (ds & E & Ha & Hv & H0 & Hh); [lia | |].
    { pose proof (Z.log2_nonneg z). lia. }
    exists ds. rewrite E, string_app_nil_r.
    repeat split; auto; [|lia].
    destruct (Z.eq_dec z 0) as [->|Hne]; [left; auto | right; auto].
Qed.

Lemma nonempty_digits ds :
  ds = "0"
  \/ head_is (fun c => Dec.is_digit c && negb (Ascii.eqb c "0")) ds = true ->
  exists a t, ds = String a t /\ Dec.is_digit a = true.
Proof.
  intros [->|H]; [exists "0"%char, ""; auto|].
  destruct ds as [|a t]; [discriminate|]. cbn [head_is] in H.
  apply andb_true_iff in H. destruct H. eauto.
Qed.

(** The text of an integer, read at the head of a longer text. *)
Lemma scan_once_int fuel z rest :
  head_is number_char rest = false ->
  Json.scan_once (S fuel) (Dec.of_Z z ++ rest) = Some (PInt z, rest).
Proof.
  intros Hr.
  destruct (of_Z_text z) as (ds & Ha & Hh & Hv & E). rewrite E.
  pose proof E as E0. clear E.
  destruct (nonempty_digits ds Hh) as (a & t & Eds & Hd).
  destruct (digit_head a Hd) as (H1 & H2 & H3 & H4 & _ & H5 & H6).
  pose proof (match_unsigned_digits true ds rest Ha Hh Hr) as Hn.
  pose proof (match_unsigned_digits false ds rest Ha Hh Hr) as Hp.
  rewrite Hv in Hn, Hp.
  clear E0.
  destruct (Z.ltb_spec z 0) as [Hneg|Hpos].
  - change (String "-" ds ++ rest) with (String "-" (ds ++ rest)).
    cbn [Json.scan_once].
    change (Ascii.eqb "-" PyStr.dquote) with false.
    change (Ascii.eqb "-" "{") with false.
    change (Ascii.eqb "-" "[") with false. cbv iota.
    rewrite Eds in *.
    change (String a t ++ rest) with (String a (t ++ rest)) in *.
    rewrite H6. cbn [Json.match_number].
    change (Ascii.eqb "-" "-") with true. cbv iota.
    rewrite Hn. f_equal. f_equal. f_equal. lia.
  - rewrite Eds in *.
    change (String a t ++ rest) with (String a (t ++ rest)) in *.
    cbn [Json.scan_once]. rewrite H1, H2, H3, H5.
    cbn [Json.match_number]. rewrite H4, Hp. f_equal. f_equal. f_equal. lia.
Qed.

(** ** Encoded text read back *)

Lemma scanstring_escape a :
  is_ascii a = true ->
  forall rest x r,
    Json.scanstring rest = Some (x, r) ->
    Json.scanstring (Json.escape_ascii (Z.of_N (N_of_ascii a)) ++ rest)
    = Some (String a x, r).
Proof.
  intros Ha rest x r H.
  destruct a as [[] [] [] [] [] [] [] []]; try discriminate Ha;
    match goal with
    | |- context [Json.escape_ascii ?n] =>
        let t := eval vm_compute in (Json.escape_ascii n) in
        change (Json.escape_ascii n) with t
    end;
    simpl; rewrite H; reflexivity.
Qed.

Lemma utf8_decode_ascii a s :
  is_ascii a = true ->
  Json.utf8_decode (String a s) = Z.of_N (N_of_ascii a) :: Json.utf8_decode s.
Proof.
  unfold is_ascii. intros H. apply N.ltb_lt in H.
  cbn [Json.utf8_decode]. cbv zeta.
  destruct (Z.ltb_spec (Z.of_N (N_of_ascii a)) 192); [reflexivity | lia].
Qed.

Lemma scanstring_encoded s : forall rest,
  all_chars is_ascii s = true ->
  Json.scanstring
    (String.concat "" (map Json.escape_ascii (Json.utf8_decode s))
     ++ PyStr.dq ++ rest) = Some (s, rest).
Proof.
  induction s as [|a s IH]; intros rest H.
  - reflexivity.
  - cbn [all_chars] in H. apply andb_true_iff in H. destruct H as [Ha Hs].
    rewrite utf8_decode_ascii by assumption. cbn [map].
    rewrite concat_empty_cons, string_app_assoc.
    apply scanstring_escape; auto.
Qed.

Lemma scan_once_str fuel s rest :
  all_chars is_ascii s = true ->
  Json.scan_once (S fuel) (Json.encode_str s ++ rest) = Some (PStr s, rest).
Proof.
  intros H. unfold Json.encode_str.
  change (PyStr.dq ++ ?x) with (String PyStr.dquote x).
  cbn [append Json.scan_once].
  change (Ascii.eqb PyStr.dquote PyStr.dquote) with true. cbv iota.
  rewrite string_app_assoc, scanstring_encoded by assumption. reflexivity.
Qed.

(** ** Induction on a value and the values in it *)

Lemma pyvalue_nested_ind (P : pyvalue -> Prop) :
  P PNone ->
  (forall b, P (PBool b)) ->
  (forall z, P (PInt z)) ->
  (forall x, P (PFloat x)) ->
  (forall s, P (PStr s)) ->
  (forall l, Forall P l -> P (PList l)) ->
  (forall d, Forall (fun kv => P (snd kv)) d -> P (PDict d)) ->
  forall v, P v.
Proof.
  intros HN HB HI HF HS HL HD.
  fix IH 1. intros v. destruct v as [|b|z|x|s|l|d].
  - exact HN.
  - apply HB.
  - apply HI.
  - apply HF.
  - apply HS.
  - apply HL. induction l as [|x l IHl]; constructor; [apply IH | exact IHl].
  - apply HD. induction d as [|[k x] d IHd]; constructor;
      [apply IH | exact IHd].
Qed.

(** ** Enough fuel *)

Lemma scan_once_more fuel s v r :
  Json.scan_once fuel s = Some (v, r) ->
  forall fuel', (String.length s < fuel')%nat ->
                Json.scan_once fuel' s = Some (v, r).
Proof.
  intros H fuel' Hf. destruct (parser_reads fuel) as (Hs & _ & _).
  destruct (Hs _ _ _ H) as [Hl Hen]. apply Hen. lia.
Qed.

Lemma parse_elems_more fuel s l r :
  Json.parse_elems fuel s = Some (l, r) ->
  forall fuel', (String.length s < fuel')%nat ->
                Json.parse_elems fuel' s = Some (l, r).
Proof.
  intros H fuel' Hf. destruct (parser_reads fuel) as (_ & _ & He).
  destruct (He _ _ _ H) as [Hl Hen]. apply Hen. lia.
Qed.

Lemma parse_members_more fuel s acc d r :
  Json.parse_members fuel s acc = Some (d, r) ->
  forall fuel', (String.length s < fuel')%nat ->
                Json.parse_members fuel' s acc = Some (d, r).
Proof.
  intros H fuel' Hf. destruct (parser_reads fuel) as (_ & Hm & _).
  destruct (Hm _ _ _ _ H) as [Hl Hen]. apply Hen. lia.
Qed.

(** ** The head of an encoded value *)


Lemma digit_value_head a : Dec.is_digit a = true -> value_head a = true.
Proof.
  destruct a as [[] [] [] [] [] [] [] []]; intros H; try discriminate H;
    reflexivity.
Qed.

Lemma dumps_head v :
  plain v = true -> head_is value_head (Json.dumps v) = true.
Proof.
  destruct v as [|b|z|x|s|l|d]; intros H; try discriminate H;
    try reflexivity.
  - destruct b; reflexivity.
  - cbn [Json.dumps]. destruct (of_Z_text z) as (ds & Ha & Hh & Hv & E).
    rewrite E. destruct (z <? 0); [reflexivity|].
    destruct (nonempty_digits ds Hh) as (a & t & -> & Hd).
    now apply digit_value_head.
Qed.

Lemma skip_ws_value s :
  head_is value_head s = true -> Json.skip_ws s = s.
Proof.
  destruct s as [|c s]; [reflexivity|]. cbn [head_is Json.skip_ws].
  unfold value_head. intros H.
  apply andb_true_iff in H. destruct H as [H _].
  apply andb_true_iff in H. destruct H as [H _].
  apply negb_true_iff in H. now rewrite H.
Qed.

Lemma head_is_app p s t :
  head_is p s = true -> head_is p (s ++ t) = true.
Proof. destruct s; [discriminate | auto]. Qed.

(** ** Arrays and objects read back *)

Lemma parse_elems_S fuel s :
  Json.parse_elems (S fuel) s
  = match Json.scan_once fuel s with
    | None => None
    | Some (v, s1) =>
        match Json.skip_ws s1 with
        | String d s2 =>
            if Ascii.eqb d "]" then Some ([v], s2)
            else if Ascii.eqb d "," then
              match Json.parse_elems fuel (Json.skip_ws s2) with
              | Some (l, r) => Some (v :: l, r)
              | None => None
              end
            else None
        | EmptyString => None
        end
    end.
Proof. reflexivity. Qed.

Lemma parse_members_S fuel q s1 acc :
  Json.parse_members (S fuel) (String q s1) acc
  = if Ascii.eqb q PyStr.dquote then
      match Json.scanstring s1 with
      | None => None
      | Some (key, s2) =>
          match Json.skip_ws s2 with
          | String c s3 =>
              if Ascii.eqb c ":" then
                match Json.scan_once fuel (Json.skip_ws s3) with
                | None => None
                | Some (v, s4) =>
                    let acc' := dict_set acc key v in
                    match Json.skip_ws s4 with
                    | String d s5 =>
                        if Ascii.eqb d "}" then Some (acc', s5)
                        else if Ascii.eqb d "," then
                          Json.parse_members fuel (Json.skip_ws s5) acc'
                        else None
                    | EmptyString => None
                    end
                end
              else None
          | EmptyString => None
          end
      end
    else None.
Proof. reflexivity. Qed.

Lemma join_cons sep p ps :
  PyStr.join sep (p :: ps)
  = match ps with
    | [] => p
    | _ => p ++ sep ++ PyStr.join sep ps
    end.
Proof. destruct ps; reflexivity. Qed.

Lemma parse_elems_join l :
  l <> [] ->
  Forall (fun v => plain v = true /\ reads_back v) l ->
  forall rest,
    exists fuel,
      Json.parse_elems fuel
        (PyStr.join ", " (map Json.dumps l) ++ "]" ++ rest)
      = Some (l, rest).
Proof.
  induction l as [|v l IH]; intros Hne Hall rest; [congruence|].
  inversion Hall as [|? ? [Hp Hv] Hall']. subst.
  cbn [map]. rewrite join_cons.
  destruct l as [|v' l'].
  - cbn [map].
    destruct (Hv ("]" ++ rest)) as [f Hf]; [reflexivity|].
    exists (S (S (String.length (Json.dumps v ++ "]" ++ rest)))).
    rewrite parse_elems_S.
    rewrite (scan_once_more _ _ _ _ Hf) by lia.
    reflexivity.
  - set (J := PyStr.join ", " (map Json.dumps (v' :: l'))) in *.
    cbn [map]. fold J.
    assert (HJ : head_is value_head (J ++ "]" ++ rest) = true).
    { apply head_is_app. unfold J. cbn [map]. rewrite join_cons.
      inversion Hall' as [|? ? [Hp' _] _]. subst.
      destruct (map Json.dumps l'); [|apply head_is_app];
        now apply dumps_head. }
    destruct (IH ltac:(discriminate) Hall' rest) as [f2 Hf2].
    rewrite !string_app_assoc.
    destruct (Hv (", " ++ J ++ "]" ++ rest)) as [f1 Hf1]; [reflexivity|].
    exists (S (S (String.length (Json.dumps v ++ ", " ++ J ++ "]" ++ rest)))).
    rewrite parse_elems_S.
    rewrite (scan_once_more _ _ _ _ Hf1) by lia.
    change (Json.skip_ws (", " ++ J ++ "]" ++ rest))
      with (String "," (String " " (J ++ "]" ++ rest))).
    change (Ascii.eqb "," "]") with false.
    change (Ascii.eqb "," ",") with true. cbv iota.
    change (Json.skip_ws (String " " (J ++ "]" ++ rest)))
      with (Json.skip_ws (J ++ "]" ++ rest)).
    rewrite (skip_ws_value _ HJ).
    rewrite (parse_elems_more _ _ _ _ Hf2); [reflexivity|].
    rewrite !string_app_length. simpl. lia.
Qed.


Lemma entry_text_head kv t :
  exists s1, entry_text kv ++ t = String PyStr.dquote s1.
Proof. destruct kv as [k x]. eexists. reflexivity. Qed.

Lemma entry_text_unfold k x t :
  entry_text (k, x) ++ t
  = String PyStr.dquote
      (String.concat "" (map Json.escape_ascii (Json.utf8_decode k))
       ++ PyStr.dq ++ String ":" (String " " (Json.dumps x ++ t))).
Proof.
  unfold entry_text, Json.encode_str. rewrite !string_app_assoc. reflexivity.
Qed.

Lemma entry_text_length k x t :
  (String.length (Json.dumps x ++ t) < String.length (entry_text (k, x) ++ t))%nat.
Proof.
  rewrite entry_text_unfold. cbn [String.length].
  rewrite !string_app_length. cbn [String.length].
  rewrite !string_app_length. lia.
Qed.

(** One entry read by the loop of the object parser, up to what follows
    its value. *)
Lemma parse_members_entry fuel k x t acc :
  all_chars is_ascii k = true ->
  head_is value_head (Json.dumps x) = true ->
  Json.scan_once fuel (Json.dumps x ++ t) = Some (x, t) ->
  Json.parse_members (S fuel) (entry_text (k, x) ++ t) acc
  = match Json.skip_ws t with
    | String d s5 =>
        if Ascii.eqb d "}" then Some (dict_set acc k x, s5)
        else if Ascii.eqb d "," then
          Json.parse_members fuel (Json.skip_ws s5) (dict_set acc k x)
        else None
    | EmptyString => None
    end.
Proof.
  intros Hk Hx Hf. rewrite entry_text_unfold, parse_members_S.
  change (Ascii.eqb PyStr.dquote PyStr.dquote) with true. cbv iota.
  rewrite scanstring_encoded by assumption.
  change (Json.skip_ws (String ":" (String " " (Json.dumps x ++ t))))
    with (String ":" (String " " (Json.dumps x ++ t))).
  change (Ascii.eqb ":" ":") with true. cbv iota.
  change (Json.skip_ws (String " " (Json.dumps x ++ t)))
    with (Json.skip_ws (Json.dumps x ++ t)).
  rewrite (skip_ws_value _ (head_is_app _ _ _ Hx)), Hf. reflexivity.
Qed.

Lemma parse_members_join d :
  d <> [] ->
  Forall (fun kv => all_chars is_ascii (fst kv) = true
                    /\ plain (snd kv) = true /\ reads_back (snd kv)) d ->
  forall acc rest,
    exists fuel,
      Json.parse_members fuel
        (PyStr.join ", " (map entry_text d) ++ "}" ++ rest) acc
      = Some (set_all d acc, rest).
Proof.
  induction d as [|[k x] d IH]; intros Hne Hall acc rest; [congruence|].
  inversion Hall as [|? ? (Hk & Hp & Hv) Hall']. subst.
  cbn [fst snd] in *.
  cbn [map]. rewrite join_cons.
  pose proof (dumps_head x Hp) as Hx.
  destruct d as [|kv' d'].
  - cbn [map].
    destruct (Hv ("}" ++ rest)) as [f Hf]; [reflexivity|].
    exists (S (S (String.length (entry_text (k, x) ++ "}" ++ rest)))).
    rewrite (parse_members_entry _ k x ("}" ++ rest) acc Hk Hx).
    + reflexivity.
    + apply (scan_once_more _ _ _ _ Hf).
      pose proof (entry_text_length k x ("}" ++ rest)). lia.
  - set (J := PyStr.join ", " (map entry_text (kv' :: d'))) in *.
    cbn [map]. fold J.
    destruct (IH ltac:(discriminate) Hall' (dict_set acc k x) rest)
      as [f2 Hf2].
    destruct (Hv (", " ++ J ++ "}" ++ rest)) as [f1 Hf1]; [reflexivity|].
    assert (HJ : exists s1, J ++ "}" ++ rest = String PyStr.dquote s1).
    { unfold J. cbn [map]. rewrite join_cons.
      destruct (map entry_text d').
      - apply entry_text_head.
      - rewrite string_app_assoc. apply entry_text_head. }
    destruct HJ as [sJ HJ].
    rewrite !string_app_assoc.
    pose proof (entry_text_length k x (", " ++ J ++ "}" ++ rest)) as Hlen.
    exists (S (S (String.length
                    (entry_text (k, x) ++ ", " ++ J ++ "}" ++ rest)))).
    rewrite (parse_members_entry _ k x (", " ++ J ++ "}" ++ rest) acc Hk Hx).
    + change (Json.skip_ws (", " ++ J ++ "}" ++ rest))
        with (String "," (String " " (J ++ "}" ++ rest))).
      change (Ascii.eqb "," "}") with false.
      change (Ascii.eqb "," ",") with true. cbv iota.
      change (Json.skip_ws (String " " (J ++ "}" ++ rest)))
        with (Json.skip_ws (J ++ "}" ++ rest)).
      assert (Es : Json.skip_ws (J ++ "}" ++ rest) = J ++ "}" ++ rest).
      { rewrite HJ. reflexivity. }
      rewrite Es.
      apply (parse_members_more _ _ _ _ _ Hf2).
      rewrite string_app_length in Hlen.
      cbn [String.length append] in Hlen |- *. lia.
    + apply (scan_once_more _ _ _ _ Hf1). lia.
Qed.

Lemma dict_set_fresh (acc : dict) k x :
  dict_get acc k = None -> dict_set acc k x = (acc ++ [(k, x)])%list.
Proof.
  induction acc as [|[k0 x0] acc IH]; cbn [dict_get dict_set app];
    [reflexivity|].
  destruct (String.eqb k0 k); [discriminate|].
  intros H. now rewrite IH.
Qed.

Lemma existsb_eqb_false k l :
  existsb (String.eqb k) l = false -> ~ In k l.
Proof.
  intros H Hin. assert (E : existsb (String.eqb k) l = true).
  { apply existsb_exists. exists k. split; [exact Hin | apply String.eqb_refl]. }
  congruence.
Qed.

Lemma set_all_distinct d : forall acc,
  distinct (map fst d) = true ->
  (forall k, In k (map fst d) -> dict_get acc k = None) ->
  set_all d acc = (acc ++ d)%list.
Proof.
  unfold set_all.
  induction d as [|[k x] d IH]; intros acc Hd Hacc; cbn [fold_left map fst snd].
  - now rewrite app_nil_r.
  - cbn [map fst distinct] in Hd. apply andb_true_iff in Hd.
    destruct Hd as [Hk Hd]. apply negb_true_iff in Hk.
    rewrite dict_set_fresh by (apply Hacc; simpl; auto).
    rewrite IH; [now rewrite <- app_assoc | exact Hd |].
    intros k' Hk'. apply dict_get_None. unfold dict_keys.
    rewrite map_app. cbn [map fst]. intros Hin. apply in_app_or in Hin.
    destruct Hin as [Hin|[E|[]]].
    + assert (Hn : dict_get acc k' = None) by (apply Hacc; simpl; auto).
      apply dict_get_None in Hn. contradiction.
    + subst k'. eapply existsb_eqb_false; eauto.
Qed.

Lemma scan_once_S fuel a s1 :
  Json.scan_once (S fuel) (String a s1)
  = if Ascii.eqb a PyStr.dquote then
      match Json.scanstring s1 with
      | Some (t, r) => Some (PStr t, r)
      | None => None
      end
    else if Ascii.eqb a "{" then
      match Json.skip_ws s1 with
      | String b r =>
          if Ascii.eqb b "}" then Some (PDict [], r)
          else match Json.parse_members fuel (Json.skip_ws s1) [] with
               | Some (d, r') => Some (PDict d, r')
               | None => None
               end
      | EmptyString => None
      end
    else if Ascii.eqb a "[" then
      match Json.skip_ws s1 with
      | String b r =>
          if Ascii.eqb b "]" then Some (PList [], r)
          else match Json.parse_elems fuel (Json.skip_ws s1) with
               | Some (l, r') => Some (PList l, r')
               | None => None
               end
      | EmptyString => None
      end
    else
      match Json.match_constant (String a s1) with
      | Some c => Some c
      | None => Json.match_number (String a s1)
      end.
Proof. reflexivity. Qed.

Lemma value_head_open s :
  head_is value_head s = true ->
  exists b r,
    s = String b r /\ Json.skip_ws s = s
    /\ Ascii.eqb b "]" = false /\ Ascii.eqb b "}" = false.
Proof.
  intros H. pose proof (skip_ws_value s H) as Es.
  destruct s as [|b r]; [discriminate|]. exists b, r.
  cbn [head_is] in H. unfold value_head in H.
  apply andb_true_iff in H. destruct H as [H H3].
  apply andb_true_iff in H. destruct H as [H1 H2].
  apply negb_true_iff in H2, H3. auto.
Qed.

Lemma drop_app w rest : Json.drop (String.length w) (w ++ rest) = rest.
Proof.
  unfold Json.drop. rewrite string_app_length.
  replace (String.length w + String.length rest - String.length w)%nat
    with (String.length rest) by lia.
  rewrite substring_app_right. apply substring_whole.
Qed.

Lemma prefix_app w rest : prefix w (w ++ rest) = true.
Proof. apply prefix_correct. apply substring_app_left. Qed.

Lemma scan_once_constant fuel rest :
  Json.scan_once (S fuel) ("null" ++ rest) = Some (PNone, rest)
  /\ Json.scan_once (S fuel) ("true" ++ rest) = Some (PBool true, rest)
  /\ Json.scan_once (S fuel) ("false" ++ rest) = Some (PBool false, rest).
Proof.
  pose proof (drop_app "null" rest) as D1.
  pose proof (drop_app "true" rest) as D2.
  pose proof (drop_app "false" rest) as D3.
  pose proof (prefix_app "null" rest) as P1.
  pose proof (prefix_app "true" rest) as P2.
  pose proof (prefix_app "false" rest) as P3.
  change (String.length "null") with 4%nat in D1.
  change (String.length "true") with 4%nat in D2.
  change (String.length "false") with 5%nat in D3.
  repeat split.
  - change ("null" ++ rest) with (String "n" ("ull" ++ rest)) in *.
    rewrite scan_once_S.
    change (Ascii.eqb "n" PyStr.dquote) with false.
    change (Ascii.eqb "n" "{") with false.
    change (Ascii.eqb "n" "[") with false. cbv iota.
    unfold Json.match_constant. rewrite P1, D1. reflexivity.
  - change ("true" ++ rest) with (String "t" ("rue" ++ rest)) in *.
    rewrite scan_once_S.
    change (Ascii.eqb "t" PyStr.dquote) with false.
    change (Ascii.eqb "t" "{") with false.
    change (Ascii.eqb "t" "[") with false. cbv iota.
    unfold Json.match_constant.
    change (prefix "null" (String "t" ("rue" ++ rest))) with false.
    cbv iota. rewrite P2, D2. reflexivity.
  - change ("false" ++ rest) with (String "f" ("alse" ++ rest)) in *.
    rewrite scan_once_S.
    change (Ascii.eqb "f" PyStr.dquote) with false.
    change (Ascii.eqb "f" "{") with false.
    change (Ascii.eqb "f" "[") with false. cbv iota.
    unfold Json.match_constant.
    change (prefix "null" (String "f" ("alse" ++ rest))) with false.
    change (prefix "true" (String "f" ("alse" ++ rest))) with false.
    cbv iota. rewrite P3, D3. reflexivity.
Qed.

Lemma plain_reads_back v : plain v = true -> reads_back v.
Proof.
  induction v as [|b|z|x|s|l IHl|d IHd] using pyvalue_nested_ind;
    intros Hp rest Hr.
  - exists 1%nat. apply scan_once_constant.
  - exists 1%nat. destruct b; apply scan_once_constant.
  - exists 1%nat. now apply scan_once_int.
  - discriminate.
  - exists 1%nat. now apply scan_once_str.
  - cbn [plain] in Hp. cbn [Json.dumps].
    destruct l as [|v l].
    + exists 1%nat. reflexivity.
    + assert (Hall : Forall (fun v => plain v = true /\ reads_back v) (v :: l)).
      { apply Forall_forall. intros y Hy. rewrite forallb_forall in Hp.
        rewrite Forall_forall in IHl. auto. }
      destruct (parse_elems_join (v :: l) ltac:(discriminate) Hall rest)
        as [f Hf].
      assert (Hh : head_is value_head
                     (PyStr.join ", " (map Json.dumps (v :: l)) ++ "]" ++ rest)
                   = true).
      { apply head_is_app. cbn [map]. rewrite join_cons.
        inversion Hall as [|? ? [Hv _] _]. subst.
        destruct (map Json.dumps l); [|apply head_is_app];
          now apply dumps_head. }
      destruct (value_head_open _ Hh) as (b & r & E & Ew & Hb & _).
      exists (S f). rewrite !string_app_assoc.
      change ("[" ++ ?t) with (String "[" t).
      rewrite scan_once_S.
      change (Ascii.eqb "[" PyStr.dquote) with false.
      change (Ascii.eqb "[" "{") with false.
      change (Ascii.eqb "[" "[") with true. cbv iota.
      rewrite Ew, Hf. rewrite E, Hb. reflexivity.
  - cbn [plain] in Hp. apply andb_true_iff in Hp. destruct Hp as [Hp Hd].
    cbn [Json.dumps].
    destruct d as [|[k x] d].
    + exists 1%nat. reflexivity.
    + assert (Hall : Forall (fun kv => all_chars is_ascii (fst kv) = true
                                       /\ plain (snd kv) = true
                                       /\ reads_back (snd kv)) ((k, x) :: d)).
      { apply Forall_forall. intros [k' x'] Hy. rewrite forallb_forall in Hp.
        rewrite Forall_forall in IHd.
        specialize (Hp _ Hy). specialize (IHd _ Hy). cbn [fst snd] in *.
        apply andb_true_iff in Hp. destruct Hp. auto. }
      destruct (parse_members_join ((k, x) :: d) ltac:(discriminate) Hall []
                  rest) as [f Hf].
      rewrite set_all_distinct in Hf; [|exact Hd | reflexivity].
      cbn [app] in Hf.
      change (fun kv : string * pyvalue =>
                let (k0, x0) := kv in
                Json.encode_str k0 ++ ": " ++ Json.dumps x0)
        with entry_text.
      destruct (entry_text_head (k, x)
                  (match map entry_text d with
                   | [] => ""
                   | _ => ", " ++ PyStr.join ", " (map entry_text d)
                   end ++ "}" ++ rest)) as [s1 Es].
      assert (E : PyStr.join ", " (map entry_text ((k, x) :: d)) ++ "}" ++ rest
                  = String PyStr.dquote s1).
      { rewrite <- Es. cbn [map]. rewrite join_cons.
        destruct (map entry_text d); rewrite ?string_app_assoc; reflexivity. }
      exists (S f). rewrite !string_app_assoc.
      change ("{" ++ ?t) with (String "{" t).
      rewrite scan_once_S.
      change (Ascii.eqb "{" PyStr.dquote) with false.
      change (Ascii.eqb "{" "{") with true. cbv iota.
      rewrite E.
      change (Json.skip_ws (String PyStr.dquote s1))
        with (String PyStr.dquote s1).
      change (Ascii.eqb PyStr.dquote "}") with false. cbv iota.
      rewrite <- E, Hf. reflexivity.
Qed.

Lemma loads_dumps_plain v :
  plain v = true -> Json.loads (Json.dumps v) = Some v.
Proof.
  intros Hp.
  destruct (plain_reads_back v Hp "" eq_refl) as [f Hf].
  rewrite string_app_nil_r in Hf.
  apply (loads_any_fuel f _ _ "").
  - now rewrite (skip_ws_value _ (dumps_head v Hp)).
  - reflexivity.
Qed.

(** X15. For a value without floats whose strings are ASCII and
    whose mappings have distinct keys, [json.loads] reads back from the
    text of [json.dumps] the value itself, also at the head of a longer
    text, with some fuel. *)
Theorem loads_inverts_dumps :
  forall (v : pyvalue),
    plain v = true ->
    Json.loads (Json.dumps v) = Some v
    /\ forall rest,
         head_is number_char rest = false ->
         exists fuel,
           Json.scan_once fuel (Json.dumps v ++ rest) = Some (v, rest).
Proof.
  intros v Hp. split; [now apply loads_dumps_plain|].
  exact (plain_reads_back v Hp).
Qed.

Lemma loads_inverts_dumps_witness :
  let v := PDict [("Name", PStr "Buy milk");
                  ("Tags", PList [PStr "home"; PInt (-3)]);
                  ("Done", PBool false)] in
  Json.loads (Json.dumps v) = Some v
  /\ forall rest,
       head_is number_char rest = false ->
       exists fuel,
         Json.scan_once fuel (Json.dumps v ++ rest) = Some (v, rest).
Proof.
  cbv zeta.
  apply (loads_inverts_dumps
           (PDict [("Name", PStr "Buy milk");
                   ("Tags", PList [PStr "home"; PInt (-3)]);
                   ("Done", PBool false)])).
  reflexivity.
Defined.

(** ** The text [json.dumps] gives has no fence and no white space around *)


Lemma last_is_app p s t : t <> "" -> last_is p (s ++ t) = last_is p t.
Proof.
  intros Ht. induction s as [|a s IH]; simpl; auto.
  rewrite IH. destruct (s ++ t) eqn:E; auto.
  destruct s; simpl in E; [congruence | discriminate].
Qed.

Lemma last_is_split p s :
  last_is p s = true -> exists t c, s = t ++ String c "" /\ p c = true.
Proof.
  induction s as [|a s IH]; [discriminate|].
  destruct s as [|b s].
  - intros H. exists "", a. auto.
  - intros H. destruct (IH H) as (t & c & E & Hc).
    exists (String a t), c. split; [|exact Hc].
    change (String a t ++ String c "") with (String a (t ++ String c "")).
    now rewrite <- E.
Qed.

Lemma edge_left a s :
  edge a = true -> PyStr.lstrip_with PyStr.space1 (String a s) = String a s.
Proof.
  destruct a as [[] [] [] [] [] [] [] []]; intros H; try discriminate H;
    destruct s as [|b [|c s]]; reflexivity.
Qed.

Lemma edge_right a s :
  edge a = true ->
  PyStr.lstrip_rev_with PyStr.space1 (String a s) = String a s.
Proof.
  intros H.
  assert (H2 : forall b, PyStr.space2 b a = false).
  { intros b. unfold PyStr.space2.
    destruct a as [[] [] [] [] [] [] [] []]; try discriminate H;
      apply andb_false_r. }
  assert (H3 : forall c b, PyStr.space3 c b a = false).
  { intros c b. unfold PyStr.space3. cbv zeta.
    destruct a as [[] [] [] [] [] [] [] []]; try discriminate H;
      cbn [PyStr.byte N_of_ascii N.eqb N.leb N.compare Pos.compare
           Pos.compare_cont Pos.eqb N.add N.mul Pos.add Pos.mul Pos.succ
           andb orb];
      rewrite ?andb_false_r; reflexivity. }
  assert (H1 : PyStr.space1 a = false).
  { unfold edge in H. apply andb_true_iff in H. destruct H as [H _].
    apply andb_true_iff in H. destruct H as [_ H].
    now apply negb_true_iff in H. }
  cbn [PyStr.lstrip_rev_with]. rewrite H1.
  destruct s as [|b [|c s]]; try reflexivity.
  - now rewrite H2.
  - now rewrite H2, H3.
Qed.

Lemma strip_edges s :
  head_is edge s = true -> last_is edge s = true -> PyStr.strip s = s.
Proof.
  intros Hh Hl. unfold PyStr.strip, PyStr.strip_with.
  destruct s as [|a s]; [discriminate|]. cbn [head_is] in Hh.
  rewrite (edge_left a s Hh).
  destruct (last_is_split _ _ Hl) as (t & c & E & Hc). rewrite E.
  rewrite rev_app.
  change (PyStr.rev (String c "") ++ PyStr.rev t) with (String c (PyStr.rev t)).
  rewrite (edge_right c _ Hc).
  change (String c (PyStr.rev t)) with (PyStr.rev (String c "") ++ PyStr.rev t).
  rewrite <- rev_app. apply rev_involutive.
Qed.

Lemma substring_split s : forall k,
  (k <= String.length s)%nat ->
  s = substring 0 k s ++ substring k (String.length s - k) s.
Proof.
  induction s as [|a s IH]; intros k Hk.
  - destruct k; reflexivity.
  - destruct k as [|k].
    + cbn [substring append String.length Nat.sub].
      now rewrite substring_whole.
    + cbn [String.length] in *. cbn [substring append Nat.sub].
      rewrite <- IH by lia. reflexivity.
Qed.

Lemma endswith_suffix s p :
  PyStr.endswith s p = true -> exists pre, s = pre ++ p.
Proof.
  unfold PyStr.endswith. intros H. apply andb_true_iff in H.
  destruct H as [Hle He]. apply Nat.leb_le in Hle. apply String.eqb_eq in He.
  exists (substring 0 (String.length s - String.length p) s).
  pose proof (substring_split s (String.length s - String.length p)
                ltac:(lia)) as E.
  replace (String.length s - (String.length s - String.length p))%nat
    with (String.length p) in E by lia.
  now rewrite He in E.
Qed.

Lemma no_fence s :
  head_is edge s = true -> last_is edge s = true -> strip_fences s = s.
Proof.
  intros Hh Hl. unfold strip_fences. rewrite (strip_edges s Hh Hl).
  assert (E1 : PyStr.startswith s "```json" = false
               /\ PyStr.startswith s "```" = false).
  { destruct s as [|a s]; [discriminate|]. cbn [head_is] in Hh.
    unfold PyStr.startswith. cbn [prefix].
    destruct (ascii_dec "`" a) as [E|E]; [|auto].
    subst a. discriminate Hh. }
  destruct E1 as [E1 E2]. rewrite E1, E2.
  assert (E3 : PyStr.endswith s "```" = false).
  { destruct (PyStr.endswith s "```") eqn:E; [|reflexivity].
    destruct (endswith_suffix _ _ E) as [pre Hs].
    rewrite Hs, last_is_app in Hl by discriminate. discriminate Hl. }
  rewrite E3. exact (strip_edges s Hh Hl).
Qed.

Lemma digit_edge a : Dec.is_digit a = true -> edge a = true.
Proof.
  destruct a as [[] [] [] [] [] [] [] []]; intros H; try discriminate H;
    reflexivity.
Qed.

Lemma last_is_all p s :
  s <> "" -> all_chars p s = true -> last_is p s = true.
Proof.
  induction s as [|a s IH]; intros Hne Ha; [congruence|].
  cbn [all_chars] in Ha. apply andb_true_iff in Ha. destruct Ha as [Ha1 Ha2].
  destruct s as [|b s]; [exact Ha1|].
  change (last_is p (String b s) = true). apply IH; auto. discriminate.
Qed.

Lemma all_chars_impl (p q : ascii -> bool) s :
  (forall c, p c = true -> q c = true) ->
  all_chars p s = true -> all_chars q s = true.
Proof.
  intros Hpq. induction s as [|a s IH]; cbn [all_chars]; [auto|].
  intros H. apply andb_true_iff in H. destruct H as [H1 H2].
  rewrite (Hpq _ H1), IH; auto.
Qed.

Lemma dumps_edges v :
  plain v = true ->
  head_is edge (Json.dumps v) = true /\ last_is edge (Json.dumps v) = true.
Proof.
  destruct v as [|b|z|x|s|l|d]; intros H; try discriminate H.
  - split; reflexivity.
  - destruct b; split; reflexivity.
  - cbn [Json.dumps]. destruct (of_Z_text z) as (ds & Ha & Hh & Hv & E).
    rewrite E. destruct (nonempty_digits ds Hh) as (a & t & Eds & Hd).
    assert (Hl : last_is edge ds = true).
    { apply last_is_all; [rewrite Eds; discriminate|].
      eapply all_chars_impl; [exact digit_edge | exact Ha]. }
    destruct (z <? 0).
    + split; [reflexivity|].
      change (String "-" ds) with ("-" ++ ds).
      rewrite last_is_app; [exact Hl | rewrite Eds; discriminate].
    + split; [|exact Hl]. rewrite Eds. now apply digit_edge.
  - cbn [Json.dumps]. unfold Json.encode_str. split; [reflexivity|].
    rewrite last_is_app by (apply app_nonempty_r; discriminate).
    rewrite last_is_app by discriminate. reflexivity.
  - cbn [Json.dumps]. split; [reflexivity|].
    rewrite last_is_app by (apply app_nonempty_r; discriminate).
    rewrite last_is_app by discriminate. reflexivity.
  - cbn [Json.dumps]. split; [reflexivity|].
    rewrite last_is_app by (apply app_nonempty_r; discriminate).
    rewrite last_is_app by discriminate. reflexivity.
Qed.

Lemma validate_dumps p schema :
  plain p = true ->
  validate_and_fix_json (Json.dumps p) schema = coerce_properties p schema.
Proof.
  intros Hp. unfold validate_and_fix_json.
  destruct (dumps_edges p Hp) as [Hh Hl].
  rewrite (no_fence _ Hh Hl). unfold parse_or_recover.
  now rewrite (loads_dumps_plain p Hp).
Qed.

(** X16. When the content parses to a mapping with a truthy
    [message] and a truthy [properties] entry without floats, its strings
    ASCII, the passage through [json.dumps] and back changes nothing: the
    entry is replaced by the coercion of the entry itself.  An entry that
    is no mapping (a string, a list) makes the flow raise the
    [AttributeError] of [data.items()]. *)
Theorem chat_properties_are_coerced_directly :
  forall (schema : schema_t) (g : generated) (d : dict) (p : pyvalue),
    Json.loads (content g) = Some (PDict d) ->
    dict_truthy d "message" = true ->
    dict_get d "properties" = Some p ->
    truthy p = true ->
    plain p = true ->
    chat_analyze_text_with_ai schema (Ok g)
    = bind (coerce_properties p schema)
        (fun validated =>
           Ok (PDict (with_metadata g
                        (dict_set d "properties" (PDict validated)))))
    /\ (is_dict p = false ->
        chat_analyze_text_with_ai schema (Ok g)
        = Raise (Builtin.no_attribute p "items")).
Proof.
  intros schema g d p Hl Hm Hd Ht Hp.
  assert (E : chat_analyze_text_with_ai schema (Ok g)
              = bind (coerce_properties p schema)
                  (fun validated =>
                     Ok (PDict (with_metadata g
                                  (dict_set d "properties"
                                     (PDict validated)))))).
  { destruct (loads_mapping_response _ _ Hl) as (d0 & Hd0 & _ & Hsame & _).
    assert (Hne : d <> []) by (intros ->; discriminate).
    rewrite (Hsame Hne) in Hd0.
    destruct (chat_on_mapping schema g d Hd0) as (d1 & d2 & H1 & H2 & Hc).
    destruct (ensure_message_dict d) as (d1' & H1' & _ & _ & Hkeep & _).
    rewrite H1 in H1'. inversion H1'. subst d1'.
    rewrite (Hkeep Hm) in *.
    destruct (lift_properties_dict d schema) as (d2' & H2' & Hnoop & _).
    rewrite H2 in H2'. inversion H2'. subst d2'.
    rewrite Hnoop in Hc by (unfold dict_has; now rewrite Hd).
    rewrite Hc. unfold dict_truthy. rewrite Hd, Ht.
    now rewrite validate_dumps. }
  split; [exact E|].
  intros Hn. rewrite E. unfold coerce_properties.
  destruct p; try discriminate Hn; reflexivity.
Qed.

Lemma chat_properties_are_coerced_directly_witness :
  let text := "{" ++ PyStr.dq ++ "message" ++ PyStr.dq ++ ": " ++ PyStr.dq
              ++ "hi" ++ PyStr.dq ++ ", " ++ PyStr.dq ++ "properties"
              ++ PyStr.dq ++ ": " ++ PyStr.dq ++ "none" ++ PyStr.dq ++ "}" in
  let g := mk_generated text (PDict []) (PInt 0) (PStr "m") in
  let d := [("message", PStr "hi"); ("properties", PStr "none")] in
  chat_analyze_text_with_ai [("Status", mk_field "select" [])] (Ok g)
  = bind (coerce_properties (PStr "none") [("Status", mk_field "select" [])])
      (fun validated =>
         Ok (PDict (with_metadata g
                      (dict_set d "properties" (PDict validated)))))
  /\ (is_dict (PStr "none") = false ->
      chat_analyze_text_with_ai [("Status", mk_field "select" [])] (Ok g)
      = Raise (Builtin.no_attribute (PStr "none") "items")).
Proof.
  cbv zeta.
  apply (chat_properties_are_coerced_directly
           [("Status", mk_field "select" [])]
           (mk_generated
              ("{" ++ PyStr.dq ++ "message" ++ PyStr.dq ++ ": " ++ PyStr.dq
               ++ "hi" ++ PyStr.dq ++ ", " ++ PyStr.dq ++ "properties"
               ++ PyStr.dq ++ ": " ++ PyStr.dq ++ "none" ++ PyStr.dq ++ "}")
              (PDict []) (PInt 0) (PStr "m"))
           [("message", PStr "hi"); ("properties", PStr "none")]
           (PStr "none")); reflexivity.
Defined.

(** ** The schema summary of the prompts *)

Lemma option_names_raw names :
  Prompt.map_result (fun o => Builtin.getitem o "name")
    (map (fun n => PDict [("name", PStr n)]) names)
  = Ok (map PStr names).
Proof.
  induction names as [|n names IH]; [reflexivity|].
  cbn [map Prompt.map_result]. rewrite IH. reflexivity.
Qed.

Lemma schema_entry_raw f :
  Prompt.schema_entry (raw_field f) = Ok (PStr (describe f))
  /\ Prompt.chat_schema_entry (raw_field f) = Ok (Some (PStr (describe f))).
Proof.
  destruct f as [t names]. unfold raw_field, describe, has_options.
  cbn [ftype options].
  destruct (String.eqb_spec t "select") as [->|Hs].
  - unfold Prompt.schema_entry, Prompt.chat_schema_entry, Prompt.option_names.
    cbn. rewrite option_names_raw. split; reflexivity.
  - destruct (String.eqb_spec t "multi_select") as [->|Hm].
    + unfold Prompt.schema_entry, Prompt.chat_schema_entry,
        Prompt.option_names.
      cbn. rewrite option_names_raw. split; reflexivity.
    + apply String.eqb_neq in Hs, Hm.
      unfold Prompt.schema_entry, Prompt.chat_schema_entry.
      cbn [orb Builtin.getitem dict_get dict_has bind Builtin.eq_str].
      change (String.eqb "type" "type") with true. cbv iota.
      cbn [bind Builtin.eq_str]. rewrite Hs, Hm. cbn [andb].
      rewrite string_app_nil_r. split; reflexivity.
Qed.

Lemma schema_info_raw schema : forall info,
  Prompt.schema_info (raw_schema schema) info
  = Ok (fold_left (fun d kv => dict_set d (fst kv) (snd kv))
          (map (fun kf => (fst kf, PStr (describe (snd kf)))) schema) info)
  /\ Prompt.chat_schema_info (raw_schema schema) info
     = Ok (fold_left (fun d kv => dict_set d (fst kv) (snd kv))
             (map (fun kf => (fst kf, PStr (describe (snd kf)))) schema) info).
Proof.
  induction schema as [|[k f] schema IH]; intros info.
  - split; reflexivity.
  - cbn [raw_schema map fst snd Prompt.schema_info Prompt.chat_schema_info
         fold_left].
    destruct (schema_entry_raw f) as [E1 E2]. rewrite E1, E2. cbn [bind].
    apply IH.
Qed.

(** X17. For a schema in the form of the database API, the schema
    summary of [construct_prompt] and that of the conversational prompts
    return the same mapping: under each field its type, followed for a
    select or multi-select by the names of its options. *)
Theorem schema_summary_of_database_schema :
  forall (schema : schema_t),
    Prompt.schema_info (raw_schema schema) [] = Ok (described schema)
    /\ Prompt.chat_schema_info (raw_schema schema) [] = Ok (described schema)
    /\ forall k f,
         NoDup (dict_keys schema) -> In (k, f) schema ->
         dict_get (described schema) k = Some (PStr (describe f)).
Proof.
  intros schema. unfold described, dict_of_pairs.
  destruct (schema_info_raw schema []) as [E1 E2].
  split; [exact E1|]. split; [exact E2|].
  intros k f Hnd Hin.
  assert (G : forall l (acc : dict),
             NoDup (map fst l) -> In (k, f) l ->
             dict_get (fold_left (fun d kv => dict_set d (fst kv) (snd kv))
                         (map (fun kf : string * field =>
                                 (fst kf, PStr (describe (snd kf)))) l) acc) k
             = Some (PStr (describe f))).
  { clear. induction l as [|[k0 f0] l IH]; intros acc Hnd Hin; [destruct Hin|].
    cbn [map fst snd fold_left]. inversion Hnd as [|? ? Hnot Hnd']. subst.
    destruct Hin as [Hin|Hin].
    - inversion Hin. subst k0 f0.
      assert (K : forall l' (acc' : dict) (x : pyvalue),
                 ~ In k (map fst l') ->
                 dict_get acc' k = Some x ->
                 dict_get (fold_left
                             (fun d kv => dict_set d (fst kv) (snd kv))
                             (map (fun kf : string * field =>
                                     (fst kf, PStr (describe (snd kf)))) l')
                             acc') k = Some x).
      { clear. induction l' as [|[k1 f1] l' IH']; intros acc' x Hn Hg;
          [exact Hg|].
        cbn [map fst snd fold_left]. apply IH'.
        - intros H. apply Hn. simpl. auto.
        - rewrite dict_get_set_other; [exact Hg|].
          intros ->. apply Hn. simpl. auto. }
      apply K; [exact Hnot | apply dict_get_set_same].
    - now apply IH. }
  now apply G.
Qed.

Lemma schema_info_raises items : forall info k v e,
  In (k, v) items ->
  Prompt.schema_entry v = Raise e ->
  exists e', Prompt.schema_info items info = Raise e'.
Proof.
  induction items as [|[k0 v0] items IH]; intros info k v e Hin He;
    [destruct Hin|].
  cbn [Prompt.schema_info].
  destruct (Prompt.schema_entry v0) as [x|e0] eqn:E0; cbn [bind].
  - destruct Hin as [Hin|Hin].
    + inversion Hin. subst. congruence.
    + eapply IH; eauto.
  - eauto.
Qed.

(** X18. For a field of type select or multi-select without the
    entry of that name, the summary of [construct_prompt] raises
    [KeyError] where the summary of the conversational prompts gives the
    type alone; and since the prompt is built before the [try] statement,
    [analyze_text_with_ai] raises on every schema with such a field,
    whatever the model executor does. *)
Theorem single_shot_needs_the_options :
  forall (d : dict) (kind : string),
    dict_get d "type" = Some (PStr kind) ->
    has_options kind = true ->
    dict_has d kind = false ->
    Prompt.schema_entry (PDict d) = Raise (mk_exn KeyError (repr_str kind))
    /\ Prompt.chat_schema_entry (PDict d) = Ok (Some (PStr kind))
    /\ forall text schema k recent_examples system_prompt selected_model
              generate_json,
         In (k, PDict d) schema ->
         exists e,
           Prompt.analyze_text_with_ai text schema recent_examples
             system_prompt selected_model generate_json = Raise e.
Proof.
  intros d kind Ht Hk Hd.
  assert (E1 : Prompt.schema_entry (PDict d)
               = Raise (mk_exn KeyError (repr_str kind))).
  { unfold Prompt.schema_entry, Prompt.option_names, Builtin.getitem.
    rewrite Ht. cbn [bind Builtin.eq_str].
    unfold has_options in Hk. unfold dict_has in Hd.
    destruct (dict_get d kind) eqn:Eg; [discriminate|].
    destruct (String.eqb_spec kind "select") as [->|Hs].
    - rewrite Eg. reflexivity.
    - cbn [orb] in Hk. apply String.eqb_eq in Hk. subst kind.
      cbn [bind]. rewrite Eg. reflexivity. }
  split; [exact E1|]. split.
  - unfold Prompt.chat_schema_entry, Builtin.getitem.
    assert (Hty : dict_has d "type" = true)
      by (unfold dict_has; now rewrite Ht).
    rewrite Hty, Ht. cbn [bind Builtin.eq_str].
    unfold has_options in Hk.
    destruct (String.eqb_spec kind "select") as [->|Hs].
    + rewrite Hd. reflexivity.
    + cbn [orb] in Hk. apply String.eqb_eq in Hk. subst kind.
      rewrite Hd. reflexivity.
  - intros text schema k recent_examples system_prompt selected_model
      generate_json Hin.
    destruct (schema_info_raises schema [] k (PDict d) _ Hin E1) as [e He].
    exists e. unfold Prompt.analyze_text_with_ai, Prompt.construct_prompt.
    rewrite He. reflexivity.
Qed.

Lemma single_shot_needs_the_options_witness :
  Prompt.schema_entry (PDict [("type", PStr "select")])
  = Raise (mk_exn KeyError (repr_str "select"))
  /\ Prompt.chat_schema_entry (PDict [("type", PStr "select")])
     = Ok (Some (PStr "select"))
  /\ forall text schema k recent_examples system_prompt selected_model
            generate_json,
       In (k, PDict [("type", PStr "select")]) schema ->
       exists e,
         Prompt.analyze_text_with_ai text schema recent_examples
           system_prompt selected_model generate_json = Raise e.
Proof.
  apply (single_shot_needs_the_options [("type", PStr "select")] "select");
    reflexivity.
Defined.

(** ** The single-shot flow on a database schema *)

Lemma typed_raw schema : Prompt.typed (raw_schema schema) = forget_options schema.
Proof.
  unfold Prompt.typed, raw_schema, forget_options. rewrite map_map.
  apply map_ext. intros [k [t names]]. reflexivity.
Qed.

Lemma dict_get_forget schema k :
  dict_get (forget_options schema) k
  = option_map (fun f => mk_field (ftype f) []) (dict_get schema k).
Proof.
  induction schema as [|[k0 f0] schema IH]; [reflexivity|].
  cbn [forget_options map fst snd dict_get].
  destruct (String.eqb k0 k); [reflexivity | exact IH].
Qed.

Lemma coerce_items_forget schema items : forall validated,
  coerce_items (forget_options schema) items validated
  = coerce_items schema items validated.
Proof.
  induction items as [|[k v] items IH]; intros validated; [reflexivity|].
  cbn [coerce_items]. rewrite dict_get_forget.
  destruct (dict_get schema k) as [f|]; cbn [option_map ftype]; [|apply IH].
  destruct (coerce_value (ftype f) v) as [r|e]; cbn [bind]; [apply IH|].
  reflexivity.
Qed.

Lemma fallback_forget text schema :
  fallback_properties text (forget_options schema)
  = fallback_properties text schema.
Proof.
  induction schema as [|[k f] schema IH]; [reflexivity|].
  cbn [forget_options map fst snd fallback_properties ftype].
  destruct (String.eqb (ftype f) "title"); [reflexivity | exact IH].
Qed.

Lemma analyze_forget text schema selected_model outcome :
  analyze_text_with_ai text (forget_options schema) selected_model outcome
  = analyze_text_with_ai text schema selected_model outcome.
Proof.
  unfold analyze_text_with_ai. rewrite fallback_forget.
  destruct outcome as [g|e]; [|reflexivity]. cbn [bind].
  assert (E : validate_and_fix_json (content g) (forget_options schema)
              = validate_and_fix_json (content g) schema).
  { unfold validate_and_fix_json, coerce_properties.
    destruct (parse_or_recover (strip_fences (content g))) as [data|];
      [|reflexivity].
    destruct (Builtin.items data); cbn [bind]; [|reflexivity].
    apply coerce_items_forget. }
  now rewrite E.
Qed.

(** X19. For a schema in the form of the database API and examples
    whose lines can be written, [construct_prompt] returns the prompt
    around the schema summary, the example lines and the input text, and
    [analyze_text_with_ai] from its arguments is the flow behind the
    prompt on the typed schema, the executor being given that prompt. *)
Theorem single_shot_on_database_schema :
  forall (text : string) (schema : schema_t) (recent_examples : list pyvalue)
         (system_prompt selected_model : string)
         (generate_json : string -> result generated) (examples : string),
    Prompt.examples_text recent_examples "" = Ok examples ->
    let prompt := prompt_text text system_prompt (described schema) examples in
    Prompt.construct_prompt text (raw_schema schema) recent_examples
      system_prompt = Ok prompt
    /\ Prompt.analyze_text_with_ai text (raw_schema schema) recent_examples
         system_prompt selected_model generate_json
       = analyze_text_with_ai text schema selected_model
           (generate_json prompt).
Proof.
  intros text schema recent_examples system_prompt selected_model
    generate_json examples Hex prompt.
  assert (E : Prompt.construct_prompt text (raw_schema schema) recent_examples
                system_prompt = Ok prompt).
  { unfold Prompt.construct_prompt.
    destruct (schema_info_raw schema []) as [E _].
    rewrite E, Hex. reflexivity. }
  split; [exact E|].
  unfold Prompt.analyze_text_with_ai. rewrite E. cbn [bind].
  rewrite typed_raw. apply analyze_forget.
Qed.

Lemma single_shot_on_database_schema_witness :
  let schema := [("Name", mk_field "title" []);
                 ("Status", mk_field "select" ["To Do"; "Done"])] in
  let page := [("Name", PageTitle ["Buy "; "milk"]);
               ("Status", PageSelect None)] in
  let generate_json := fun _ : string =>
                         Ok (mk_generated status_done (PDict []) (PInt 0)
                               (PStr "m")) in
  let prompt := prompt_text "Call mum" "You file tasks." (described schema)
                  (page_line page) in
  Prompt.construct_prompt "Call mum" (raw_schema schema) [raw_page page]
    "You file tasks." = Ok prompt
  /\ Prompt.analyze_text_with_ai "Call mum" (raw_schema schema)
       [raw_page page] "You file tasks." "m" generate_json
     = analyze_text_with_ai "Call mum" schema "m" (generate_json prompt).
Proof.
  cbv zeta.
  apply (single_shot_on_database_schema "Call mum"
           [("Name", mk_field "title" []);
            ("Status", mk_field "select" ["To Do"; "Done"])]
           [raw_page [("Name", PageTitle ["Buy "; "milk"]);
                      ("Status", PageSelect None)]]
           "You file tasks." "m"
           (fun _ : string =>
              Ok (mk_generated status_done (PDict []) (PInt 0) (PStr "m")))
           (page_line [("Name", PageTitle ["Buy "; "milk"]);
                       ("Status", PageSelect None)])).
  vm_compute. reflexivity.
Defined.

(** ** The examples of the prompt *)

Lemma plain_text_segments segments :
  Prompt.map_result (fun t => Builtin.get t "plain_text" (PStr ""))
    (map (fun s => PDict [("plain_text", PStr s)]) segments)
  = Ok (map PStr segments).
Proof.
  induction segments as [|s segments IH]; [reflexivity|].
  cbn [map Prompt.map_result]. rewrite IH. reflexivity.
Qed.

Lemma join_strings segments : forall i,
  Builtin.join_from i (map PStr segments) = Ok (String.concat "" segments).
Proof.
  induction segments as [|s segments IH]; intros i; [reflexivity|].
  cbn [map Builtin.join_from]. rewrite IH, concat_empty_cons. reflexivity.
Qed.

Lemma names_of_options names :
  Prompt.map_result (fun o => Builtin.get o "name" PNone)
    (map (fun n => PDict [("name", PStr n)]) names)
  = Ok (map PStr names).
Proof.
  induction names as [|n names IH]; [reflexivity|].
  cbn [map Prompt.map_result]. rewrite IH. reflexivity.
Qed.

Lemma simple_value_raw p :
  well_kinded p = true -> Prompt.simple_value (raw_property p) = Ok (shown p).
Proof.
  destruct p as [segments|segments|name|names|start|checked|kind value];
    intros Hk.
  - unfold Prompt.simple_value, Prompt.joined_text. cbn.
    rewrite plain_text_segments. cbn [bind]. unfold Builtin.join.
    rewrite join_strings. reflexivity.
  - unfold Prompt.simple_value, Prompt.joined_text. cbn.
    rewrite plain_text_segments. cbn [bind]. unfold Builtin.join.
    rewrite join_strings. reflexivity.
  - destruct name; reflexivity.
  - unfold Prompt.simple_value. cbn. rewrite names_of_options. reflexivity.
  - destruct start; reflexivity.
  - reflexivity.
  - cbn [well_kinded] in Hk. apply negb_true_iff in Hk.
    unfold shown_kind in Hk. cbn [existsb] in Hk.
    repeat (apply orb_false_iff in Hk; destruct Hk as [? Hk]).
    unfold Prompt.simple_value. cbn [raw_property Builtin.get dict_get bind].
    change (String.eqb "type" "type") with true. cbv iota.
    cbn [bind Builtin.eq_str].
    repeat match goal with
           | H : String.eqb kind _ = false |- _ => rewrite H; clear H
           end.
    reflexivity.
Qed.

Lemma simple_props_raw properties : forall acc,
  forallb (fun kp => well_kinded (snd kp)) properties = true ->
  Prompt.simple_props
    (map (fun kp => (fst kp, raw_property (snd kp))) properties) acc
  = Ok (fold_left (fun d kv => dict_set d (fst kv) (snd kv))
          (map (fun kp => (fst kp, shown (snd kp))) properties) acc).
Proof.
  induction properties as [|[k p] properties IH]; intros acc H;
    [reflexivity|].
  cbn [forallb snd] in H. apply andb_true_iff in H. destruct H as [Hp H].
  cbn [map fst snd Prompt.simple_props fold_left].
  rewrite (simple_value_raw p Hp). cbn [bind]. now apply IH.
Qed.

Lemma examples_text_pages pages : forall acc,
  forallb (forallb (fun kp => well_kinded (snd kp))) pages = true ->
  Prompt.examples_text (map raw_page pages) acc
  = Ok (acc ++ String.concat "" (map page_line pages)).
Proof.
  induction pages as [|page pages IH]; intros acc H.
  - cbn. now rewrite string_app_nil_r.
  - cbn [forallb] in H. apply andb_true_iff in H. destruct H as [Hp H].
    cbn [map Prompt.examples_text]. unfold raw_page at 1.
    cbn [Builtin.get dict_get]. change (String.eqb "properties" "properties")
      with true. cbv iota. cbn [bind Builtin.items].
    rewrite (simple_props_raw page [] Hp). cbn [bind].
    rewrite (IH _ H). rewrite concat_empty_cons.
    unfold page_line at 2, dict_of_pairs.
    rewrite !string_app_assoc. reflexivity.
Qed.

(** X20. For pages in the form of the database API the examples of
    the prompt are one line for each page, the JSON text of its
    properties in short form: the joined text of a title or rich text,
    the name of a select or [null], the names of a multi-select, the start
    of a date or [null], the truth value of a checkbox, and [N/A] for a
    property of another kind. *)
Theorem examples_show_the_pages :
  forall (pages : list (list (string * page_property))),
    forallb (forallb (fun kp => well_kinded (snd kp))) pages = true ->
    Prompt.examples_text (map raw_page pages) ""
    = Ok (String.concat "" (map page_line pages))
    /\ forall page k p,
         In page pages -> In (k, p) page ->
         Prompt.simple_value (raw_property p) = Ok (shown p).
Proof.
  intros pages H. split.
  - now rewrite examples_text_pages.
  - intros page k p Hpage Hp. apply simple_value_raw.
    rewrite forallb_forall in H. specialize (H _ Hpage).
    rewrite forallb_forall in H. exact (H _ Hp).
Qed.

Lemma examples_show_the_pages_witness :
  Prompt.examples_text
    (map raw_page [[("Name", PageTitle ["Buy "; "milk"]);
                    ("Status", PageSelect None);
                    ("Owner", PageOther "people" (PList []))]]) ""
  = Ok (String.concat ""
          (map page_line [[("Name", PageTitle ["Buy "; "milk"]);
                           ("Status", PageSelect None);
                           ("Owner", PageOther "people" (PList []))]]))
  /\ forall page k p,
       In page [[("Name", PageTitle ["Buy "; "milk"]);
                 ("Status", PageSelect None);
                 ("Owner", PageOther "people" (PList []))]] ->
       In (k, p) page ->
       Prompt.simple_value (raw_property p) = Ok (shown p).
Proof.
  apply (examples_show_the_pages
           [[("Name", PageTitle ["Buy "; "milk"]);
             ("Status", PageSelect None);
             ("Owner", PageOther "people" (PList []))]]).
  reflexivity.
Defined.

(** ** The flows under the limits of the interpreter *)

Lemma find_from_present c s : forall i,
  0 <= i -> PyStr.find_from s (String c "") i = -1 -> PyStr.occurs c s = false.
Proof.
  induction s as [|a s IH]; intros i Hi; cbn [PyStr.find_from prefix PyStr.occurs].
  - reflexivity.
  - destruct (ascii_dec c a) as [E|E].
    + assert (Hp : prefix "" s = true) by (destruct s; reflexivity).
      rewrite Hp. lia.
    + intros H. rewrite (IH (i + 1)) by (lia || assumption).
      destruct (Ascii.eqb_spec a c); [congruence | reflexivity].
Qed.

Lemma retry_needs_opening s :
  PyStr.find s "{" = -1 -> Json.loads (Decoding.brace_part s) = None.
Proof.
  intros H. apply recovery_needs_braces. left.
  apply (find_from_present "{" s 0); [lia | exact H].
Qed.

Lemma loads_decoded py s v :
  Limits.loads py s = Limits.Decoded v -> Json.loads s = Some v.
Proof. intros H. apply returns_decoded in H. apply H. Qed.

Lemma loads_within_limits s :
  Limits.loads Limits.within_limits s
  = match Json.loads s with
    | Some v => Limits.Decoded v
    | None => Limits.Malformed
    end.
Proof. reflexivity. Qed.

(** The retry of [validate_and_fix_json]: the test on the two indices
    changes nothing, for without an opening brace the slice is no JSON. *)
Lemma parse_or_recover_retry py s :
  Limits.loads py s = Limits.Malformed ->
  Limits.parse_or_recover py s
  = match Limits.loads py (Decoding.brace_part s) with
    | Limits.Decoded data => Ok (Some data)
    | _ => Ok None
    end.
Proof.
  intros Hl. unfold Limits.parse_or_recover, Decoding.brace_part.
  rewrite Hl. cbv zeta.
  destruct (Z.eqb_spec (PyStr.find s "{") (-1)) as [E|E]; cbn [negb andb].
  - destruct (Limits.loads py (PyStr.slice s _ _)) as [v| |e] eqn:Er;
      try reflexivity.
    apply loads_decoded in Er.
    pose proof (retry_needs_opening s E) as Hn.
    unfold Decoding.brace_part in Hn. rewrite Hn in Er. discriminate.
  - destruct (Z.eqb_spec (PyStr.rfind s "}" + 1) (-1)) as [E'|E'].
    + exfalso.
      destruct (rfind_char "}" s) as [H|[H _]];
        change (String "}" "") with "}" in H; lia.
    + cbn [negb]. destruct (Limits.loads py (PyStr.slice s _ _)); reflexivity.
Qed.

Lemma not_returns py s :
  (forall data, ~ Decoding.returns py s data) ->
  forall data, Limits.loads py s <> Limits.Decoded data.
Proof. intros H data Hl. apply (H data). now apply returns_decoded. Qed.

Lemma parse_or_recover_parsed py s data :
  Decoding.parsed py s data <-> Limits.parse_or_recover py s = Ok (Some data).
Proof.
  unfold Decoding.parsed. split.
  - intros [H|[Hf H]].
    + apply returns_decoded in H. unfold Limits.parse_or_recover.
      now rewrite H.
    + apply fails_malformed in Hf. apply returns_decoded in H.
      rewrite (parse_or_recover_retry py s Hf), H. reflexivity.
  - destruct (Limits.loads py s) as [v| |e] eqn:El.
    + unfold Limits.parse_or_recover. rewrite El. intros H. inversion H.
      subst v. left. now apply returns_decoded.
    + rewrite (parse_or_recover_retry py s El).
      destruct (Limits.loads py (Decoding.brace_part s)) as [v| |e] eqn:Er;
        try discriminate.
      intros H. inversion H. subst v. right. split.
      * now apply fails_malformed.
      * now apply returns_decoded.
    + unfold Limits.parse_or_recover. rewrite El. discriminate.
Qed.

Lemma parse_or_recover_raises py s e :
  Limits.parse_or_recover py s = Raise e <-> Decoding.gives_up py s e.
Proof.
  rewrite gives_up_given_up. unfold Limits.parse_or_recover.
  destruct (Limits.loads py s) as [v| |e0].
  - split; discriminate.
  - split; [|discriminate].
    destruct (_ && _); [|discriminate].
    destruct (Limits.loads py (PyStr.slice s _ _)); discriminate.
  - split; intros H; inversion H; reflexivity.
Qed.

Lemma validate_by_cases py json_str schema :
  Limits.validate_and_fix_json py json_str schema
  = match Limits.parse_or_recover py (strip_fences json_str) with
    | Ok (Some (PDict d)) => coerce_items schema d []
    | Ok (Some data) => Raise (Builtin.no_attribute data "items")
    | Ok None => Ok []
    | Raise e => Raise e
    end.
Proof.
  unfold Limits.validate_and_fix_json.
  destruct (Limits.parse_or_recover py (strip_fences json_str))
    as [[data|]|e]; cbn [bind]; try reflexivity.
  destruct data; reflexivity.
Qed.

(** X2. [validate_and_fix_json] raises in three cases, and in no other.
    [json.loads] raises on the cleaned text another exception than
    [JSONDecodeError] (the interpreter gives up), which is passed on; or
    the parsed value is no mapping, and the exception is the
    [AttributeError] of [data.items()]; or the loop over the mapping
    raises.  The loop raises what the rule of a schema field raises on its
    candidate, which is an integer under a number field ([OverflowError])
    or a list under a title or rich-text field ([TypeError] or
    [AttributeError]). *)
Theorem coercion_raises_only_on :
  forall (py : Limits.interpreter) (json_str : string) (schema : schema_t)
         (e : exn),
    let cleaned := strip_fences json_str in
    (Limits.validate_and_fix_json py json_str schema = Raise e
     <-> Decoding.gives_up py cleaned e
         \/ (exists data,
                Decoding.parsed py cleaned data
                /\ is_dict data = false
                /\ e = Builtin.no_attribute data "items")
         \/ (exists d,
                Decoding.parsed py cleaned (PDict d)
                /\ coerce_items schema d [] = Raise e))
    /\ (forall d,
           coerce_items schema d [] = Raise e ->
           exists k v f,
             In (k, v) d
             /\ dict_get schema k = Some f
             /\ coerce_value (ftype f) v = Raise e
             /\ ((ftype f = "number" /\ (exists z, v = PInt z)
                  /\ exn_cls e = OverflowError)
                 \/ ((ftype f = "title" \/ ftype f = "rich_text")
                     /\ is_list v = true
                     /\ (exn_cls e = TypeError
                         \/ exn_cls e = AttributeError)))).
Proof.
  intros py json_str schema e cleaned. split.
  - rewrite validate_by_cases. fold cleaned.
    rewrite <- parse_or_recover_raises.
    assert (Hp : forall data,
               Decoding.parsed py cleaned data
               <-> Limits.parse_or_recover py cleaned = Ok (Some data))
      by (intros data; apply parse_or_recover_parsed).
    destruct (Limits.parse_or_recover py cleaned) as [[data|]|e0] eqn:Ep.
    + split.
      * intros H. right.
        destruct data;
          try (left; eexists; split; [apply Hp; reflexivity|];
               split; [reflexivity|]; now inversion H).
        right. exists d. split; [apply Hp; reflexivity | exact H].
      * intros [H|[(data' & H1 & H2 & H3)|(d & H1 & H2)]].
        -- discriminate.
        -- apply Hp in H1. inversion H1. subst data'.
           destruct data; try discriminate; now rewrite H3.
        -- apply Hp in H1. inversion H1. subst data. exact H2.
    + split; [discriminate|].
      intros [H|[(data' & H1 & _)|(d & H1 & _)]];
        [discriminate | apply Hp in H1; discriminate
         | apply Hp in H1; discriminate].
    + split.
      * intros H. left. inversion H. reflexivity.
      * intros [H|[(data' & H1 & _)|(d & H1 & _)]];
          [inversion H; reflexivity | apply Hp in H1; discriminate
           | apply Hp in H1; discriminate].
  - intros d H.
    destruct (coerce_items_raises _ _ _ _ H) as (k & v & f & Hin & Hf & Hv).
    exists k, v, f. repeat split; auto.
    now apply coerce_value_raises.
Qed.

Lemma coercion_raises_only_on_witness :
  Limits.validate_and_fix_json Limits.within_limits "[1]"
    [("Name", mk_field "title" [])]
  = Raise (mk_exn AttributeError "'list' object has no attribute 'items'").
Proof.
  apply (proj2 (proj1 (coercion_raises_only_on Limits.within_limits "[1]"
                         [("Name", mk_field "title" [])]
                         (mk_exn AttributeError
                            "'list' object has no attribute 'items'")))).
  right. left. exists (PList [PInt 1]).
  split; [|split; reflexivity].
  left. split; [reflexivity | vm_compute; reflexivity].
Defined.

(** X5. When [json.loads] raises [JSONDecodeError] on the cleaned
    content, the retry on the text from the first opening brace to the last
    closing one decides.  If it gives a value, this is a mapping with
    distinct keys, which is coerced: [data.items()] does not fail on this
    path.  If it raises, whatever the exception, the result is the empty
    mapping. *)
Theorem recovery_yields_mapping_only :
  forall (py : Limits.interpreter) (json_str : string) (schema : schema_t),
    let cleaned := strip_fences json_str in
    Decoding.fails py cleaned ->
    (forall data,
        Decoding.returns py (Decoding.brace_part cleaned) data ->
        exists d,
          data = PDict d
          /\ NoDup (dict_keys d)
          /\ Limits.validate_and_fix_json py json_str schema
             = coerce_items schema d [])
    /\ ((forall data, ~ Decoding.returns py (Decoding.brace_part cleaned) data) ->
        Limits.validate_and_fix_json py json_str schema = Ok []).
Proof.
  intros py json_str schema cleaned Hl. apply fails_malformed in Hl.
  pose proof (parse_or_recover_retry py cleaned Hl) as Hp.
  rewrite validate_by_cases. fold cleaned. rewrite Hp. split.
  - intros data Hr. pose proof Hr as [_ Hj]. apply returns_decoded in Hr.
    rewrite Hr.
    pose proof (recovered_is_mapping cleaned data Hj) as Hd.
    destruct data; try discriminate. exists d.
    split; [reflexivity|]. split; [|reflexivity].
    eapply loads_dict_nodup; eauto.
  - intros Hn.
    destruct (Limits.loads py (Decoding.brace_part cleaned)) as [v| |e] eqn:Er;
      try reflexivity.
    exfalso. exact (not_returns py _ Hn v Er).
Qed.

Lemma recovery_yields_mapping_only_witness :
  (forall data,
      Decoding.returns Limits.within_limits
        (Decoding.brace_part (strip_fences sure_done)) data ->
      exists d,
        data = PDict d
        /\ NoDup (dict_keys d)
        /\ Limits.validate_and_fix_json Limits.within_limits sure_done
             [("Status", mk_field "select" [])]
           = coerce_items [("Status", mk_field "select" [])] d [])
  /\ ((forall data,
          ~ Decoding.returns Limits.within_limits
              (Decoding.brace_part (strip_fences sure_done)) data) ->
      Limits.validate_and_fix_json Limits.within_limits sure_done
        [("Status", mk_field "select" [])] = Ok []).
Proof.
  apply (recovery_yields_mapping_only Limits.within_limits sure_done
           [("Status", mk_field "select" [])]).
  left. split; [reflexivity | vm_compute; reflexivity].
Defined.

(** The retry of the conversational flow. *)
Lemma parse_response_retry py s :
  Limits.loads py s = Limits.Malformed ->
  Limits.parse_response py s
  = Ok match Limits.loads py (Decoding.brace_part s) with
       | Limits.Decoded data => data
       | _ => PDict (unparsable_notice s)
       end.
Proof.
  intros Hl. unfold Limits.parse_response, Decoding.brace_part. rewrite Hl.
  destruct (Limits.loads py (PyStr.slice s _ _)); reflexivity.
Qed.


Lemma parse_response_mapping py s d :
  Decoding.read_as_mapping py s d -> Limits.parse_response py s = Ok (PDict d).
Proof.
  intros [(v & Hr & Hn)|[[Hf Hr]|(Hf & Hn & Hd)]].
  - apply returns_decoded in Hr. unfold Limits.parse_response.
    now rewrite Hr, Hn.
  - apply fails_malformed in Hf. apply returns_decoded in Hr.
    now rewrite (parse_response_retry py s Hf), Hr.
  - apply fails_malformed in Hf. rewrite (parse_response_retry py s Hf).
    destruct (Limits.loads py (Decoding.brace_part s)) as [v| |e] eqn:Er;
      subst d; try reflexivity.
    exfalso. exact (not_returns py _ Hn v Er).
Qed.


(** The lifting returns on a mapping, in whatever order the set of the
    shared keys is iterated. *)
Lemma lift_properties_limits py d schema :
  exists d',
    Limits.lift_properties py (PDict d) schema = Ok (PDict d')
    /\ (dict_has d "properties" = true -> d' = d)
    /\ ((forall k, dict_has d k = true -> dict_has schema k = false) -> d' = d)
    /\ (forall k, k <> "properties" -> dict_has schema k = false ->
                  dict_get d' k = dict_get d k)
    /\ (NoDup (dict_keys d) -> NoDup (dict_keys d'))
    /\ (dict_has d "properties" = false ->
        (exists k, dict_has d k = true /\ dict_has schema k = true) ->
        exists p,
          dict_get d' "properties" = Some (PDict p)
          /\ (forall k, dict_get p k = if dict_has schema k then dict_get d k
                                       else None)
          /\ (NoDup (dict_keys d) ->
              forall k, k <> "properties" -> dict_has schema k = true ->
                        dict_get d' k = None)).
Proof.
  unfold Limits.lift_properties. cbn [Builtin.contains bind Builtin.keys].
  destruct (dict_has d "properties") eqn:Ep.
  - exists d. repeat split; auto. discriminate.
  - pose proof (Limits.set_order_permutes py
                  (filter (fun key => dict_has schema key)
                     (nodup string_dec (dict_keys d)))) as Hperm.
    remember (Limits.set_order py
                (filter (fun key => dict_has schema key)
                   (nodup string_dec (dict_keys d)))) as keys eqn:Ekeys.
    assert (Hkeys : forall k, In k keys
                              <-> dict_has d k = true /\ dict_has schema k = true).
    { intros k. split.
      - intros H. apply (Permutation_in _ Hperm) in H.
        rewrite filter_In, nodup_In in H.
        rewrite <- (dict_has_true d k) in H. tauto.
      - intros H. apply (Permutation_in _ (Permutation_sym Hperm)).
        rewrite filter_In, nodup_In.
        rewrite <- (dict_has_true d k). tauto. }
    assert (Hnd : NoDup keys).
    { apply (Permutation_NoDup (Permutation_sym Hperm)).
      apply NoDup_filter, NoDup_nodup. }
    clear Ekeys Hperm. destruct keys as [|k0 keys'].
    + exists d. repeat split; auto.
      intros _ [k [H1 H2]]. exfalso.
      apply (proj2 (Hkeys k)); auto.
    + assert (Hin0 : In k0 (k0 :: keys')) by (simpl; auto).
      cbv iota. revert Hkeys Hnd Hin0. generalize (k0 :: keys') as keys.
      intros keys Hkeys Hnd Hin0.
      destruct (pick_dict d keys []) as (p & Hp & Hg).
      { intros k Hk. now apply Hkeys. }
      destruct (delete_all_dict keys d Hnd) as (d1 & Hd1 & Hother & Hgone).
      { intros k Hk. now apply Hkeys. }
      rewrite Hp. cbn [bind]. rewrite Hd1. cbn [bind Builtin.setitem].
      eexists. split; [reflexivity|].
      assert (Hp' : forall k, dict_get p k = if dict_has schema k
                                             then dict_get d k else None).
      { intros k. rewrite Hg.
        destruct (in_dec string_dec k keys) as [Hin|Hin].
        - apply Hkeys in Hin. destruct Hin as [_ ->]. reflexivity.
        - destruct (dict_has schema k) eqn:Es; [|reflexivity].
          destruct (dict_has d k) eqn:Ed.
          + exfalso. apply Hin, Hkeys. auto.
          + unfold dict_has in Ed. destruct (dict_get d k); [discriminate|].
            reflexivity. }
      split; [discriminate|]. split.
      { intros Hno. exfalso.
        apply Hkeys in Hin0. destruct Hin0 as [H1 H2].
        rewrite (Hno _ H1) in H2. discriminate. }
      split.
      { intros k Hk Hs. rewrite dict_get_set_other by assumption.
        apply Hother. intros Hin. apply Hkeys in Hin.
        destruct Hin as [_ Hin]. congruence. }
      split.
      { intros Hd0. apply dict_set_nodup. now apply Hgone. }
      intros _ _. exists p. split; [apply dict_get_set_same|].
      split; [exact Hp'|].
      intros Hd0 k Hk Hs. rewrite dict_get_set_other by assumption.
      destruct (dict_has d k) eqn:Ed.
      * apply Hgone; auto. apply Hkeys. auto.
      * rewrite Hother.
        -- unfold dict_has in Ed. destruct (dict_get d k); [discriminate|].
           reflexivity.
        -- intros Hin. apply Hkeys in Hin. destruct Hin. congruence.
Qed.




(** X9. When [json.loads] raises [JSONDecodeError] on the content
    and gives no value on its brace part either (one of the braces is
    missing, or the call on the text between them raises, whatever the
    exception), and the schema has no field named [message] or
    [raw_response], the conversational flow returns the notice with the
    raw content, and the executor's usage, cost and model. *)
Theorem chat_unreadable_content_gets_notice :
  forall (py inner : Limits.interpreter) (schema : schema_t) (g : generated),
    Decoding.fails py (content g) ->
    PyStr.occurs "{" (content g) = false
    \/ PyStr.occurs "}" (content g) = false
    \/ (forall data,
           ~ Decoding.returns py (Decoding.brace_part (content g)) data) ->
    dict_has schema "message" = false ->
    dict_has schema "raw_response" = false ->
    Limits.chat_analyze_text_with_ai py inner schema (Ok g)
    = Ok (PDict (with_metadata g (unparsable_notice (content g)))).
Proof.
  intros py inner schema g Hl Hb Hm Hr.
  assert (Hp : Limits.parse_response py (content g)
               = Ok (PDict (unparsable_notice (content g)))).
  { apply parse_response_mapping. right. right.
    split; [exact Hl|]. split; [|reflexivity].
    intros data Hret. pose proof Hret as [_ Hj].
    unfold Decoding.brace_part in Hj.
    destruct Hb as [H|[H|H]].
    - rewrite recovery_needs_braces in Hj by auto. discriminate.
    - rewrite recovery_needs_braces in Hj by auto. discriminate.
    - exact (H data Hret). }
  unfold Limits.chat_analyze_text_with_ai. cbn [bind]. rewrite Hp.
  cbn [bind].
  change (ensure_message (PDict (unparsable_notice (content g))))
    with (Ok (PDict (unparsable_notice (content g)))).
  cbn [bind].
  destruct (lift_properties_limits py (unparsable_notice (content g)) schema)
    as (d2 & H2 & _ & Hsame & _).
  rewrite H2. cbn [bind]. rewrite Hsame; [reflexivity|].
  intros k. unfold dict_has at 1, unparsable_notice. cbn [dict_get].
  destruct (String.eqb_spec "message" k) as [E|_];
    [subst k; intros _; exact Hm|].
  destruct (String.eqb_spec "raw_response" k) as [E|_];
    [subst k; intros _; exact Hr|].
  discriminate.
Qed.

Lemma chat_unreadable_content_gets_notice_witness :
  Limits.chat_analyze_text_with_ai Limits.within_limits Limits.within_limits
    [("Status", mk_field "select" [])]
    (Ok (mk_generated "Sorry, no." (PDict []) (PInt 0) (PStr "m")))
  = Ok (PDict (with_metadata
                 (mk_generated "Sorry, no." (PDict []) (PInt 0) (PStr "m"))
                 (unparsable_notice "Sorry, no."))).
Proof.
  apply (chat_unreadable_content_gets_notice Limits.within_limits
           Limits.within_limits [("Status", mk_field "select" [])]
           (mk_generated "Sorry, no." (PDict []) (PInt 0) (PStr "m"))).
  - left. split; reflexivity.
  - left. reflexivity.
  - reflexivity.
  - reflexivity.
Defined.

(** X13. When [json.loads] raises [JSONDecodeError] on a text with
    no opening brace before an object text and no closing brace behind it,
    the retry of [validate_and_fix_json] and that of the conversational
    flow both call [json.loads] on the object text alone: its value is
    taken, and if it raises, whatever the exception, the one gives nothing,
    so that the empty mapping is returned, and the other the notice with
    the whole text. *)
Theorem recovery_reads_the_brace_part :
  forall (py : Limits.interpreter) (p o q : string),
    PyStr.occurs "{" p = false ->
    PyStr.occurs "}" q = false ->
    let s := p ++ "{" ++ o ++ "}" ++ q in
    Decoding.fails py s ->
    Decoding.brace_part s = "{" ++ o ++ "}"
    /\ (forall data,
           Decoding.returns py ("{" ++ o ++ "}") data ->
           Limits.parse_or_recover py s = Ok (Some data)
           /\ Limits.parse_response py s = Ok data)
    /\ ((forall data, ~ Decoding.returns py ("{" ++ o ++ "}") data) ->
        Limits.parse_or_recover py s = Ok None
        /\ Limits.parse_response py s = Ok (PDict (unparsable_notice s))).
Proof.
  intros py p o q Hp Hq s Hl. apply fails_malformed in Hl.
  destruct (brace_part p o q Hp Hq) as [_ Hs]. cbv zeta in Hs. fold s in Hs.
  change (PyStr.slice s (Some (PyStr.find s "{"))
            (Some (PyStr.rfind s "}" + 1)))
    with (Decoding.brace_part s) in Hs.
  split; [exact Hs|].
  rewrite (parse_or_recover_retry _ _ Hl), (parse_response_retry _ _ Hl), Hs.
  split.
  - intros data Hr. apply returns_decoded in Hr. rewrite Hr. auto.
  - intros Hn.
    destruct (Limits.loads py ("{" ++ o ++ "}")) as [v| |e] eqn:Er; auto.
    exfalso. exact (not_returns py _ Hn v Er).
Qed.

Lemma recovery_reads_the_brace_part_witness :
  let o := PyStr.dq ++ "Status" ++ PyStr.dq ++ ":" ++ PyStr.dq ++ "Done"
           ++ PyStr.dq in
  let s := "Sure! " ++ "{" ++ o ++ "}" ++ " Hope that helps." in
  Decoding.brace_part s = "{" ++ o ++ "}"
  /\ (forall data,
         Decoding.returns Limits.within_limits ("{" ++ o ++ "}") data ->
         Limits.parse_or_recover Limits.within_limits s = Ok (Some data)
         /\ Limits.parse_response Limits.within_limits s = Ok data)
  /\ ((forall data,
          ~ Decoding.returns Limits.within_limits ("{" ++ o ++ "}") data) ->
      Limits.parse_or_recover Limits.within_limits s = Ok None
      /\ Limits.parse_response Limits.within_limits s
         = Ok (PDict (unparsable_notice s))).
Proof.
  cbv zeta.
  apply (recovery_reads_the_brace_part Limits.within_limits "Sure! "
           (PyStr.dq ++ "Status" ++ PyStr.dq ++ ":" ++ PyStr.dq ++ "Done"
            ++ PyStr.dq) " Hope that helps.").
  - reflexivity.
  - reflexivity.
  - left. split; [reflexivity | vm_compute; reflexivity].
Defined.

(** ** Within the limits *)

(** With an interpreter that carries every call through and iterates a set
    in the order of the dict, the flows are those of [Ai]. *)
Lemma validate_within_limits json_str schema :
  Limits.validate_and_fix_json Limits.within_limits json_str schema
  = validate_and_fix_json json_str schema.
Proof.
  unfold Limits.validate_and_fix_json, validate_and_fix_json,
    Limits.parse_or_recover, parse_or_recover.
  rewrite loads_within_limits.
  destruct (Json.loads (strip_fences json_str)) as [v|]; [reflexivity|].
  destruct (_ && _); [|reflexivity].
  rewrite loads_within_limits.
  destruct (Json.loads _); reflexivity.
Qed.

Lemma analyze_within_limits text schema selected_model outcome :
  Limits.analyze_text_with_ai Limits.within_limits text schema selected_model
    outcome
  = analyze_text_with_ai text schema selected_model outcome.
Proof.
  unfold Limits.analyze_text_with_ai, analyze_text_with_ai.
  destruct outcome as [g|e]; [|reflexivity]. cbn [bind].
  now rewrite validate_within_limits.
Qed.

Lemma chat_within_limits schema outcome :
  Limits.chat_analyze_text_with_ai Limits.within_limits Limits.within_limits
    schema outcome
  = chat_analyze_text_with_ai schema outcome.
Proof.
  unfold Limits.chat_analyze_text_with_ai, chat_analyze_text_with_ai.
  destruct outcome as [g|e]; [|reflexivity]. cbn [bind].
  assert (Hp : Limits.parse_response Limits.within_limits (content g)
               = Ok (parse_response (content g))).
  { unfold Limits.parse_response, parse_response.
    rewrite loads_within_limits.
    destruct (Json.loads (content g)); [reflexivity|].
    rewrite loads_within_limits.
    destruct (Json.loads _); reflexivity. }
  rewrite Hp. cbn [bind].
  destruct (ensure_message (parse_response (content g))) as [d1|e1];
    [|reflexivity]. cbn [bind].
  change (Limits.lift_properties Limits.within_limits d1 schema)
    with (lift_properties d1 schema).
  destruct (lift_properties d1 schema) as [d2|e2]; [|reflexivity]. cbn [bind].
  assert (Hv : Limits.validate_properties Limits.within_limits
                 Limits.within_limits d2 schema
               = validate_properties d2 schema).
  { unfold Limits.validate_properties, validate_properties.
    destruct (has_truthy d2 "properties") as [[|]|e3]; try reflexivity.
    cbn [bind].
    destruct (Builtin.getitem d2 "properties") as [p|e4]; [|reflexivity].
    cbn [bind]. unfold Limits.dumps. cbn [Limits.within_limits
                                           Limits.dumps_raises bind].
    now rewrite validate_within_limits. }
  now rewrite Hv.
Qed.
